(** * Attestation orders: store, lifecycle and signed-message verification

    A shallow embedding of the attestation kit's order store
    ([DbService], in its provider-less and its provider-scoped variant)
    and of the wallet verification handler, together with the properties
    of the order lifecycle that hold on it.

    Conventions of the embedding.
    - A JavaScript data object is the list of its own entries in
      [Object.entries] order; attribute values are strings, so [String(v)]
      is the identity.
    - An argument or a property that may be missing is an [option], and
      [None] is [undefined].  A column read, which yields [null] where a
      property read yields [undefined], is an [option] as well; the code
      tests such values for truthiness, where the two act alike, and where
      it compares them strictly the model tells them apart.  The [data] and
      the [id] of a lookup filter are an object, respectively a number, or
      [undefined]: a filter whose [data] or [id] is [null] is not among the
      inputs of the model.
    - A string is the sequence of the bytes of its UTF-8 encoding.
    - The table [ATTESTATION_KIT_attestations] is the list of its rows in
      row order together with the next auto-increment id.
    - A [WHERE] clause is the sequence of its top-level tokens, evaluated
      with SQL's three-valued logic and with [AND] binding tighter than
      [OR].
    - An [async] method is a function from the store to an outcome
      (returned value or thrown exception) and the store it leaves. *)

From Stdlib Require Import List String Ascii ZArith Bool Lia.
Import ListNotations.
Local Open Scope string_scope.
Local Open Scope Z_scope.
Local Open Scope list_scope.

(** ** JavaScript values *)

(** A data object: [{k0: v0, k1: v1, ...}]. *)
Definition Data := list (string * string).

(** [String(v)] on an attribute value. *)
Definition String_ (v : string) : string := v.

(** [Object.keys], [Object.values], [Object.entries]. *)
Definition Object_keys (d : Data) : list string := map fst d.
Definition Object_values (d : Data) : list string := map snd d.
Definition Object_entries (d : Data) : list (string * string) := d.

(** Property read [d[k]]: [undefined] when the key is absent. *)
Fixpoint prop (k : string) (d : Data) : option string :=
  match d with
  | [] => None
  | (k', v) :: d' => if String.eqb k k' then Some v else prop k d'
  end.

(** Truthiness of a string-or-undefined value: the empty string and
    [undefined]/[null] are falsy. *)
Definition truthy (o : option string) : bool :=
  match o with
  | Some s => negb (String.eqb s "")
  | None => false
  end.

(** [a || undefined], [a || null]. *)
Definition or_undefined (o : option string) : option string :=
  if truthy o then o else None.

(** Strict equality [a === b] on string-or-undefined values. *)
Definition strict_eq (a b : option string) : bool :=
  match a, b with
  | Some x, Some y => String.eqb x y
  | None, None => true
  | _, _ => false
  end.

(** ** The order table *)

Inductive Status := pending | addressed | attested.

Definition Status_eqb (a b : Status) : bool :=
  match a, b with
  | pending, pending | addressed, addressed | attested, attested => true
  | _, _ => false
  end.

Definition Status_name (s : Status) : string :=
  match s with
  | pending => "pending"
  | addressed => "addressed"
  | attested => "attested"
  end.

(** One row of [ATTESTATION_KIT_attestations]. *)
Record Row := mkRow {
  id : Z;
  service_provider : option string;
  dataKey0 : option string;   dataValue0 : option string;
  dataKey1 : option string;   dataValue1 : option string;
  dataKey2 : option string;   dataValue2 : option string;
  dataKey3 : option string;   dataValue3 : option string;
  user_wallet_address : option string;
  user_device_address : option string;
  unit_ : option string;
  status : Status
}.

Definition dataKey (i : nat) (r : Row) : option string :=
  match i with
  | 0%nat => dataKey0 r
  | 1%nat => dataKey1 r
  | 2%nat => dataKey2 r
  | 3%nat => dataKey3 r
  | _ => None
  end.

Definition dataValue (i : nat) (r : Row) : option string :=
  match i with
  | 0%nat => dataValue0 r
  | 1%nat => dataValue1 r
  | 2%nat => dataValue2 r
  | 3%nat => dataValue3 r
  | _ => None
  end.

(** The store: rows in row order and the next auto-increment id. *)
Record Db := mkDb {
  rows : list Row;
  next_id : Z
}.

(** ** SQL conditions *)

(** Three-valued truth: a comparison with [NULL] is unknown. *)
Inductive tv := TT | FF | UU.

Definition tv_and (a b : tv) : tv :=
  match a, b with
  | FF, _ | _, FF => FF
  | TT, TT => TT
  | _, _ => UU
  end.

Definition tv_or (a b : tv) : tv :=
  match a, b with
  | TT, _ | _, TT => TT
  | FF, FF => FF
  | _, _ => UU
  end.

Definition tv_of_bool (b : bool) : tv := if b then TT else FF.

Definition is_TT (t : tv) : bool :=
  match t with TT => true | _ => false end.

(** [col = ?] on a nullable text column with a bound parameter. *)
Definition sql_eq (col param : option string) : tv :=
  match col, param with
  | Some a, Some b => tv_of_bool (String.eqb a b)
  | _, _ => UU
  end.

(** A comparison or a parenthesised group of the queries below. *)
Inductive Cond :=
| CProvider (sp : option string)        (* service_provider = ? *)
| CSlot (i : nat) (k v : option string) (* (dataKeyi = ? AND dataValuei = ?) *)
| CAnySlot (k v : option string)        (* ((dataKey0 = ? AND dataValue0 = ?) OR ... OR (dataKey3 = ? AND dataValue3 = ?)) *)
| CWallet (a : option string)           (* user_wallet_address = ? *)
| CId (n : option Z)                    (* id = ? *)
| CNotAttested                          (* status != 'attested' *)
| CTrue.                                (* 1=1 *)

(** A top-level token of a [WHERE] clause. *)
Inductive Tok := TAnd | TOr | TCond (c : Cond).

Definition eval_slot (r : Row) (i : nat) (k v : option string) : tv :=
  tv_and (sql_eq (dataKey i r) k) (sql_eq (dataValue i r) v).

Definition eval_cond (r : Row) (c : Cond) : tv :=
  match c with
  | CProvider sp => sql_eq (service_provider r) sp
  | CSlot i k v => eval_slot r i k v
  | CAnySlot k v =>
      tv_or (tv_or (tv_or (eval_slot r 0 k v) (eval_slot r 1 k v))
                   (eval_slot r 2 k v))
            (eval_slot r 3 k v)
  | CWallet a => sql_eq (user_wallet_address r) a
  | CId n =>
      match n with
      | Some n => tv_of_bool (Z.eqb (id r) n)
      | None => UU
      end
  | CNotAttested => tv_of_bool (negb (Status_eqb (status r) attested))
  | CTrue => TT
  end.

(** Evaluation of [c1 op c2 op c3 ...] with [AND] binding tighter than
    [OR]: [conj] is the value of the [AND]-chain being read and [disj]
    the disjunction of the chains already closed by an [OR]. *)
Fixpoint eval_where (r : Row) (q : list Tok) (disj conj : tv) : tv :=
  match q with
  | [] => tv_or disj conj
  | TCond c :: q' => eval_where r q' disj (tv_and conj (eval_cond r c))
  | TAnd :: q' => eval_where r q' disj conj
  | TOr :: q' => eval_where r q' (tv_or disj conj) TT
  end.

(** A row is selected when the clause is true (not false, not unknown). *)
Definition where_ (q : list Tok) (r : Row) : bool :=
  is_TT (eval_where r q FF TT).

(** [SELECT * FROM ATTESTATION_KIT_attestations WHERE q]. *)
Definition sql_select (q : list Tok) (db : Db) : list Row :=
  filter (where_ q) (rows db).

(** [UPDATE ATTESTATION_KIT_attestations SET ... WHERE q]. *)
Definition sql_update (set : Row -> Row) (q : list Tok) (db : Db) : Db :=
  mkDb (map (fun r => if where_ q r then set r else r) (rows db)) (next_id db).

(** [SET user_wallet_address = ?, status = ...]. *)
Definition set_wallet_status (a : option string) (s : Status) (r : Row) : Row :=
  mkRow (id r) (service_provider r)
        (dataKey0 r) (dataValue0 r) (dataKey1 r) (dataValue1 r)
        (dataKey2 r) (dataValue2 r) (dataKey3 r) (dataValue3 r)
        a (user_device_address r) (unit_ r) s.

(** [SET unit = ?, status = 'attested']. *)
Definition set_unit_attested (u : option string) (r : Row) : Row :=
  mkRow (id r) (service_provider r)
        (dataKey0 r) (dataValue0 r) (dataKey1 r) (dataValue1 r)
        (dataKey2 r) (dataValue2 r) (dataKey3 r) (dataValue3 r)
        (user_wallet_address r) (user_device_address r) u attested.

(** [SET user_device_address = ?]. *)
Definition set_device (d : option string) (r : Row) : Row :=
  mkRow (id r) (service_provider r)
        (dataKey0 r) (dataValue0 r) (dataKey1 r) (dataValue1 r)
        (dataKey2 r) (dataValue2 r) (dataKey3 r) (dataValue3 r)
        (user_wallet_address r) d (unit_ r) (status r).

(** ** Errors, returned values and the store monad *)

(** A property of the object handed to [ErrorWithMessage]. *)
Inductive MetaVal :=
| MVal (o : option string)
| MObj (d : option Data).

Definition Meta := list (string * MetaVal).

(** Object literal semantics: a later property of the same name replaces
    the value of the earlier one. *)
Fixpoint obj_set (k : string) (v : MetaVal) (o : Meta) : Meta :=
  match o with
  | [] => [(k, v)]
  | (k', v') :: o' =>
      if String.eqb k k' then (k, v) :: o' else (k', v') :: obj_set k v o'
  end.

(** [{...o, ...data}]. *)
Definition obj_spread (data : Data) (o : Meta) : Meta :=
  fold_left (fun o kv => obj_set (fst kv) (MVal (Some (snd kv))) o) data o.

Fixpoint obj_get (k : string) (o : Meta) : option MetaVal :=
  match o with
  | [] => None
  | (k', v) :: o' => if String.eqb k k' then Some v else obj_get k o'
  end.

(** What a method can throw.  Modelled from the spec: the class
    [ErrorWithMessage] (utils/ErrorWithMessage) is not part of the
    sources; it is taken as the pair of its two constructor arguments,
    the message and the object of error properties, whose [code] is one
    of the codes of the error taxonomy. *)
Inductive Exn :=
| ErrorWithMessage (message : string) (meta : Meta)
| ReferenceError (name : string)
| TypeError
| SyntaxError
| SqlError.

Definition code (c : string) : string * MetaVal := ("code", MVal (Some c)).

(** The [code] an exception carries, if any. *)
Definition Exn_code (e : Exn) : option MetaVal :=
  match e with
  | ErrorWithMessage _ meta => obj_get "code" meta
  | _ => None
  end.

(** The values the store methods return. *)
Inductive Value :=
| VUndefined
| VNull
| VNum (n : Z)
| VOrder (r : Row)
| VRows (l : list Row)
| VError (message : string) (meta : Meta).

(** Truthiness of a returned value: objects and arrays are truthy. *)
Definition Value_truthy (v : Value) : bool :=
  match v with
  | VUndefined | VNull => false
  | VNum n => negb (Z.eqb n 0)
  | VOrder _ | VRows _ | VError _ _ => true
  end.

(** Property reads on a returned value; only a row has the columns. *)
Definition order_id (v : Value) : option Z :=
  match v with VOrder r => Some (id r) | _ => None end.
Definition order_status (v : Value) : option Status :=
  match v with VOrder r => Some (status r) | _ => None end.
Definition order_user_wallet_address (v : Value) : option string :=
  match v with VOrder r => user_wallet_address r | _ => None end.
Definition order_unit (v : Value) : option string :=
  match v with VOrder r => unit_ r | _ => None end.
Definition order_service_provider (v : Value) : option string :=
  match v with VOrder r => service_provider r | _ => None end.

(** [order.status === s]. *)
Definition status_is (v : Value) (s : Status) : bool :=
  match order_status v with
  | Some s' => Status_eqb s' s
  | None => false
  end.

Inductive Outcome (A : Type) :=
| Returned (a : A)
| Thrown (e : Exn).
Arguments Returned {A} a.
Arguments Thrown {A} e.

(** A store computation: outcome and the store left behind.  A write made
    before a throw stays. *)
Definition M (A : Type) := Db -> Outcome A * Db.

Definition ret {A} (a : A) : M A := fun db => (Returned a, db).
Definition throw {A} (e : Exn) : M A := fun db => (Thrown e, db).
Definition bind {A B} (c : M A) (k : A -> M B) : M B :=
  fun db =>
    match c db with
    | (Returned a, db') => k a db'
    | (Thrown e, db') => (Thrown e, db')
    end.

Notation "x <- c ;; k" := (bind c (fun x => k))
  (at level 61, c at next level, right associativity).

(** [await db.query("SELECT ...")]. *)
Definition db_select (q : list Tok) : M (list Row) :=
  fun db => (Returned (sql_select q db), db).

(** [await db.query("UPDATE ...")]. *)
Definition db_update (set : Row -> Row) (q : list Tok) : M Value :=
  fun db => (Returned VUndefined, sql_update set q db).

(** Modelled from the spec: the table declaration (column defaults) is not
    part of the sources and the [INSERT] statements name no status; the
    spec gives the status of a new row as [pending], or [addressed] if an
    address is supplied. *)
Definition inserted_status (address : option string) : Status :=
  match address with
  | Some _ => addressed
  | None => pending
  end.

(** [INSERT INTO ATTESTATION_KIT_attestations (<first column>, dataKey0.., dataValue0..)
    VALUES (?, ?.., ?..)]: the columns are numbered by the position of the
    key; the statement is ill-formed with no key and names a missing column
    with more than four.  The result carries [insertId]. *)
Definition db_insert (sp address : option string) (dataKeys dataValues : list string)
  : M Z :=
  fun db =>
    if ((List.length dataKeys =? 0) || (4 <? List.length dataKeys))%nat
    then (Thrown SqlError, db)
    else
      let r := mkRow (next_id db) sp
                 (nth_error dataKeys 0) (nth_error dataValues 0)
                 (nth_error dataKeys 1) (nth_error dataValues 1)
                 (nth_error dataKeys 2) (nth_error dataValues 2)
                 (nth_error dataKeys 3) (nth_error dataValues 3)
                 address None None (inserted_status address) in
      (Returned (next_id db), mkDb (rows db ++ [r]) (next_id db + 1)).

(** The validators of utils/Validation, which is not part of the sources:
    they are parameters of the store. *)
Record Validation := mkValidation {
  isDataObject : option Data -> bool;
  isWalletAddress : option string -> bool;
  isServiceProvider : option string -> bool;
  isUnit : option string -> bool
}.

(** [if (!query.endsWith('WHERE ')) query += ' AND '; query += c]. *)
Definition and_also (query : list Tok) (c : Cond) : list Tok :=
  match query with
  | [] => [TCond c]
  | _ => query ++ [TAnd; TCond c]
  end.

(** [attestationRows[0] || null]. *)
Definition first_or_null (attestationRows : list Row) : Value :=
  match attestationRows with
  | r :: _ => VOrder r
  | [] => VNull
  end.

(** ** The provider-less store *)

Module Providerless.
Section Store.
Variable V : Validation.

(** The [forEach] over the entries: one parenthesised four-slot group per
    entry, joined by [AND]. *)
Fixpoint forEach_entry (dataEntries : list (string * string)) (index : nat)
    (query : list Tok) : list Tok :=
  match dataEntries with
  | [] => query
  | (key, value) :: rest =>
      let query := if (0 <? index)%nat then query ++ [TAnd] else query in
      forEach_entry rest (S index)
        (query ++ [TCond (CAnySlot (Some key) (Some (String_ value)))])
  end.

Definition build_query (data : option Data) (address : option string)
    (id_ : option Z) (excludeAttested : bool) : list Tok :=
  let dataEntries := Object_entries (match data with Some d => d | None => [] end) in
  let query :=
    if (List.length dataEntries =? 0)%nat then [TCond CTrue]
    else forEach_entry dataEntries 0 [] in
  let query := if truthy address then and_also query (CWallet address) else query in
  let query := match id_ with Some _ => and_also query (CId id_) | None => query end in
  if excludeAttested then and_also query CNotAttested else query.

(** The filter's [data] is an object, for which [typeof data === 'object']
    holds and the validator is asked, or [undefined], for which it is not;
    its [id] is a number or [undefined]. *)
Definition getAttestationOrders (data : option Data) (address : option string)
    (id_ : option Z) (excludeAttested multiple : bool) : M Value :=
  if truthy address && negb (isWalletAddress V address) then
    throw (ErrorWithMessage "Invalid wallet address" [code "INVALID_DATA"])
  else if match id_ with Some n => n <=? 0 | None => false end then
    throw (ErrorWithMessage "Invalid id parameter" [code "INVALID_DATA"])
  else if match data with Some _ => negb (isDataObject V data) | None => false end then
    throw (ErrorWithMessage "Invalid data object" [code "INVALID_DATA"; ("data", MObj data)])
  else
    attestationRows <- db_select (build_query data address id_ excludeAttested) ;;
    if multiple then ret (VRows attestationRows)
    else ret (first_or_null attestationRows).

Definition createAttestationOrder (data : option Data) (address : option string)
    (allowDuplicates : bool) : M Value :=
  if negb (isDataObject V data) then
    throw (ErrorWithMessage "Invalid data object" [code "INVALID_DATA"; ("data", MObj data)])
  else if truthy address && negb (isWalletAddress V address) then
    throw (ErrorWithMessage "Invalid address"
             [code "INVALID_DATA"; ("data", MObj data); ("address", MVal address)])
  else
    order <- getAttestationOrders data (or_undefined address) None allowDuplicates false ;;
    if negb (Value_truthy order) then
      match data with
      | None => throw TypeError
      | Some d =>
          let dataValues := Object_values d in
          let dataKeys := Object_keys d in
          insertId <- db_insert None (or_undefined address) dataKeys (map String_ dataValues) ;;
          ret (VNum insertId)
      end
    else if negb allowDuplicates then
      throw (ErrorWithMessage "Order already exists"
               (obj_set "unit" (MVal (order_unit order))
                  (obj_spread (match data with Some d => d | None => [] end)
                     [code "ALREADY_EXISTS";
                      ("status", MVal (option_map Status_name (order_status order)))])))
    else
      ret (match order_id order with Some n => VNum n | None => VUndefined end).

Definition removeWalletAddressInAttestationOrder (data : option Data)
    (address : option string) : M Value :=
  if negb (isDataObject V data) then
    throw (ErrorWithMessage "Invalid data object" [code "INVALID_DATA"; ("data", MObj data)])
  else
    order <- getAttestationOrders data address None true false ;;
    if Value_truthy order then
      if negb (truthy (order_user_wallet_address order)) then
        throw (ErrorWithMessage "User address is not found" [code "ADDRESS_NOT_FOUND"])
      else if status_is order attested || truthy (order_unit order) then
        throw (ErrorWithMessage "Address is attested" [code "ALREADY_ATTESTED"])
      else
        db_update (set_wallet_status None pending) [TCond (CId (order_id order))]
    else
      throw (ErrorWithMessage "Order not found or already attested" [code "ADDRESS_NOT_FOUND"]).

Definition updateWalletAddressInAttestationOrder (data : option Data)
    (walletAddress : option string) : M Value :=
  if isWalletAddress V walletAddress && isDataObject V data then
    order <- getAttestationOrders data None None true false ;;
    if Value_truthy order then
      if status_is order attested then
        throw (ErrorWithMessage "Address is already attested" [code "ALREADY_ATTESTED"])
      else
        db_update (set_wallet_status walletAddress addressed)
          [TCond CNotAttested; TAnd; TCond (CId (order_id order))]
    else
      throw (ErrorWithMessage "Order not found" [code "ORDER_NOT_FOUND"])
  else
    throw (ErrorWithMessage "Error occurred during address update" [code "INVALID_DATA"]).

Definition updateDeviceAddressInAttestationOrder (orderId : option Z)
    (deviceAddress : option string) : M Value :=
  if match orderId with Some n => negb (n =? 0) | None => false end
     && truthy deviceAddress then
    db_update (set_device deviceAddress)
      [TCond CNotAttested; TAnd; TCond (CId orderId)]
  else
    throw (ErrorWithMessage "Error occurred during address update" [code "INVALID_DATA"]).

Definition updateUnitAndChangeStatus (data : option Data) (address unit : option string)
    : M Value :=
  if isUnit V unit && isWalletAddress V address && isDataObject V data then
    order <- getAttestationOrders data address None true false ;;
    if Value_truthy order then
      db_update (set_unit_attested unit)
        [TCond (CId (order_id order)); TAnd; TCond (CWallet address)]
    else
      throw (ErrorWithMessage "Order not found" [code "ORDER_NOT_FOUND"])
  else
    throw (ErrorWithMessage "Invalid  data" [code "INVALID_DATA"; ("data", MObj data)]).

End Store.
End Providerless.

(** ** The provider-scoped store *)

Module ProviderScoped.
Section Store.
Variable V : Validation.

(** The text appended for one entry: [ AND (slot 0) OR (slot 1) OR (slot 2)
    OR (slot 3) ], with no parentheses around the four alternatives. *)
Definition entry_tokens (key value : string) : list Tok :=
  [TAnd; TCond (CSlot 0 (Some key) (Some value));
   TOr;  TCond (CSlot 1 (Some key) (Some value));
   TOr;  TCond (CSlot 2 (Some key) (Some value));
   TOr;  TCond (CSlot 3 (Some key) (Some value))].

Definition build_query (serviceProvider : option string) (dataEntries : list (string * string))
    (address : option string) (excludeAttested : bool) : list Tok :=
  let query := [TCond (CProvider serviceProvider)] in
  let query :=
    fold_left (fun query kv => query ++ entry_tokens (fst kv) (snd kv)) dataEntries query in
  let query := if truthy address then query ++ [TAnd; TCond (CWallet address)] else query in
  if excludeAttested then query ++ [TAnd; TCond CNotAttested] else query.

Definition getAttestationOrders (serviceProvider : option string) (data : option Data)
    (address : option string) (excludeAttested multiple : bool) : M Value :=
  if negb (isServiceProvider V serviceProvider) then
    throw (ErrorWithMessage "Invalid service provider" [code "INVALID_DATA"])
  else if truthy address && negb (isWalletAddress V address) then
    throw (ErrorWithMessage "Invalid wallet address" [code "INVALID_DATA"])
  else if negb (isDataObject V data) then
    ret (VError "Invalid data object" [code "INVALID_DATA"; ("data", MObj data)])
  else
    match data with
    | None => throw TypeError
    | Some d =>
        attestationRows <-
          db_select (build_query serviceProvider (Object_entries d) address excludeAttested) ;;
        if multiple then ret (VRows attestationRows)
        else ret (first_or_null attestationRows)
    end.

(** In the [ALREADY_EXISTS] branch the object literal reads the identifiers
    [username] and [userId], which no scope of the module binds: building
    the error's properties throws [ReferenceError] at [username], the first
    of them to be evaluated. *)
Definition createAttestationOrder (serviceProvider : option string) (data : option Data)
    (allowDuplicates : bool) : M Value :=
  if negb (isDataObject V data) then
    ret (VError "Invalid data object" [code "INVALID_DATA"; ("data", MObj data)])
  else
    order <- getAttestationOrders serviceProvider data None allowDuplicates false ;;
    if negb (Value_truthy order) then
      match data with
      | None => throw TypeError
      | Some d =>
          let dataValues := Object_values d in
          let dataKeys := Object_keys d in
          insertId <- db_insert serviceProvider None dataKeys (map String_ dataValues) ;;
          ret (VNum insertId)
      end
    else if negb allowDuplicates then
      throw (ReferenceError "username")
    else
      ret (match order_id order with Some n => VNum n | None => VUndefined end).

Definition removeWalletAddressInAttestationOrder (serviceProvider : option string)
    (data : option Data) (address : option string) : M Value :=
  if negb (isServiceProvider V serviceProvider) then
    throw (ErrorWithMessage "Invalid service provider" [code "INVALID_DATA"])
  else if negb (isDataObject V data) then
    ret (VError "Invalid data object" [code "INVALID_DATA"; ("data", MObj data)])
  else
    order <- getAttestationOrders serviceProvider data address true false ;;
    if Value_truthy order then
      if negb (truthy (order_user_wallet_address order)) then
        throw (ErrorWithMessage "User address is not found" [code "ADDRESS_NOT_FOUND"])
      else if negb (status_is order addressed) then
        throw (ErrorWithMessage "Address is attested" [code "ALREADY_ATTESTED"])
      else
        db_update (set_wallet_status None pending)
          [TCond (CProvider serviceProvider); TAnd; TCond (CId (order_id order))]
    else
      throw (ErrorWithMessage "Order not found or already attested" [code "ADDRESS_NOT_FOUND"]).

Definition updateWalletAddressInAttestationOrder (serviceProvider : option string)
    (data : option Data) (walletAddress : option string) : M Value :=
  if isServiceProvider V serviceProvider && isWalletAddress V walletAddress
     && isDataObject V data then
    order <- getAttestationOrders serviceProvider data None true false ;;
    if Value_truthy order then
      if status_is order attested then
        throw (ErrorWithMessage "Address is already attested" [code "ALREADY_ATTESTED"])
      else
        db_update (set_wallet_status walletAddress addressed)
          [TCond (CProvider serviceProvider); TAnd; TCond CNotAttested; TAnd;
           TCond (CId (order_id order))]
    else
      throw (ErrorWithMessage "Order not found" [code "ORDER_NOT_FOUND"])
  else
    throw (ErrorWithMessage "Error occurred during address update" [code "INVALID_DATA"]).

Definition updateUnitAndChangeStatus (serviceProvider : option string) (data : option Data)
    (address unit : option string) : M Value :=
  if isServiceProvider V serviceProvider && isUnit V unit && isWalletAddress V address
     && isDataObject V data then
    order <- getAttestationOrders serviceProvider data address true false ;;
    if Value_truthy order then
      db_update (set_unit_attested unit)
        [TCond (CProvider serviceProvider); TAnd; TCond (CId (order_id order)); TAnd;
         TCond (CWallet address)]
    else
      throw (ErrorWithMessage "Order not found" [code "ORDER_NOT_FOUND"])
  else
    throw (ErrorWithMessage "Invalid  data" [code "INVALID_DATA"; ("data", MObj data)]).

End Store.
End ProviderScoped.

(** ** String operations of the verification handler *)

(** A string is the sequence of the bytes of its UTF-8 encoding.  The texts
    the handler searches for are ASCII, and the bytes of an ASCII character
    occur in an encoding only as that character, so that searching the bytes
    finds what searching the characters finds. *)

(** [s.includes(pat)]. *)
Fixpoint includes (pat s : string) : bool :=
  prefix pat s ||
  match s with
  | EmptyString => false
  | String _ s' => includes pat s'
  end.

Fixpoint drop (n : nat) (s : string) : string :=
  match n, s with
  | S n', String _ s' => drop n' s'
  | _, _ => s
  end.

(** [s.replace(pat, rep)] with a string pattern: the first occurrence only. *)
Fixpoint replace (pat rep s : string) : string :=
  if prefix pat s then (rep ++ drop (String.length pat) s)%string
  else
    match s with
    | EmptyString => EmptyString
    | String c s' => String c (replace pat rep s')
    end.

(** The string with the given bytes. *)
Definition bytes (l : list nat) : string :=
  string_of_list_ascii (map ascii_of_nat l).

(** The code points [trim] strips, each as its encoding: the WhiteSpace of
    the language (TAB, VT, FF, SP, NBSP U+00A0, the other space separators
    U+1680, U+2000 to U+200A, U+202F, U+205F, U+3000, and ZWNBSP U+FEFF) and
    its LineTerminator (LF, CR, U+2028, U+2029). *)
Definition white_space : list string :=
  Eval cbv in
    ([bytes [9]; bytes [10]; bytes [11]; bytes [12]; bytes [13]; bytes [32];
      bytes [194; 160]; bytes [225; 154; 128]]
     ++ map (fun n => bytes [226; 128; n]) (seq 128 11)
     ++ [bytes [226; 128; 168]; bytes [226; 128; 169]; bytes [226; 128; 175];
         bytes [226; 129; 159]; bytes [227; 128; 128]; bytes [239; 187; 191]])%nat.

(** The string is one of these code points. *)
Definition is_white_space (s : string) : bool :=
  existsb (String.eqb s) white_space.

(** [s.trimStart()]: an encoding is one, two or three bytes long. *)
Fixpoint trimStart (s : string) : string :=
  match s with
  | EmptyString => EmptyString
  | String c1 s1 =>
      if is_white_space (String c1 EmptyString) then trimStart s1
      else
        match s1 with
        | EmptyString => s
        | String c2 s2 =>
            if is_white_space (String c1 (String c2 EmptyString)) then trimStart s2
            else
              match s2 with
              | EmptyString => s
              | String c3 s3 =>
                  if is_white_space (String c1 (String c2 (String c3 EmptyString)))
                  then trimStart s3
                  else s
              end
        end
  end.

(** [s.trimEnd()]: read from the end, what is left of the tail is dropped
    together with the byte before it once the two make up a stripped code
    point. *)
Fixpoint trimEnd (s : string) : string :=
  match s with
  | EmptyString => EmptyString
  | String c s' =>
      let t := String c (trimEnd s') in
      if is_white_space t then EmptyString else t
  end.

(** [s.trim()]. *)
Definition trim (s : string) : string := trimEnd (trimStart s).

(** The LineTerminator code points, which [.] of a regular expression does
    not match: LF, CR, U+2028 and U+2029. *)
Definition line_terminators : list string :=
  Eval cbv in
    [bytes [10]; bytes [13]; bytes [226; 128; 168]; bytes [226; 128; 169]]%nat.

(** A line terminator stands at the start of the string. *)
Definition starts_line_terminator (s : string) : bool :=
  existsb (fun t => prefix t s) line_terminators.

(** [(.+?)\)] anchored at the start of [s]: the shortest non-empty run of
    [.] that a closing parenthesis follows. *)
Fixpoint lazy_group (s : string) : option string :=
  match s with
  | EmptyString => None
  | String c s' =>
      if starts_line_terminator s then None
      else
        match s' with
        | String ")" _ => Some (String c EmptyString)
        | _ => option_map (String c) (lazy_group s')
        end
  end.

(** [data.match(/\(signed-message:(.+?)\)/)]: the captured group of the
    leftmost match. *)
Fixpoint match_signed_message (data : string) : option string :=
  match (if prefix "(signed-message:" data then lazy_group (drop 16 data) else None) with
  | Some g => Some g
  | None =>
      match data with
      | EmptyString => None
      | String _ rest => match_signed_message rest
      end
  end.

(** [isEqual] of lodash on two data objects: the same keys with the same
    values, in any order. *)
Definition isEqual (a b : Data) : bool :=
  (List.length a =? List.length b)%nat
  && forallb (fun kv => strict_eq (prop (fst kv) b) (Some (snd kv))) a.

(** ** The verification handler *)

(** The decoded envelope [{signed_message, authors: [{address}]}]. *)
Record Envelope := mkEnvelope {
  signed_message : string;
  authors : list string
}.

(** The collaborators of the handler that live outside the sources: the
    runtime's decoders, the ledger's signature check, the issuance call, the
    configuration and the helper [transformDataValuesToObject]. *)
Record Host := mkHost {
  (* [JSON.parse(Buffer.from(b64, 'base64').toString('utf8'))]; [None] when it throws *)
  decode_envelope : string -> option Envelope;
  (* [validation.validateSignedMessage]: [true] when the callback receives an error *)
  validateSignedMessage_err : Envelope -> bool;
  (* [const { message, ...data } = JSON.parse(text)]; [None] when it throws *)
  parse_signedData : string -> option (option string * Data);
  (* [postAttestationProfile(provider, address, data)]; [None] when it rejects *)
  postAttestationProfile : option string -> option string -> Data -> option string;
  (* [transformDataValuesToObject(order)]; [None] when it throws *)
  transformDataValuesToObject : Value -> option Data;
  (* [conf.serviceProvider] *)
  conf_serviceProvider : option string
}.

(** The catalogue of replies ([dictionary]) and the literal texts. *)
Inductive Reply :=
| INVALID_FORMAT_SIGNED_MESSAGE
| VALIDATION_FAILED
| MISMATCH_ADDRESS
| MISMATCH_DATA
| CANNOT_FIND_ORDER
| ALREADY_ATTESTED (provider walletAddress : string)
| Text (s : string).

(** What the handler does to the outside, in order. *)
Inductive Effect :=
| sendMessageToDevice (device_address : string) (r : Reply)
| lookupOrder (serviceProvider : option string) (data : Data) (address : option string)
| issue (provider address : option string) (data : Data)
| emit_ATTESTED (provider address : option string) (unit : string) (data : Data)
    (device_address : string).

Module VerifyHandler.
Section Handler.
Variable V : Validation.
Variable H : Host.

(** [conf.serviceProvider || 'default']. *)
Definition defaultServiceProvider : string :=
  match or_undefined (conf_serviceProvider H) with
  | Some s => s
  | None => "default"
  end.

(** [data.provider === order.service_provider]: a column read yields a
    string or [null], a property that is not there [undefined]. *)
Definition provider_matches (data : Data) (order : Value) : bool :=
  match order with
  | VOrder r =>
      match prop "provider" data, service_provider r with
      | Some a, Some b => String.eqb a b
      | _, _ => false
      end
  | _ =>
      match prop "provider" data with
      | None => true
      | Some _ => false
      end
  end.

(** The inner [try]: issuance, then the only write of the handler. *)
Definition finalize (from_address : string) (order : Value) (data : Data)
    (address : option string) (db : Db) : list Effect * Db :=
  let announce :=
    sendMessageToDevice from_address
      (Text "Your data was attested successfully! We will send you unit later.") in
  let call := issue (order_service_provider order) address data in
  let failed := sendMessageToDevice from_address (Text "Unknown error! Please try again.") in
  match postAttestationProfile H (order_service_provider order) address data with
  | None => ([announce; call; failed], db)
  | Some unit =>
      match ProviderScoped.updateUnitAndChangeStatus V (prop "provider" data) (Some data)
              address (Some unit) db with
      | (Returned _, db') =>
          ([announce; call;
            emit_ATTESTED (prop "provider" data) address unit data from_address;
            sendMessageToDevice from_address (Text ("Attestation unit: " ++ unit)%string)],
           db')
      | (Thrown _, db') => ([announce; call; failed], db')
      end
  end.

(** [message && message.includes('I own the address:')]. *)
Definition uses_phrase (message : option string) : bool :=
  match message with
  | Some m => negb (String.eqb m "") && includes "I own the address:" m
  | None => false
  end.

(** The claimed address: [data.address], or what follows the ownership
    phrase when the message carries it. *)
Definition claim_address (message : option string) (data : Data) : option string :=
  if uses_phrase message then
    option_map (fun m => trim (replace "I own the address: " "" m)) message
  else prop "address" data.

(** The body of the outer [try]: effects so far, the exception if one
    escapes, and the store.  In the [attested] branch the reply's argument
    [{ username, userId: id }] reads identifiers that no scope of the
    module binds, so evaluating it throws [ReferenceError] before anything
    is sent. *)
Definition try_claim (from_address walletAddress signed_message : string) (db : Db)
    : list Effect * option Exn * Db :=
  match parse_signedData H (trim signed_message) with
  | None => ([], Some SyntaxError, db)
  | Some (message, data) =>
      let address := claim_address message data in
      if uses_phrase message && negb (isWalletAddress V address) then
        ([sendMessageToDevice from_address INVALID_FORMAT_SIGNED_MESSAGE], None, db)
      else if negb (truthy address) || strict_eq (Some walletAddress) address then
        let asked := lookupOrder (Some defaultServiceProvider) data address in
        match ProviderScoped.getAttestationOrders V (Some defaultServiceProvider) (Some data)
                address false false db with
        | (Thrown e, db') => ([asked], Some e, db')
        | (Returned order, db') =>
            if Value_truthy order then
              if status_is order attested then
                ([asked], Some (ReferenceError "username"), db')
              else
                match transformDataValuesToObject H order with
                | None => ([asked], Some TypeError, db')
                | Some stored =>
                    if isEqual stored data && provider_matches data order then
                      let (done, db'') := finalize from_address order data address db' in
                      (asked :: done, None, db'')
                    else
                      ([asked; sendMessageToDevice from_address MISMATCH_DATA], None, db')
                end
            else
              ([asked; sendMessageToDevice from_address CANNOT_FIND_ORDER], None, db')
        end
      else
        ([sendMessageToDevice from_address MISMATCH_ADDRESS], None, db)
  end.

(** The callback of [validateSignedMessage]. *)
Definition on_validated (from_address : string) (objSignedMessage : Envelope) (db : Db)
    : list Effect * Db :=
  if validateSignedMessage_err H objSignedMessage then
    ([sendMessageToDevice from_address VALIDATION_FAILED], db)
  else
    match authors objSignedMessage with
    | [] => ([sendMessageToDevice from_address VALIDATION_FAILED], db)
    | walletAddress :: _ =>
        match try_claim from_address walletAddress (signed_message objSignedMessage) db with
        | (done, None, db') => (done, db')
        | (done, Some _, db') =>
            (done ++ [sendMessageToDevice from_address INVALID_FORMAT_SIGNED_MESSAGE], db')
        end
    end.

Definition verifyHandler (from_address data : string) (db : Db) : list Effect * Db :=
  match match_signed_message data with
  | None => ([sendMessageToDevice from_address INVALID_FORMAT_SIGNED_MESSAGE], db)
  | Some signedMessageBase64 =>
      match decode_envelope H signedMessageBase64 with
      | None =>
          ([sendMessageToDevice from_address (Text "Unknown error! Please try again.")], db)
      | Some objSignedMessage => on_validated from_address objSignedMessage db
      end
  end.

End Handler.
End VerifyHandler.

(** ** Predicates of the statements and sample collaborators *)

(** Slot [i] of the row holds the pair. *)
Definition slot_holds (r : Row) (kv : string * string) (i : nat) : Prop :=
  (i < 4)%nat /\ dataKey i r = Some (fst kv) /\ dataValue i r = Some (String_ (snd kv)).

(** The pairs a row stores, slot by slot. *)
Definition stored_pairs (r : Row) : list (string * string) :=
  flat_map (fun i =>
              match dataKey i r, dataValue i r with
              | Some k, Some v => [(k, v)]
              | _, _ => []
              end) [0; 1; 2; 3]%nat.

(** Two attribute sets are equal as sets of pairs. *)
Definition same_pairs (a b : list (string * string)) : Prop :=
  forall kv, In kv a <-> In kv b.

(** The conditions of a filter other than the data. *)
Definition side_conditions (address : option string) (id_ : option Z)
    (excludeAttested : bool) (r : Row) : Prop :=
  (truthy address = true -> user_wallet_address r = address) /\
  (forall n, id_ = Some n -> id r = n) /\
  (excludeAttested = true -> status r <> attested).

(** The ids of a store are those of a primary key with auto-increment. *)
Definition wf_db (db : Db) : Prop :=
  NoDup (map id (rows db)) /\ Forall (fun r => id r < next_id db) (rows db).

(** An issuance receipt is recorded only on an attested order. *)
Definition unit_inv (db : Db) : Prop :=
  Forall (fun r => truthy (unit_ r) = true -> status r = attested) (rows db).



(** One step of the store: nothing, an [UPDATE] that keeps the ids, or an
    [INSERT]. *)
Inductive store_step (db : Db) : Db -> Prop :=
| step_same : store_step db db
| step_update set q :
    (forall x, id (set x) = id x) -> store_step db (sql_update set q db)
| step_insert sp a ks vs : store_step db (snd (db_insert sp a ks vs db)).

(** Get-or-create on a store: called twice, [create] returns the id [n] both
    times and its second call leaves the store [db1] of the first as it
    is; [n] is the id of the order [r] that [lookup] returns in [db1], which
    is the order [lookup] returned in [db] or, if it returned none there,
    the row [fresh] that the first call appended. *)
Definition get_or_create (create lookup : M Value) (fresh : Row) (db : Db)
    (n : Z) (db1 : Db) (r : Row) : Prop :=
  create db = (Returned (VNum n), db1) /\
  create db1 = (Returned (VNum n), db1) /\
  id r = n /\ In r (rows db1) /\
  lookup db1 = (Returned (VOrder r), db1) /\
  ((lookup db = (Returned (VOrder r), db) /\ db1 = db) \/
   (lookup db = (Returned VNull, db) /\ r = fresh /\
    db1 = mkDb (rows db ++ [fresh]) (next_id db + 1))).

(** The last reply sent. *)
Fixpoint last_reply (done : list Effect) : option Reply :=
  match done with
  | [] => None
  | sendMessageToDevice _ r :: rest =>
      match last_reply rest with
      | Some r' => Some r'
      | None => Some r
      end
  | _ :: rest => last_reply rest
  end.

(** The replies that report a failed step of the protocol. *)
Definition is_failure_reply (r : Reply) : bool :=
  match r with
  | INVALID_FORMAT_SIGNED_MESSAGE | VALIDATION_FAILED | MISMATCH_ADDRESS
  | MISMATCH_DATA | CANNOT_FIND_ORDER => true
  | ALREADY_ATTESTED _ _ | Text _ => false
  end.


(** A row with the given pairs in its slots. *)
Definition sample_row (n : Z) (sp : option string) (d : Data) (a u : option string)
    (s : Status) : Row :=
  mkRow n sp
    (nth_error (Object_keys d) 0) (nth_error (Object_values d) 0)
    (nth_error (Object_keys d) 1) (nth_error (Object_values d) 1)
    (nth_error (Object_keys d) 2) (nth_error (Object_values d) 2)
    (nth_error (Object_keys d) 3) (nth_error (Object_values d) 3)
    a None u s.

Fixpoint distinct (l : list string) : bool :=
  match l with
  | [] => true
  | x :: l' => negb (existsb (String.eqb x) l') && distinct l'
  end.

(** Sample validators on which the store is run: a data object has one to
    four entries with distinct keys, an address 32 characters, a unit 44,
    a service provider at least one. *)
Definition sample_validation : Validation :=
  mkValidation
    (fun data =>
       match data with
       | Some d =>
           (1 <=? List.length d)%nat && (List.length d <=? 4)%nat
           && distinct (Object_keys d)
       | None => false
       end)
    (fun a => match a with Some s => (String.length s =? 32)%nat | None => false end)
    (fun sp => truthy sp)
    (fun u => match u with Some s => (String.length s =? 44)%nat | None => false end).

(** A sample host: every signed block decodes to the given claim signed by
    the given author, the signature verifies, issuance yields the given
    unit, and [transformDataValuesToObject] reads the slots of a row. *)
Definition sample_host (author : string) (claim : option string * Data) (unit : string)
    : Host :=
  mkHost
    (fun _ => Some (mkEnvelope "{}" [author]))
    (fun _ => false)
    (fun _ => Some claim)
    (fun _ _ _ => Some unit)
    (fun order => match order with VOrder r => Some (stored_pairs r) | _ => Some [] end)
    None.

Definition ADDR1 : string := "ADDR1ADDR1ADDR1ADDR1ADDR1ADDR1AD".
Definition ADDR2 : string := "ADDR2ADDR2ADDR2ADDR2ADDR2ADDR2AD".
Definition UNIT1 : string := "UNIT1UNIT1UNIT1UNIT1UNIT1UNIT1UNIT1UNIT1UNIT".

(** Sample stores and requests. *)
Definition alice : Data := [("username", "alice"); ("userId", "42")].
Definition alice_name : Data := [("username", "alice")].

Definition db_alice_pending : Db :=
  mkDb [sample_row 1 None alice None None pending] 2.
Definition db_alice_attested : Db :=
  mkDb [sample_row 1 None alice (Some ADDR1) (Some UNIT1) attested] 2.
Definition db_empty : Db := mkDb [] 1.
Definition db_alice_default : Db :=
  mkDb [sample_row 1 (Some "default") alice None None pending] 2.

(** Sample events: a signed block, and claims with and without the
    ownership phrase. *)
Definition signed_text : string := "Here is my proof (signed-message:e30=) thanks".
Definition alice_default : Data :=
  [("username", "alice"); ("userId", "42"); ("provider", "default")].
Definition claim_owning (a : string) (d : Data) : option string * Data :=
  (Some ("I own the address: " ++ a)%string, d).
Definition claim_without_address (d : Data) : option string * Data := (None, d).
Definition db_alice_provider_attested : Db :=
  mkDb [sample_row 1 (Some "default") alice_default (Some ADDR1) (Some UNIT1) attested] 2.

(** The conditions of a clause, and clauses that are one [AND]-chain. *)
Definition conds (q : list Tok) : list Cond :=
  flat_map (fun t => match t with TCond c => [c] | _ => [] end) q.

Definition no_or (q : list Tok) : bool :=
  forallb (fun t => match t with TOr => false | _ => true end) q.

(** The condition one requested pair contributes to the provider-less clause. *)
Definition any_slot (kv : string * string) : Cond :=
  CAnySlot (Some (fst kv)) (Some (String_ (snd kv))).

(** The conditions the data contribute to the provider-less clause. *)
Definition data_conds (d : Data) : list Cond :=
  match d with
  | [] => [CTrue]
  | _ => map any_slot d
  end.

(** Distinctness of the elements of a list of literals. *)
Ltac distinct_strings :=
  repeat constructor; simpl; intuition discriminate.

(** Case analysis on the lookup an operation starts with; a lookup leaves
    the store as it is. *)
Ltac step_after_lookup lookup_same :=
  unfold bind;
  match goal with
  | |- context [?get ?db] =>
      match type of (get db) with
      | (Outcome Value * Db)%type =>
          let order := fresh "order" in
          let e := fresh "e" in
          let db1 := fresh "db1" in
          let Hget := fresh "Hget" in
          destruct (get db) as [[order|e] db1] eqn:Hget;
          apply lookup_same in Hget; subst db1
      end
  end.

(** ** The session store and the wallet-address handler *)

(** A value that is a string, [null] or [undefined]. *)
Inductive JsString := JUndefined | JNull | JStr (s : string).

(** A session: the [Map] with the keys [id], [ts] and, once an address is
    claimed, [address]. *)
Record Session := mkSession {
  session_id : string;
  session_ts : Z;
  session_address : option string
}.

(** A [Map] with string keys, as the list of its entries in insertion
    order. *)
Fixpoint Map_get {A} (k : string) (m : list (string * A)) : option A :=
  match m with
  | [] => None
  | (k', v) :: m' => if String.eqb k k' then Some v else Map_get k m'
  end.

Definition Map_has {A} (k : string) (m : list (string * A)) : bool :=
  match Map_get k m with
  | Some _ => true
  | None => false
  end.

(** [m.set(k, v)]: the value of an existing key is replaced where it is, a
    new key goes last. *)
Fixpoint Map_set {A} (k : string) (v : A) (m : list (string * A)) : list (string * A) :=
  match m with
  | [] => [(k, v)]
  | (k', v') :: m' =>
      if String.eqb k k' then (k, v) :: m' else (k', v') :: Map_set k v m'
  end.

(** [m.delete(k)]. *)
Fixpoint Map_delete {A} (k : string) (m : list (string * A)) : list (string * A) :=
  match m with
  | [] => []
  | (k', v') :: m' =>
      if String.eqb k k' then Map_delete k m' else (k', v') :: Map_delete k m'
  end.

(** [this.sessions]. *)
Definition Sessions := list (string * Session).

(** What [createSession] returns: the session that was there, or what
    [Map.prototype.set] returns, the map of all sessions. *)
Inductive Created :=
| CreatedSession (session : option Session)
| CreatedMap (sessions : Sessions).

Module SessionStore.

(** [createSession(deviceAddress, replace = false)]; the id drawn by
    [customAlphabet(ALPHABET, 5)()] and the time read by [new Date().getTime()]
    are arguments. *)
Definition createSession (deviceAddress : string) (replace : bool)
    (id_ : string) (ts : Z) (sessions : Sessions) : Created * Sessions :=
  let session := Map_get deviceAddress sessions in
  if Map_has deviceAddress sessions && negb replace then
    (CreatedSession session, sessions)
  else
    let value := mkSession id_ ts None in
    let sessions' := Map_set deviceAddress value sessions in
    (CreatedMap sessions', sessions').

(** [session.set('address', value)] on the session of the device; without a
    session only an error is logged. *)
Definition setSessionWalletAddress (deviceAddress value : string) (sessions : Sessions)
    : Sessions :=
  if Map_has deviceAddress sessions then
    match Map_get deviceAddress sessions with
    | Some session =>
        Map_set deviceAddress
          (mkSession (session_id session) (session_ts session) (Some value)) sessions
    | None => sessions
    end
  else sessions.

(** [session.delete('address')]. *)
Definition deleteSessionWalletAddress (deviceAddress : string) (sessions : Sessions)
    : Sessions :=
  if Map_has deviceAddress sessions then
    match Map_get deviceAddress sessions with
    | Some session =>
        Map_set deviceAddress
          (mkSession (session_id session) (session_ts session) None) sessions
    | None => sessions
    end
  else sessions.

Definition getSessionWalletAddress (deviceAddress : string) (sessions : Sessions)
    : JsString :=
  if Map_has deviceAddress sessions then
    match Map_get deviceAddress sessions with
    | Some session =>
        match session_address session with
        | Some a => JStr a
        | None => JUndefined
        end
    | None => JUndefined
    end
  else JNull.

(** [getSession]: the session, or [null]. *)
Definition getSession (deviceAddress : string) (sessions : Sessions) : option Session :=
  if Map_has deviceAddress sessions then Map_get deviceAddress sessions else None.

Definition deleteSession (deviceAddress : string) (sessions : Sessions) : Sessions :=
  Map_delete deviceAddress sessions.

End SessionStore.

(** What the wallet-address handler emits on the event bus. *)
Inductive WalletEvent :=
| ATTESTATION_KIT_ADDED_ADDRESS (device_address address : string).

Module WalletAddressHandler.
Section Handler.
Variable V : Validation.

(** The handler of a message that may be a wallet address: the outcome, the
    events emitted and the sessions it leaves. *)
Definition walletAddressHandler (from_address data : string) (sessions : Sessions)
    : Outcome Value * list WalletEvent * Sessions :=
  if isWalletAddress V (Some data) then
    match SessionStore.getSession from_address sessions with
    | None =>
        (Thrown (ErrorWithMessage "Session not found. But It's impossible here" []), [],
         sessions)
    | Some _ =>
        (Returned VUndefined, [ATTESTATION_KIT_ADDED_ADDRESS from_address data],
         SessionStore.setSessionWalletAddress from_address data sessions)
    end
  else
    (Thrown (ErrorWithMessage "Invalid wallet address." []), [], sessions).

End Handler.
End WalletAddressHandler.

(** ** Further predicates of the statements *)

(** Every character of the string passes the test. *)
Fixpoint string_forall (p : ascii -> bool) (s : string) : bool :=
  match s with
  | EmptyString => true
  | String c s' => p c && string_forall p s'
  end.

Definition is_close_paren (c : ascii) : bool := Ascii.eqb c ")".

(** The row holds one of the requested pairs in one of its slots. *)
Definition holds_some_pair (r : Row) (d : Data) : Prop :=
  exists kv i, In kv d /\ slot_holds r kv i.

(** The codes an [ErrorWithMessage] may carry, as a test on an exception. *)
Definition has_code_in (codes : list string) (e : Exn) : Prop :=
  exists c, In c codes /\ Exn_code e = Some (MVal (Some c)).

Definition is_issue (e : Effect) : bool :=
  match e with issue _ _ _ => true | _ => false end.

Definition sample_sessions : Sessions :=
  [("DEVICE", mkSession "abcde" 1000 None); ("OTHER", mkSession "fghij" 2000 (Some ADDR2))].

(** A branch that throws, or returns after an [UPDATE], in a statement about
    what a throwing call leaves. *)
Ltac thrown_same :=
  unfold throw, ret, db_update; intros; congruence.


(** No line terminator stands anywhere in the string. *)
Fixpoint no_line_terminator (s : string) : bool :=
  negb (starts_line_terminator s)
  && match s with
     | EmptyString => true
     | String _ s' => no_line_terminator s'
     end.

(** A continuation byte of an encoding. *)
Definition is_continuation (c : ascii) : bool :=
  ((128 <=? nat_of_ascii c) && (nat_of_ascii c <? 192))%nat.

(** The texts of a list, one after the other. *)
Definition join (l : list string) : string :=
  fold_right append EmptyString l.

Definition not_close_paren (c : ascii) : bool := negb (is_close_paren c).

(** A throwing branch whose error carries the given code. *)
Ltac known_code c :=
  unfold throw; intros [= <- _]; exists c; split; [cbn; tauto | reflexivity].

Definition UNIT2 : string := "UNIT2UNIT2UNIT2UNIT2UNIT2UNIT2UNIT2UNIT2UNIT".
Definition db_alice_addressed : Db :=
  mkDb [sample_row 1 None alice (Some ADDR1) None addressed] 2.
Definition db_other_provider : Db :=
  mkDb [sample_row 1 (Some "other") alice None None pending] 2.

(** A store with an attested order, which has its unit, and an order that
    waits for its own. *)
Definition bob : Data := [("username", "bob")].
Definition db_alice_attested_bob_addressed : Db :=
  mkDb [sample_row 1 None alice (Some ADDR1) (Some UNIT1) attested;
        sample_row 2 None bob (Some ADDR2) None addressed] 3.

(** * Properties *)

(** ** Three-valued logic and clauses *)

Lemma is_TT_and a b : is_TT (tv_and a b) = is_TT a && is_TT b.
Proof. destruct a, b; reflexivity. Qed.

Lemma is_TT_or a b : is_TT (tv_or a b) = is_TT a || is_TT b.
Proof. destruct a, b; reflexivity. Qed.

Lemma sql_eq_true col p :
  is_TT (sql_eq col p) = true <-> exists s, col = Some s /\ p = Some s.
Proof.
  unfold sql_eq. destruct col as [a|], p as [b|]; simpl.
  - destruct (String.eqb_spec a b) as [->|Hne]; simpl.
    + split; [eauto | reflexivity].
    + split; [discriminate | intros (s & [= ->] & [= ->]); contradiction].
  - split; [discriminate | intros (s & _ & [=])].
  - split; [discriminate | intros (s & [=] & _)].
  - split; [discriminate | intros (s & [=] & _)].
Qed.

Lemma eval_where_chain r q : forall disj conj,
  no_or q = true ->
  eval_where r q disj conj =
  tv_or disj (fold_left tv_and (map (eval_cond r) (conds q)) conj).
Proof.
  induction q as [|t q IH]; intros disj conj Hq; simpl in *.
  - reflexivity.
  - destruct t; simpl in *; try discriminate; auto.
Qed.

Lemma is_TT_fold_and l : forall c,
  is_TT (fold_left tv_and l c) = is_TT c && forallb is_TT l.
Proof.
  induction l as [|x l IH]; intros c; simpl.
  - now rewrite andb_true_r.
  - rewrite IH, is_TT_and. now rewrite andb_assoc.
Qed.

Lemma forallb_map_eq {A B} (f : A -> B) (p : B -> bool) l :
  forallb p (map f l) = forallb (fun x => p (f x)) l.
Proof. induction l as [|x l IH]; simpl; [reflexivity | now rewrite IH]. Qed.

Lemma where_chain q r :
  no_or q = true ->
  where_ q r = forallb (fun c => is_TT (eval_cond r c)) (conds q).
Proof.
  intros Hq. unfold where_. rewrite eval_where_chain by assumption.
  rewrite is_TT_or, is_TT_fold_and. simpl. now rewrite forallb_map_eq.
Qed.

(** Once a closed chain is true the clause is true. *)
Lemma eval_where_TT r q : forall conj, eval_where r q TT conj = TT.
Proof.
  induction q as [|t q IH]; intros conj; simpl.
  - reflexivity.
  - destruct t; auto.
Qed.

Lemma conds_app a b : conds (a ++ b) = conds a ++ conds b.
Proof. unfold conds. apply flat_map_app. Qed.

Lemma no_or_app a b : no_or (a ++ b) = no_or a && no_or b.
Proof. unfold no_or. apply forallb_app. Qed.

Lemma conds_and_also q c : conds (and_also q c) = conds q ++ [c].
Proof. destruct q as [|t q]; [reflexivity|]. unfold and_also. now rewrite conds_app. Qed.

Lemma no_or_and_also q c : no_or (and_also q c) = no_or q.
Proof.
  destruct q as [|t q]; [reflexivity|]. unfold and_also.
  rewrite no_or_app. simpl (no_or [_; _]). now rewrite andb_true_r.
Qed.

(** ** The clause of the provider-less lookup *)

Lemma forEach_entry_shape es : forall index q,
  conds (Providerless.forEach_entry es index q) = conds q ++ map any_slot es /\
  no_or (Providerless.forEach_entry es index q) = no_or q.
Proof.
  induction es as [|[k v] es IH]; intros index q; simpl.
  - now rewrite app_nil_r.
  - destruct (IH (S index)
               ((if (0 <? index)%nat then q ++ [TAnd] else q)
                  ++ [TCond (CAnySlot (Some k) (Some (String_ v)))])) as [Hc Hn].
    rewrite Hc, Hn. rewrite conds_app, no_or_app.
    destruct (0 <? index)%nat; rewrite ?conds_app, ?no_or_app; simpl;
      rewrite ?app_nil_r, ?andb_true_r, <- ?app_assoc; auto.
Qed.

Lemma build_query_shape d address id_ excl :
  conds (Providerless.build_query (Some d) address id_ excl) =
    data_conds d
    ++ (if truthy address then [CWallet address] else [])
    ++ (match id_ with Some _ => [CId id_] | None => [] end)
    ++ (if excl then [CNotAttested] else []) /\
  no_or (Providerless.build_query (Some d) address id_ excl) = true.
Proof.
  unfold Providerless.build_query, Object_entries. cbv zeta.
  assert (H0 : conds (if (List.length d =? 0)%nat then [TCond CTrue]
                      else Providerless.forEach_entry d 0 []) = data_conds d /\
               no_or (if (List.length d =? 0)%nat then [TCond CTrue]
                      else Providerless.forEach_entry d 0 []) = true).
  { destruct d as [|kv d']; [split; reflexivity|].
    change (List.length (kv :: d') =? 0)%nat with false. cbv iota.
    destruct (forEach_entry_shape (kv :: d') 0 []) as [Hc Hn].
    rewrite Hc, Hn. split; reflexivity. }
  destruct H0 as [Hc Hn].
  generalize dependent (if (List.length d =? 0)%nat then [TCond CTrue]
                        else Providerless.forEach_entry d 0 []).
  intros q0 Hc Hn.
  destruct (truthy address), id_ as [n|], excl; cbv iota;
    rewrite ?conds_and_also, ?no_or_and_also, Hc, Hn, <- ?app_assoc, ?app_nil_r;
    split; reflexivity.
Qed.

Lemma any_slot_true r kv :
  is_TT (eval_cond r (any_slot kv)) = true <-> exists i, slot_holds r kv i.
Proof.
  unfold any_slot, slot_holds. cbn [eval_cond]. rewrite !is_TT_or.
  unfold eval_slot. rewrite !is_TT_and. rewrite !orb_true_iff, !andb_true_iff.
  rewrite !sql_eq_true. split.
  - intros [[[H|H]|H]|H]; destruct H as [(s & Hk & [= <-]) (t & Hv & [= <-])];
      [exists 0%nat | exists 1%nat | exists 2%nat | exists 3%nat]; (split; [lia | auto]).
  - intros (i & Hi & Hk & Hv).
    destruct i as [|[|[|[|i]]]]; try lia;
      [left; left; left | left; left; right | left; right | right]; split; eauto.
Qed.

Lemma wallet_cond_true r address :
  truthy address = true ->
  (is_TT (eval_cond r (CWallet address)) = true <-> user_wallet_address r = address).
Proof.
  intros Ht. cbn [eval_cond]. rewrite sql_eq_true. split.
  - intros (s & -> & ->). reflexivity.
  - intros ->. destruct address as [s|]; [eauto | discriminate].
Qed.

Lemma id_cond_true r n :
  is_TT (eval_cond r (CId (Some n))) = true <-> id r = n.
Proof.
  cbn [eval_cond]. destruct (Z.eqb_spec (id r) n); simpl; split; congruence.
Qed.

Lemma not_attested_true r :
  is_TT (eval_cond r CNotAttested) = true <-> status r <> attested.
Proof.
  cbn [eval_cond]. destruct (status r); simpl; split; congruence.
Qed.

(** The provider-less clause selects a row exactly when every requested pair
    sits in one of its slots and the other conditions of the filter hold. *)
Lemma where_providerless d address id_ excl r :
  where_ (Providerless.build_query (Some d) address id_ excl) r = true <->
  Forall (fun kv => exists i, slot_holds r kv i) d /\ side_conditions address id_ excl r.
Proof.
  destruct (build_query_shape d address id_ excl) as [Hc Hn].
  rewrite where_chain by exact Hn. rewrite Hc. cbv zeta.
  rewrite !forallb_app, !andb_true_iff. unfold side_conditions.
  assert (Hd : forallb (fun c => is_TT (eval_cond r c)) (data_conds d) = true <->
               Forall (fun kv => exists i, slot_holds r kv i) d).
  { destruct d as [|kv d']; [simpl; split; auto|].
    unfold data_conds. rewrite forallb_map_eq, forallb_forall, Forall_forall.
    split; intros Hall x Hx; apply any_slot_true, Hall, Hx. }
  rewrite Hd. clear Hd Hc Hn.
  assert (Ha : forallb (fun c => is_TT (eval_cond r c))
                 (if truthy address then [CWallet address] else []) = true <->
               (truthy address = true -> user_wallet_address r = address)).
  { destruct (truthy address) eqn:Ht; cbn [forallb].
    - rewrite andb_true_r. rewrite (wallet_cond_true r address) by reflexivity || assumption. tauto.
    - split; [discriminate | reflexivity]. }
  assert (Hi : forallb (fun c => is_TT (eval_cond r c))
                 (match id_ with Some _ => [CId id_] | None => [] end) = true <->
               (forall n, id_ = Some n -> id r = n)).
  { destruct id_ as [n|]; cbn [forallb].
    - rewrite andb_true_r, id_cond_true. split; [intros <- m [= <-] | intros Hm]; auto.
    - split; [discriminate | reflexivity]. }
  assert (He : forallb (fun c => is_TT (eval_cond r c))
                 (if excl then [CNotAttested] else []) = true <->
               (excl = true -> status r <> attested)).
  { destruct excl; cbn [forallb].
    - rewrite andb_true_r, not_attested_true. tauto.
    - split; [discriminate | reflexivity]. }
  rewrite Ha, Hi, He. tauto.
Qed.

(** With distinct requested keys, pairs held slot by slot sit in pairwise
    distinct slots. *)
Lemma Forall2_In_r {A B} (R : A -> B -> Prop) la lb :
  Forall2 R la lb -> forall b, In b lb -> exists a, In a la /\ R a b.
Proof.
  induction 1 as [|a b la lb Hab _ IH]; intros b' Hb'; simpl in *.
  - contradiction.
  - destruct Hb' as [<-|Hb'].
    + exists a. auto.
    + destruct (IH b' Hb') as (a' & Ha' & HR). exists a'. auto.
Qed.

Lemma slots_distinct r d :
  NoDup (Object_keys d) ->
  Forall (fun kv => exists i, slot_holds r kv i) d ->
  exists sl, NoDup sl /\ Forall2 (slot_holds r) d sl.
Proof.
  unfold Object_keys.
  induction d as [|kv d IH]; simpl; intros Hnd Hall.
  - exists []. split; constructor.
  - inversion Hnd as [|k ks Hnotin Hnd']; subst.
    inversion Hall as [|x xs (i & Hi) Hall']; subst.
    destruct (IH Hnd' Hall') as (sl & Hsl & HF).
    exists (i :: sl). split; [constructor; [|assumption] | constructor; assumption].
    intros Hin. destruct (Forall2_In_r _ _ _ HF i Hin) as (kv' & Hkv' & Hh).
    apply Hnotin. destruct Hi as (_ & Hk & _), Hh as (_ & Hk' & _).
    rewrite Hk in Hk'. injection Hk' as ->. now apply in_map.
Qed.

Lemma Forall2_Forall_l {A B} (R : A -> B -> Prop) la lb :
  Forall2 R la lb -> Forall (fun a => exists b, R a b) la.
Proof. induction 1; constructor; eauto. Qed.

(** The provider-less lookup passes its checks and reads the store. *)
Lemma getAttestationOrders_runs V d address id_ excl multiple db :
  isDataObject V (Some d) = true ->
  (truthy address = true -> isWalletAddress V address = true) ->
  (forall n, id_ = Some n -> 0 < n) ->
  Providerless.getAttestationOrders V (Some d) address id_ excl multiple db =
  (Returned (let l := sql_select (Providerless.build_query (Some d) address id_ excl) db in
             if multiple then VRows l else first_or_null l), db).
Proof.
  intros Hd Ha Hi. unfold Providerless.getAttestationOrders.
  assert (E1 : truthy address && negb (isWalletAddress V address) = false).
  { destruct (truthy address); [rewrite Ha by reflexivity|]; reflexivity. }
  assert (E2 : match id_ with Some n => n <=? 0 | None => false end = false).
  { destruct id_ as [n|]; [|reflexivity]. specialize (Hi n eq_refl). lia. }
  rewrite E1, E2, Hd. cbn [negb]. unfold bind, db_select, ret.
  destruct multiple; reflexivity.
Qed.

(** C1 (amended): the provider-less [getAttestationOrders] selects exactly
    the rows of the store in which every requested key/value pair is held by
    one of the four slots, jointly with the other conditions of the filter.
    With distinct requested keys the pairs sit in pairwise distinct slots,
    so no slot serves two requested keys; the row may hold further pairs:
    matching is inclusion of the requested set in the stored set. *)
Theorem getAttestationOrders_matches_by_inclusion V d address id_ excl db :
  NoDup (Object_keys d) ->
  isDataObject V (Some d) = true ->
  (truthy address = true -> isWalletAddress V address = true) ->
  (forall n, id_ = Some n -> 0 < n) ->
  exists l,
    Providerless.getAttestationOrders V (Some d) address id_ excl true db
      = (Returned (VRows l), db) /\
    Providerless.getAttestationOrders V (Some d) address id_ excl false db
      = (Returned (first_or_null l), db) /\
    forall r, In r l <->
      In r (rows db) /\
      (exists sl, NoDup sl /\ Forall2 (slot_holds r) d sl) /\
      side_conditions address id_ excl r.
Proof.
  intros Hnd Hd Ha Hi.
  exists (sql_select (Providerless.build_query (Some d) address id_ excl) db).
  split; [|split].
  - now rewrite getAttestationOrders_runs.
  - now rewrite getAttestationOrders_runs.
  - intros r. unfold sql_select. rewrite filter_In, where_providerless. split.
    + intros (Hin & Hall & Hside).
      split; [assumption | split; [now apply slots_distinct | assumption]].
    + intros (Hin & (sl & _ & HF) & Hside).
      split; [assumption | split; [|assumption]].
      eapply Forall2_Forall_l, HF.
Qed.

Lemma getAttestationOrders_matches_by_inclusion_witness :
  NoDup (Object_keys alice_name) /\
  isDataObject sample_validation (Some alice_name) = true /\
  exists l,
    Providerless.getAttestationOrders sample_validation (Some alice_name) None None
      false true db_alice_pending = (Returned (VRows l), db_alice_pending) /\
    Providerless.getAttestationOrders sample_validation (Some alice_name) None None
      false false db_alice_pending = (Returned (first_or_null l), db_alice_pending) /\
    forall r, In r l <->
      In r (rows db_alice_pending) /\
      (exists sl, NoDup sl /\ Forall2 (slot_holds r) alice_name sl) /\
      side_conditions None None false r.
Proof.
  split; [distinct_strings | split; [reflexivity|]].
  apply (getAttestationOrders_matches_by_inclusion sample_validation alice_name
           None None false db_alice_pending).
  - distinct_strings.
  - reflexivity.
  - discriminate.
  - discriminate.
Defined.

(** C1, as stated, fails: the order storing [username] and [userId] is
    returned for the request that names [username] alone, although the two
    attribute sets differ. *)
Lemma getAttestationOrders_not_set_equality :
  Providerless.getAttestationOrders sample_validation (Some alice_name) None None
    false false db_alice_pending
  = (Returned (VOrder (sample_row 1 None alice None None pending)), db_alice_pending) /\
  ~ same_pairs alice_name (stored_pairs (sample_row 1 None alice None None pending)).
Proof.
  split; [reflexivity|].
  intros H. specialize (H ("userId", "42")). simpl in H.
  destruct H as [_ H]. destruct H as [H|[]]; [auto | discriminate H].
Qed.

(** ** Creating an order *)

Lemma map_String_ l : map String_ l = l.
Proof. unfold String_. apply map_id. Qed.

Lemma db_insert_runs sp address d db :
  (1 <= List.length d <= 4)%nat ->
  db_insert sp address (Object_keys d) (map String_ (Object_values d)) db =
  (Returned (next_id db),
   mkDb (rows db ++ [sample_row (next_id db) sp d address None (inserted_status address)])
        (next_id db + 1)).
Proof.
  intros Hlen. unfold db_insert, Object_keys. rewrite length_map.
  destruct (Nat.eqb_spec (List.length d) 0) as [E|_]; [lia|].
  destruct (Nat.ltb_spec 4 (List.length d)) as [E|_]; [lia|].
  cbn [orb]. now rewrite map_String_.
Qed.

(** The inserted row holds every pair of the data it was made from. *)
Lemma sample_row_holds n sp d a u s :
  (List.length d <= 4)%nat ->
  Forall (fun kv => exists i, slot_holds (sample_row n sp d a u s) kv i) d.
Proof.
  intros Hlen.
  destruct d as [|p0 [|p1 [|p2 [|p3 [|p4 d]]]]]; simpl in Hlen; try lia;
    repeat constructor;
    first [ exists 0%nat; split; [lia | split; reflexivity]
          | exists 1%nat; split; [lia | split; reflexivity]
          | exists 2%nat; split; [lia | split; reflexivity]
          | exists 3%nat; split; [lia | split; reflexivity] ].
Qed.

Lemma filter_app_one {A} (p : A -> bool) l x :
  filter p l = [] -> p x = true -> filter p (l ++ [x]) = [x].
Proof. intros Hl Hx. rewrite filter_app, Hl. simpl. now rewrite Hx. Qed.

Lemma or_undefined_valid V address :
  (truthy address = true -> isWalletAddress V address = true) ->
  truthy (or_undefined address) = true -> isWalletAddress V (or_undefined address) = true.
Proof.
  unfold or_undefined. destruct (truthy address) eqn:E; [auto | discriminate].
Qed.

Lemma inserted_status_not_attested address : inserted_status address <> attested.
Proof. destruct address; discriminate. Qed.

(** Provider-less get-or-create, called twice. *)
Lemma create_twice_providerless V d address db :
  isDataObject V (Some d) = true ->
  (1 <= List.length d <= 4)%nat ->
  (truthy address = true -> isWalletAddress V address = true) ->
  exists n db1 r,
    get_or_create
      (Providerless.createAttestationOrder V (Some d) address true)
      (Providerless.getAttestationOrders V (Some d) (or_undefined address) None true false)
      (sample_row (next_id db) None d (or_undefined address) None
         (inserted_status (or_undefined address)))
      db n db1 r /\
    status r <> attested /\
    Forall (fun kv => exists i, slot_holds r kv i) d.
Proof.
  intros Hd Hlen Ha.
  pose proof (or_undefined_valid V address Ha) as Ha'.
  assert (Hi : forall n : Z, @None Z = Some n -> 0 < n) by discriminate.
  set (q := Providerless.build_query (Some d) (or_undefined address) None true).
  set (fresh := fun db0 => sample_row (next_id db0) None d (or_undefined address) None
                             (inserted_status (or_undefined address))).
  assert (Hget : forall db0,
    Providerless.getAttestationOrders V (Some d) (or_undefined address) None true false db0
    = (Returned (first_or_null (sql_select q db0)), db0)).
  { intros db0. now rewrite getAttestationOrders_runs. }
  assert (Hrun : forall db0,
    Providerless.createAttestationOrder V (Some d) address true db0 =
    match sql_select q db0 with
    | r :: _ => (Returned (VNum (id r)), db0)
    | [] => (Returned (VNum (next_id db0)),
             mkDb (rows db0 ++ [fresh db0]) (next_id db0 + 1))
    end).
  { intros db0. unfold Providerless.createAttestationOrder. rewrite Hd. cbn [negb].
    assert (E : truthy address && negb (isWalletAddress V address) = false).
    { destruct (truthy address); [rewrite Ha by reflexivity|]; reflexivity. }
    rewrite E. unfold bind at 1. rewrite Hget.
    destruct (sql_select q db0) as [|r l]; cbn.
    - unfold bind. rewrite (db_insert_runs None (or_undefined address) d db0 Hlen).
      reflexivity.
    - reflexivity. }
  assert (Hfresh : where_ q (fresh db) = true).
  { apply where_providerless. split.
    - apply sample_row_holds. lia.
    - unfold side_conditions.
      split; [intros _; reflexivity | split; [discriminate|]].
      intros _. apply inserted_status_not_attested. }
  destruct (sql_select q db) as [|r l] eqn:Hsel.
  - assert (Hsel1 : sql_select q (mkDb (rows db ++ [fresh db]) (next_id db + 1)) = [fresh db]).
    { unfold sql_select. cbn [rows]. now apply filter_app_one. }
    exists (next_id db), (mkDb (rows db ++ [fresh db]) (next_id db + 1)), (fresh db).
    split; [|split].
    + unfold get_or_create. rewrite !Hrun, !Hget, Hsel, Hsel1. cbn [first_or_null rows].
      repeat split; try reflexivity.
      * apply in_or_app. right. now left.
      * right. repeat split; reflexivity.
    + apply inserted_status_not_attested.
    + apply sample_row_holds. lia.
  - assert (Hr : In r (rows db) /\ where_ q r = true).
    { apply filter_In. unfold sql_select in Hsel. rewrite Hsel. now left. }
    destruct Hr as [Hin Hw]. apply where_providerless in Hw.
    destruct Hw as (Hheld & _ & _ & Hna).
    exists (id r), db, r. split; [|split].
    + unfold get_or_create. rewrite !Hrun, !Hget, Hsel. cbn [first_or_null].
      repeat split; try reflexivity; [exact Hin | left; split; reflexivity].
    + now apply Hna.
    + exact Hheld.
Qed.

(** The clause of the provider-scoped lookup. *)
Lemma fold_left_append {A B} (g : B -> list A) l : forall q0,
  fold_left (fun q x => q ++ g x) l q0 = q0 ++ flat_map g l.
Proof.
  induction l as [|x l IH]; intros q0; simpl.
  - now rewrite app_nil_r.
  - now rewrite IH, app_assoc.
Qed.

Lemma scoped_query_head sp k v d address excl :
  exists rest,
    ProviderScoped.build_query sp ((k, v) :: d) address excl =
    TCond (CProvider sp) :: TAnd :: TCond (CSlot 0 (Some k) (Some v)) :: TOr :: rest.
Proof.
  unfold ProviderScoped.build_query. cbv zeta.
  rewrite (fold_left_append (fun kv => ProviderScoped.entry_tokens (fst kv) (snd kv))).
  cbn [flat_map fst snd ProviderScoped.entry_tokens app].
  destruct (truthy address), excl; cbn [app]; eexists; reflexivity.
Qed.

(** A row of the requested provider with the first requested pair in slot 0
    is selected, whatever else the filter asks. *)
Lemma scoped_where_first_slot s k v d address excl r :
  service_provider r = Some s ->
  dataKey0 r = Some k -> dataValue0 r = Some v ->
  where_ (ProviderScoped.build_query (Some s) ((k, v) :: d) address excl) r = true.
Proof.
  intros Hs Hk Hv.
  destruct (scoped_query_head (Some s) k v d address excl) as (rest & ->).
  unfold where_. cbn [eval_where eval_cond]. unfold eval_slot. cbn [dataKey dataValue].
  rewrite Hs, Hk, Hv. unfold sql_eq. rewrite !String.eqb_refl. cbn.
  now rewrite eval_where_TT.
Qed.

Lemma scoped_getAttestationOrders_runs V sp d address excl multiple db :
  isServiceProvider V sp = true ->
  (truthy address = true -> isWalletAddress V address = true) ->
  isDataObject V (Some d) = true ->
  ProviderScoped.getAttestationOrders V sp (Some d) address excl multiple db =
  (Returned (let l := sql_select (ProviderScoped.build_query sp d address excl) db in
             if multiple then VRows l else first_or_null l), db).
Proof.
  intros Hs Ha Hd. unfold ProviderScoped.getAttestationOrders.
  assert (E1 : truthy address && negb (isWalletAddress V address) = false).
  { destruct (truthy address); [rewrite Ha by reflexivity|]; reflexivity. }
  rewrite Hs, E1, Hd. cbn [negb]. unfold bind, db_select, ret, Object_entries.
  destruct multiple; reflexivity.
Qed.

(** Provider-scoped get-or-create, called twice. *)
Lemma create_twice_scoped V s d db :
  isServiceProvider V (Some s) = true ->
  isDataObject V (Some d) = true ->
  (1 <= List.length d <= 4)%nat ->
  exists n db1 r,
    get_or_create
      (ProviderScoped.createAttestationOrder V (Some s) (Some d) true)
      (ProviderScoped.getAttestationOrders V (Some s) (Some d) None true false)
      (sample_row (next_id db) (Some s) d None None pending)
      db n db1 r.
Proof.
  intros Hs Hd Hlen.
  assert (Ha : truthy None = true -> isWalletAddress V None = true) by discriminate.
  set (q := ProviderScoped.build_query (Some s) d None true).
  set (fresh := fun db0 => sample_row (next_id db0) (Some s) d None None pending).
  assert (Hget : forall db0,
    ProviderScoped.getAttestationOrders V (Some s) (Some d) None true false db0
    = (Returned (first_or_null (sql_select q db0)), db0)).
  { intros db0. now rewrite scoped_getAttestationOrders_runs. }
  assert (Hrun : forall db0,
    ProviderScoped.createAttestationOrder V (Some s) (Some d) true db0 =
    match sql_select q db0 with
    | r :: _ => (Returned (VNum (id r)), db0)
    | [] => (Returned (VNum (next_id db0)),
             mkDb (rows db0 ++ [fresh db0]) (next_id db0 + 1))
    end).
  { intros db0. unfold ProviderScoped.createAttestationOrder. rewrite Hd. cbn [negb].
    unfold bind at 1. rewrite Hget.
    destruct (sql_select q db0) as [|r l]; cbn.
    - unfold bind. rewrite (db_insert_runs (Some s) None d db0 Hlen). reflexivity.
    - reflexivity. }
  assert (Hfresh : where_ q (fresh db) = true).
  { unfold q. destruct d as [|[k v] d']; [simpl in Hlen; lia|].
    now apply scoped_where_first_slot. }
  destruct (sql_select q db) as [|r l] eqn:Hsel.
  - assert (Hsel1 : sql_select q (mkDb (rows db ++ [fresh db]) (next_id db + 1)) = [fresh db]).
    { unfold sql_select. cbn [rows]. now apply filter_app_one. }
    exists (next_id db), (mkDb (rows db ++ [fresh db]) (next_id db + 1)), (fresh db).
    unfold get_or_create. rewrite !Hrun, !Hget, Hsel, Hsel1. cbn [first_or_null rows].
    repeat split; try reflexivity.
    + apply in_or_app. right. now left.
    + right. repeat split; reflexivity.
  - assert (Hr : In r (rows db) /\ where_ q r = true).
    { apply filter_In. unfold sql_select in Hsel. rewrite Hsel. now left. }
    exists (id r), db, r.
    unfold get_or_create. rewrite !Hrun, !Hget, Hsel. cbn [first_or_null].
    repeat split; try reflexivity; [apply Hr | left; split; reflexivity].
Qed.

(** C5 (amended): for every attribute set of one to four entries that the
    data validation accepts (with a valid provider, and an address that is
    valid or absent), [createAttestationOrder] with [allowDuplicates = true],
    called twice, returns the same order id both times, and the second call
    leaves the store as the first call left it; in the provider-less and in
    the provider-scoped store.  The id is that of an order of the store: the
    one the lookup returns for the data, which the first call inserted, with
    the data in its slots, if the lookup returned none before.  In the
    provider-less store that order is not attested and holds every pair of
    the data. *)
Theorem createOrder_twice_same_id V s d address db :
  isDataObject V (Some d) = true ->
  (1 <= List.length d <= 4)%nat ->
  (truthy address = true -> isWalletAddress V address = true) ->
  isServiceProvider V (Some s) = true ->
  (exists n db1 r,
     get_or_create
       (Providerless.createAttestationOrder V (Some d) address true)
       (Providerless.getAttestationOrders V (Some d) (or_undefined address) None true false)
       (sample_row (next_id db) None d (or_undefined address) None
          (inserted_status (or_undefined address)))
       db n db1 r /\
     status r <> attested /\
     Forall (fun kv => exists i, slot_holds r kv i) d) /\
  (exists n db1 r,
     get_or_create
       (ProviderScoped.createAttestationOrder V (Some s) (Some d) true)
       (ProviderScoped.getAttestationOrders V (Some s) (Some d) None true false)
       (sample_row (next_id db) (Some s) d None None pending)
       db n db1 r).
Proof.
  intros Hd Hlen Ha Hs. split.
  - now apply create_twice_providerless.
  - now apply create_twice_scoped.
Qed.

Lemma createOrder_twice_same_id_witness :
  isDataObject sample_validation (Some alice) = true /\
  (1 <= List.length alice <= 4)%nat /\
  isServiceProvider sample_validation (Some "default") = true /\
  (exists n db1 r,
     get_or_create
       (Providerless.createAttestationOrder sample_validation (Some alice) None true)
       (Providerless.getAttestationOrders sample_validation (Some alice) None None true false)
       (sample_row 1 None alice None None pending)
       db_empty n db1 r /\
     status r <> attested /\
     Forall (fun kv => exists i, slot_holds r kv i) alice) /\
  (exists n db1 r,
     get_or_create
       (ProviderScoped.createAttestationOrder sample_validation (Some "default") (Some alice)
          true)
       (ProviderScoped.getAttestationOrders sample_validation (Some "default") (Some alice)
          None true false)
       (sample_row 1 (Some "default") alice None None pending)
       db_empty n db1 r).
Proof.
  split; [reflexivity|]. split; [simpl; lia|]. split; [reflexivity|].
  apply (createOrder_twice_same_id sample_validation "default" alice None db_empty).
  - reflexivity.
  - simpl; lia.
  - discriminate.
  - reflexivity.
Defined.

(** C5, as stated, fails: the empty attribute set has at most four unique
    keys, and on a store without orders no call of [createAttestationOrder]
    for it returns an id, whatever the validators answer.  Either the data
    validation refuses it, or the lookup finds nothing and the [INSERT],
    which names one column per key, has no column to name. *)
Lemma createOrder_of_no_attribute_returns_no_id :
  (List.length (@nil (string * string)) <= 4)%nat /\
  (~ exists V address n db1,
       Providerless.createAttestationOrder V (Some []) address true db_empty
       = (Returned (VNum n), db1)) /\
  (~ exists V sp n db1,
       ProviderScoped.createAttestationOrder V sp (Some []) true db_empty
       = (Returned (VNum n), db1)).
Proof.
  split; [simpl; lia|]. split.
  - intros (V & address & n & db1 & Hrun). revert Hrun.
    unfold Providerless.createAttestationOrder, Providerless.getAttestationOrders.
    destruct (isDataObject V (Some [])); cbn [negb]; [|discriminate].
    destruct (truthy address && negb (isWalletAddress V address)); [discriminate|].
    destruct (truthy (or_undefined address) && negb (isWalletAddress V (or_undefined address)));
      discriminate.
  - intros (V & sp & n & db1 & Hrun). revert Hrun.
    unfold ProviderScoped.createAttestationOrder, ProviderScoped.getAttestationOrders.
    destruct (isDataObject V (Some [])); cbn [negb]; [|discriminate].
    destruct (negb (isServiceProvider V sp)); discriminate.
Qed.

(** ** Creating a duplicate *)

Lemma obj_get_set_same k v o : obj_get k (obj_set k v o) = Some v.
Proof.
  induction o as [|[k' v'] o IH]; simpl.
  - now rewrite String.eqb_refl.
  - destruct (String.eqb k k') eqn:E; simpl; rewrite ?E, ?String.eqb_refl; auto.
Qed.

Lemma obj_get_set_other k k' v o :
  k <> k' -> obj_get k (obj_set k' v o) = obj_get k o.
Proof.
  intros Hne. induction o as [|[k'' v''] o IH]; simpl.
  - destruct (String.eqb_spec k k'); [contradiction | reflexivity].
  - destruct (String.eqb_spec k' k'') as [<-|Hne']; simpl.
    + destruct (String.eqb_spec k k'); [contradiction | reflexivity].
    + destruct (String.eqb k k''); auto.
Qed.

Lemma obj_get_spread k d : forall o,
  prop k d = None -> obj_get k (obj_spread d o) = obj_get k o.
Proof.
  unfold obj_spread. induction d as [|[k' v'] d IH]; intros o Hp; simpl in *.
  - reflexivity.
  - destruct (String.eqb_spec k k') as [->|Hne]; [discriminate|].
    rewrite IH by assumption. now apply obj_get_set_other.
Qed.

(** The provider-less store reports a duplicate with [ALREADY_EXISTS], the
    status and the unit of the order it found, and inserts nothing. *)
Lemma providerless_create_duplicate V d address db r :
  isDataObject V (Some d) = true ->
  (truthy address = true -> isWalletAddress V address = true) ->
  Providerless.getAttestationOrders V (Some d) (or_undefined address) None false false db
    = (Returned (VOrder r), db) ->
  exists meta,
    Providerless.createAttestationOrder V (Some d) address false db
      = (Thrown (ErrorWithMessage "Order already exists" meta), db) /\
    obj_get "unit" meta = Some (MVal (unit_ r)) /\
    (prop "code" d = None -> obj_get "code" meta = Some (MVal (Some "ALREADY_EXISTS"))) /\
    (prop "status" d = None ->
     obj_get "status" meta = Some (MVal (Some (Status_name (status r))))).
Proof.
  intros Hd Ha Hget. unfold Providerless.createAttestationOrder. rewrite Hd. cbn [negb].
  assert (E : truthy address && negb (isWalletAddress V address) = false).
  { destruct (truthy address); [rewrite Ha by reflexivity|]; reflexivity. }
  rewrite E. unfold bind. rewrite Hget. cbn [Value_truthy negb order_unit order_status option_map].
  unfold throw. eexists. split; [reflexivity|]. split; [|split].
  - apply obj_get_set_same.
  - intros Hp. rewrite obj_get_set_other by discriminate.
    now rewrite obj_get_spread.
  - intros Hp. rewrite obj_get_set_other by discriminate.
    now rewrite obj_get_spread.
Qed.

(** C4 (the code departs from it): in the provider-scoped store a duplicate
    found with [allowDuplicates = false] does not raise [ALREADY_EXISTS];
    building the error reads the unbound identifier [username], so the call
    fails with [ReferenceError], carrying neither code, status nor unit.
    No row is inserted. *)
Theorem scoped_create_duplicate_raises_ReferenceError V sp d db r :
  isDataObject V (Some d) = true ->
  ProviderScoped.getAttestationOrders V sp (Some d) None false false db
    = (Returned (VOrder r), db) ->
  ProviderScoped.createAttestationOrder V sp (Some d) false db
    = (Thrown (ReferenceError "username"), db) /\
  Exn_code (ReferenceError "username") = None.
Proof.
  intros Hd Hget. split; [|reflexivity].
  unfold ProviderScoped.createAttestationOrder. rewrite Hd. cbn [negb].
  unfold bind. rewrite Hget. reflexivity.
Qed.

Lemma scoped_create_duplicate_raises_ReferenceError_witness :
  isDataObject sample_validation (Some alice) = true /\
  ProviderScoped.getAttestationOrders sample_validation (Some "default") (Some alice) None
    false false db_alice_default
    = (Returned (VOrder (sample_row 1 (Some "default") alice None None pending)),
       db_alice_default) /\
  ProviderScoped.createAttestationOrder sample_validation (Some "default") (Some alice) false
    db_alice_default
    = (Thrown (ReferenceError "username"), db_alice_default) /\
  Exn_code (ReferenceError "username") = None.
Proof.
  split; [reflexivity|]. split; [reflexivity|].
  apply (scoped_create_duplicate_raises_ReferenceError sample_validation (Some "default")
           alice db_alice_default (sample_row 1 (Some "default") alice None None pending));
    reflexivity.
Defined.

(** ** Binding and unbinding an address *)

Lemma filter_head {A} (p : A -> bool) l r t :
  filter p l = r :: t ->
  exists pre post, l = pre ++ r :: post /\ filter p pre = [] /\ p r = true.
Proof.
  induction l as [|x l IH]; simpl; [discriminate|].
  destruct (p x) eqn:Hx.
  - intros [= -> _]. exists [], l. auto.
  - intros H. destruct (IH H) as (pre & post & -> & Hpre & Hr).
    exists (x :: pre), post. simpl. rewrite Hx. auto.
Qed.

Lemma filter_nil {A} (p : A -> bool) l :
  filter p l = [] <-> forall x, In x l -> p x = false.
Proof.
  induction l as [|x l IH]; simpl.
  - split; [intros _ y [] | reflexivity].
  - destruct (p x) eqn:Hx.
    + split; [discriminate | intros H; specialize (H x (or_introl eq_refl)); congruence].
    + destruct IH as [IH1 IH2]. split.
      * intros H y [<-|Hy]; auto.
      * intros H. apply IH2. intros y Hy. auto.
Qed.

Lemma id_injective l x y :
  NoDup (map id l) -> In x l -> In y l -> id x = id y -> x = y.
Proof.
  induction l as [|z l IH]; simpl; intros Hnd Hx Hy Heq; [contradiction|].
  inversion Hnd as [|n ns Hnotin Hnd']; subst.
  destruct Hx as [->|Hx], Hy as [->|Hy]; auto.
  - exfalso. apply Hnotin. rewrite Heq. now apply in_map.
  - exfalso. apply Hnotin. rewrite <- Heq. now apply in_map.
Qed.

Lemma where_id n x : where_ [TCond (CId (Some n))] x = (id x =? n).
Proof. unfold where_. cbn. now destruct (id x =? n). Qed.

Lemma where_not_attested_id n x :
  where_ [TCond CNotAttested; TAnd; TCond (CId (Some n))] x =
  negb (Status_eqb (status x) attested) && (id x =? n).
Proof. unfold where_. cbn. now destruct (status x), (id x =? n). Qed.


(** What the provider-less lookup returns is the first selected row. *)
Lemma providerless_lookup_order V d address excl db r :
  isDataObject V (Some d) = true ->
  (truthy address = true -> isWalletAddress V address = true) ->
  Providerless.getAttestationOrders V (Some d) address None excl false db
    = (Returned (VOrder r), db) ->
  exists pre post,
    rows db = pre ++ r :: post /\
    filter (where_ (Providerless.build_query (Some d) address None excl)) pre = [] /\
    where_ (Providerless.build_query (Some d) address None excl) r = true.
Proof.
  intros Hd Ha. rewrite getAttestationOrders_runs by (auto; discriminate).
  cbv zeta. unfold sql_select.
  destruct (filter _ (rows db)) as [|r' t] eqn:Hf; cbn [first_or_null]; [discriminate|].
  intros [= ->]. now apply filter_head in Hf.
Qed.

Lemma providerless_lookup_null V d address excl db :
  isDataObject V (Some d) = true ->
  (truthy address = true -> isWalletAddress V address = true) ->
  (forall x, In x (rows db) ->
     where_ (Providerless.build_query (Some d) address None excl) x = false) ->
  Providerless.getAttestationOrders V (Some d) address None excl false db
    = (Returned VNull, db).
Proof.
  intros Hd Ha Hnone. rewrite getAttestationOrders_runs by (auto; discriminate).
  cbv zeta. unfold sql_select.
  apply filter_nil in Hnone. now rewrite Hnone.
Qed.

(** If every order holding the data is attested, the lookup that excludes
    attested orders selects nothing. *)
Lemma all_attested_none_selected d address db :
  (forall x, In x (rows db) ->
     Forall (fun kv => exists i, slot_holds x kv i) d -> status x = attested) ->
  forall x, In x (rows db) ->
    where_ (Providerless.build_query (Some d) address None true) x = false.
Proof.
  intros Hall x Hx.
  destruct (where_ _ x) eqn:E; [|reflexivity].
  apply where_providerless in E. destruct E as (Hh & _ & _ & Hna).
  exfalso. apply Hna; auto.
Qed.

Lemma truthy_None_valid V : truthy None = true -> isWalletAddress V None = true.
Proof. discriminate. Qed.

(** The provider-less [updateWalletAddressInAttestationOrder] on the order
    its lookup returns. *)
Lemma providerless_bind_found V d wa db r :
  isWalletAddress V wa = true ->
  isDataObject V (Some d) = true ->
  NoDup (map id (rows db)) ->
  Providerless.getAttestationOrders V (Some d) None None true false db
    = (Returned (VOrder r), db) ->
  In r (rows db) /\ status r <> attested /\
  Providerless.updateWalletAddressInAttestationOrder V (Some d) wa db
    = (Returned VUndefined,
       mkDb (map (fun x => if id x =? id r then set_wallet_status wa addressed x else x)
               (rows db))
            (next_id db)).
Proof.
  intros Hw Hd Hnd Hget.
  destruct (providerless_lookup_order V d None true db r Hd (truthy_None_valid V) Hget)
    as (pre & post & Hrows & _ & Hr).
  apply where_providerless in Hr. destruct Hr as (_ & _ & _ & Hna).
  specialize (Hna eq_refl).
  assert (Hin : In r (rows db)) by (rewrite Hrows; apply in_elt).
  split; [exact Hin | split; [exact Hna|]].
  unfold Providerless.updateWalletAddressInAttestationOrder.
  rewrite Hw, Hd. cbn [andb]. unfold bind. rewrite Hget.
  cbn [Value_truthy order_id]. unfold status_is. cbn [order_status].
  destruct (Status_eqb (status r) attested) eqn:Est.
  { destruct (status r); try discriminate. contradiction. }
  unfold db_update, sql_update. f_equal. f_equal.
  apply map_ext_in. intros x Hx. rewrite where_not_attested_id.
  destruct (Z.eqb_spec (id x) (id r)) as [E|E]; [|now rewrite andb_false_r].
  assert (x = r) by (eapply id_injective; eauto). subst x.
  now rewrite Est.
Qed.

(** The provider-scoped [updateWalletAddressInAttestationOrder] on a
    non-attested order of the requested provider that its lookup returns. *)
Lemma scoped_bind_found V s d wa db r :
  isServiceProvider V (Some s) = true ->
  isWalletAddress V wa = true ->
  isDataObject V (Some d) = true ->
  NoDup (map id (rows db)) ->
  ProviderScoped.getAttestationOrders V (Some s) (Some d) None true false db
    = (Returned (VOrder r), db) ->
  service_provider r = Some s -> status r <> attested ->
  In r (rows db) /\
  ProviderScoped.updateWalletAddressInAttestationOrder V (Some s) (Some d) wa db
    = (Returned VUndefined,
       mkDb (map (fun x => if id x =? id r then set_wallet_status wa addressed x else x)
               (rows db))
            (next_id db)).
Proof.
  intros Hs Hw Hd Hnd Hget Hsp Hna.
  assert (Hin : In r (rows db)).
  { rewrite (scoped_getAttestationOrders_runs V (Some s) d None true false db Hs
               (truthy_None_valid V) Hd) in Hget.
    cbv zeta in Hget. unfold sql_select in Hget.
    destruct (filter _ (rows db)) as [|r' t] eqn:Hf; cbn [first_or_null] in Hget;
      [discriminate|].
    injection Hget as ->. apply filter_head in Hf.
    destruct Hf as (pre & post & -> & _). apply in_elt. }
  split; [exact Hin|].
  unfold ProviderScoped.updateWalletAddressInAttestationOrder.
  rewrite Hs, Hw, Hd. cbn [andb]. unfold bind. rewrite Hget.
  cbn [Value_truthy order_id]. unfold status_is. cbn [order_status].
  destruct (Status_eqb (status r) attested) eqn:Est.
  { destruct (status r); try discriminate. contradiction. }
  unfold db_update, sql_update. f_equal. f_equal.
  apply map_ext_in. intros x Hx. unfold where_. cbn.
  destruct (Z.eqb_spec (id x) (id r)) as [E|E].
  - assert (x = r) by (eapply id_injective; eauto). subst x.
    rewrite Hsp, Est. unfold sql_eq. now rewrite String.eqb_refl.
  - destruct (sql_eq (service_provider x) (Some s)),
      (negb (Status_eqb (status x) attested)); reflexivity.
Qed.

(** C6 (amended): [updateWalletAddressInAttestationOrder], given a valid
    address and valid data, fails with [ORDER_NOT_FOUND], leaving the store
    as it is, when its lookup finds no order; in the provider-less store
    that is the case whenever every order holding the data is attested,
    because the lookup leaves attested orders out.  On the order its lookup
    returns, which in the provider-less store is never attested, and in the
    provider-scoped store provided it is a non-attested order of the
    requested provider, it sets the wallet address and the status
    [addressed] on that order and changes no other. *)
Theorem bindAddress_outcomes V d wa db :
  isWalletAddress V wa = true ->
  isDataObject V (Some d) = true ->
  wf_db db ->
  ((forall x, In x (rows db) ->
      Forall (fun kv => exists i, slot_holds x kv i) d -> status x = attested) ->
   Providerless.updateWalletAddressInAttestationOrder V (Some d) wa db
     = (Thrown (ErrorWithMessage "Order not found" [code "ORDER_NOT_FOUND"]), db)) /\
  (Providerless.getAttestationOrders V (Some d) None None true false db
     = (Returned VNull, db) ->
   Providerless.updateWalletAddressInAttestationOrder V (Some d) wa db
     = (Thrown (ErrorWithMessage "Order not found" [code "ORDER_NOT_FOUND"]), db)) /\
  (forall r,
     Providerless.getAttestationOrders V (Some d) None None true false db
       = (Returned (VOrder r), db) ->
     In r (rows db) /\ status r <> attested /\
     Providerless.updateWalletAddressInAttestationOrder V (Some d) wa db
       = (Returned VUndefined,
          mkDb (map (fun x => if id x =? id r then set_wallet_status wa addressed x else x)
                  (rows db))
               (next_id db))) /\
  (forall s,
     isServiceProvider V s = true ->
     ProviderScoped.getAttestationOrders V s (Some d) None true false db
       = (Returned VNull, db) ->
     ProviderScoped.updateWalletAddressInAttestationOrder V s (Some d) wa db
       = (Thrown (ErrorWithMessage "Order not found" [code "ORDER_NOT_FOUND"]), db)) /\
  (forall s r,
     isServiceProvider V (Some s) = true ->
     ProviderScoped.getAttestationOrders V (Some s) (Some d) None true false db
       = (Returned (VOrder r), db) ->
     service_provider r = Some s -> status r <> attested ->
     In r (rows db) /\
     ProviderScoped.updateWalletAddressInAttestationOrder V (Some s) (Some d) wa db
       = (Returned VUndefined,
          mkDb (map (fun x => if id x =? id r then set_wallet_status wa addressed x else x)
                  (rows db))
               (next_id db))).
Proof.
  intros Hw Hd [Hnd _]. split; [|split; [|split; [|split]]].
  - intros Hall.
    unfold Providerless.updateWalletAddressInAttestationOrder.
    rewrite Hw, Hd. cbn [andb]. unfold bind.
    rewrite (providerless_lookup_null V d None true db Hd (truthy_None_valid V)
               (all_attested_none_selected d None db Hall)).
    reflexivity.
  - intros Hget.
    unfold Providerless.updateWalletAddressInAttestationOrder.
    rewrite Hw, Hd. cbn [andb]. unfold bind. rewrite Hget. reflexivity.
  - intros r Hget. now apply providerless_bind_found.
  - intros s Hs Hget.
    unfold ProviderScoped.updateWalletAddressInAttestationOrder.
    rewrite Hs, Hw, Hd. cbn [andb]. unfold bind. rewrite Hget. reflexivity.
  - intros s r Hs Hget Hsp Hna. now apply scoped_bind_found.
Qed.

Lemma wf_db_alice_pending : wf_db db_alice_pending.
Proof.
  split.
  - repeat constructor. intros [].
  - repeat constructor.
Defined.

Lemma bindAddress_outcomes_witness :
  isWalletAddress sample_validation (Some ADDR1) = true /\
  isDataObject sample_validation (Some alice) = true /\
  wf_db db_alice_pending /\
  Providerless.updateWalletAddressInAttestationOrder sample_validation (Some alice)
    (Some ADDR1) db_alice_pending
  = (Returned VUndefined,
     mkDb [sample_row 1 None alice (Some ADDR1) None addressed] 2) /\
  ProviderScoped.updateWalletAddressInAttestationOrder sample_validation (Some "default")
    (Some alice) (Some ADDR1) db_alice_default
  = (Returned VUndefined,
     mkDb [sample_row 1 (Some "default") alice (Some ADDR1) None addressed] 2).
Proof.
  split; [reflexivity|]. split; [reflexivity|]. split; [exact wf_db_alice_pending|].
  split.
  - destruct (bindAddress_outcomes sample_validation alice (Some ADDR1) db_alice_pending
                eq_refl eq_refl wf_db_alice_pending) as (_ & _ & Hfound & _).
    destruct (Hfound (sample_row 1 None alice None None pending) eq_refl) as (_ & _ & Hrun).
    exact Hrun.
  - assert (Hwf : wf_db db_alice_default).
    { split; [repeat constructor; intros [] | repeat constructor]. }
    destruct (bindAddress_outcomes sample_validation alice (Some ADDR1) db_alice_default
                eq_refl eq_refl Hwf) as (_ & _ & _ & _ & Hscoped).
    destruct (Hscoped "default" (sample_row 1 (Some "default") alice None None pending)
                eq_refl eq_refl eq_refl) as (_ & Hrun); [discriminate|].
    exact Hrun.
Defined.

(** C6, as stated, fails: with no matching order, and with a matching order
    that is already attested, the call fails with [ORDER_NOT_FOUND], which is
    neither [ADDRESS_NOT_FOUND] nor [ALREADY_ATTESTED]. *)
Lemma bindAddress_fails_with_ORDER_NOT_FOUND :
  Providerless.updateWalletAddressInAttestationOrder sample_validation (Some alice)
    (Some ADDR1) db_empty
  = (Thrown (ErrorWithMessage "Order not found" [code "ORDER_NOT_FOUND"]), db_empty) /\
  ProviderScoped.updateWalletAddressInAttestationOrder sample_validation (Some "default")
    (Some alice) (Some ADDR1) db_empty
  = (Thrown (ErrorWithMessage "Order not found" [code "ORDER_NOT_FOUND"]), db_empty) /\
  Providerless.updateWalletAddressInAttestationOrder sample_validation (Some alice)
    (Some ADDR2) db_alice_attested
  = (Thrown (ErrorWithMessage "Order not found" [code "ORDER_NOT_FOUND"]), db_alice_attested) /\
  Exn_code (ErrorWithMessage "Order not found" [code "ORDER_NOT_FOUND"])
    <> Some (MVal (Some "ADDRESS_NOT_FOUND")) /\
  Exn_code (ErrorWithMessage "Order not found" [code "ORDER_NOT_FOUND"])
    <> Some (MVal (Some "ALREADY_ATTESTED")).
Proof.
  repeat split; try reflexivity; discriminate.
Qed.

Lemma set_wallet_status_id a s x : id (set_wallet_status a s x) = id x.
Proof. reflexivity. Qed.

Lemma set_wallet_status_twice a s a' s' x :
  set_wallet_status a s (set_wallet_status a' s' x) = set_wallet_status a s x.
Proof. reflexivity. Qed.

Lemma set_wallet_status_same x :
  set_wallet_status (user_wallet_address x) (status x) x = x.
Proof. now destruct x. Qed.

Lemma slot_holds_set_wallet_status a s x kv i :
  slot_holds (set_wallet_status a s x) kv i <-> slot_holds x kv i.
Proof.
  unfold slot_holds. destruct i as [|[|[|[|i]]]]; cbn; tauto.
Qed.

(** The provider-less [removeWalletAddressInAttestationOrder] after
    [updateWalletAddressInAttestationOrder] on the same data and address. *)
Lemma providerless_bind_then_unbind V d a db r :
  isWalletAddress V (Some a) = true -> a <> "" ->
  isDataObject V (Some d) = true ->
  wf_db db -> unit_inv db ->
  Providerless.getAttestationOrders V (Some d) None None true false db
    = (Returned (VOrder r), db) ->
  exists db1 db2,
    Providerless.updateWalletAddressInAttestationOrder V (Some d) (Some a) db
      = (Returned VUndefined, db1) /\
    Providerless.removeWalletAddressInAttestationOrder V (Some d) (Some a) db1
      = (Returned VUndefined, db2) /\
    db2 = mkDb (map (fun x => if id x =? id r then set_wallet_status None pending x else x)
                  (rows db))
               (next_id db) /\
    (status r = pending -> user_wallet_address r = None -> db2 = db).
Proof.
  intros Hw Hne Hd [Hnd Hlt] Hinv Hget.
  assert (Hta : truthy (Some a) = true).
  { cbn. destruct (String.eqb_spec a ""); [contradiction | reflexivity]. }
  assert (Hva : truthy (Some a) = true -> isWalletAddress V (Some a) = true) by auto.
  destruct (providerless_bind_found V d (Some a) db r Hw Hd Hnd Hget) as (Hin & Hna & Hbind).
  destruct (providerless_lookup_order V d None true db r Hd (truthy_None_valid V) Hget)
    as (pre & post & Hrows & Hpre & Hr).
  set (r1 := set_wallet_status (Some a) addressed r).
  set (f := fun x => if id x =? id r then set_wallet_status (Some a) addressed x else x) in *.
  set (db1 := mkDb (map f (rows db)) (next_id db)) in *.
  (* the lookup of the removal returns the order just bound *)
  assert (Hget1 :
    Providerless.getAttestationOrders V (Some d) (Some a) None true false db1
      = (Returned (VOrder r1), db1)).
  { rewrite getAttestationOrders_runs by (auto; discriminate).
    cbv zeta. unfold sql_select, db1. cbn [rows]. rewrite Hrows, map_app, filter_app.
    assert (Hnone : filter (where_ (Providerless.build_query (Some d) (Some a) None true))
                      (map f pre) = []).
    { apply filter_nil. intros y Hy. apply in_map_iff in Hy. destruct Hy as (x & <- & Hx).
      assert (Hfx : f x = x).
      { unfold f. destruct (Z.eqb_spec (id x) (id r)) as [E|E]; [|reflexivity].
        exfalso. rewrite Hrows, map_app in Hnd. apply NoDup_remove_2 in Hnd.
        apply Hnd. apply in_or_app. left. cbn. rewrite <- E. now apply in_map. }
      rewrite Hfx.
      destruct (where_ _ x) eqn:E; [|reflexivity].
      apply where_providerless in E. destruct E as (Hh & _ & Hid & Hex).
      assert (E' : where_ (Providerless.build_query (Some d) None None true) x = true).
      { apply where_providerless. split; [exact Hh|].
        split; [discriminate | split; assumption]. }
      apply filter_nil with (x := x) in Hpre; [congruence | exact Hx]. }
    rewrite Hnone. cbn [app map filter].
    assert (Hfr : f r = r1) by (unfold f; now rewrite Z.eqb_refl).
    rewrite Hfr.
    assert (E : where_ (Providerless.build_query (Some d) (Some a) None true) r1 = true).
    { apply where_providerless. apply where_providerless in Hr.
      destruct Hr as (Hh & _). split.
      - eapply Forall_impl; [|exact Hh]. intros kv (i & Hi). exists i.
        now apply slot_holds_set_wallet_status.
      - split; [reflexivity | split; [discriminate | discriminate]]. }
    rewrite E. reflexivity. }
  assert (Hunit : truthy (unit_ r) = false).
  { destruct (truthy (unit_ r)) eqn:E; [|reflexivity].
    exfalso. apply Hna. unfold unit_inv in Hinv. rewrite Forall_forall in Hinv. auto. }
  exists db1, (sql_update (set_wallet_status None pending) [TCond (CId (Some (id r1)))] db1).
  split; [exact Hbind | split; [|split]].
  - unfold Providerless.removeWalletAddressInAttestationOrder. rewrite Hd. cbn [negb].
    unfold bind. rewrite Hget1.
    cbn [Value_truthy order_user_wallet_address order_unit order_id].
    change (user_wallet_address r1) with (Some a). rewrite Hta. cbn [negb].
    unfold status_is. cbn [order_status]. change (unit_ r1) with (unit_ r).
    rewrite Hunit. reflexivity.
  - unfold sql_update, db1. cbn [rows next_id]. f_equal. rewrite map_map.
    apply map_ext. intros x. rewrite where_id. unfold f.
    change (id r1) with (id r).
    destruct (Z.eqb_spec (id x) (id r)) as [E|E].
    + rewrite set_wallet_status_id. destruct (Z.eqb_spec (id x) (id r)); [|contradiction].
      apply set_wallet_status_twice.
    + destruct (Z.eqb_spec (id x) (id r)); [contradiction | reflexivity].
  - intros Hst Hwa. unfold sql_update, db1. cbn [rows next_id].
    destruct db as [rs nid]. cbn [rows next_id] in *. f_equal. rewrite map_map.
    rewrite <- (map_id rs) at 2. apply map_ext_in. intros x Hx. rewrite where_id.
    unfold f. change (id r1) with (id r).
    destruct (Z.eqb_spec (id x) (id r)) as [E|E].
    + rewrite set_wallet_status_id. destruct (Z.eqb_spec (id x) (id r)); [|contradiction].
      assert (x = r) by (eapply id_injective; eauto). subst x.
      rewrite set_wallet_status_twice, <- Hst, <- Hwa. apply set_wallet_status_same.
    + destruct (Z.eqb_spec (id x) (id r)); [contradiction | reflexivity].
Qed.

(** C7 (amended): in the provider-less store, binding an address to the
    order the lookup returns and then unbinding it leaves that order
    [pending] with no wallet address and every other order as it was, which
    is the store before the binding when the order was [pending] with no
    address then; unbinding when every order holding the data is attested
    fails with [ADDRESS_NOT_FOUND] and changes nothing. *)
Theorem bind_then_unbind_restores_pending V d a :
  isWalletAddress V (Some a) = true -> a <> "" ->
  isDataObject V (Some d) = true ->
  (forall db r,
     wf_db db -> unit_inv db ->
     Providerless.getAttestationOrders V (Some d) None None true false db
       = (Returned (VOrder r), db) ->
     exists db1 db2,
       Providerless.updateWalletAddressInAttestationOrder V (Some d) (Some a) db
         = (Returned VUndefined, db1) /\
       Providerless.removeWalletAddressInAttestationOrder V (Some d) (Some a) db1
         = (Returned VUndefined, db2) /\
       db2 = mkDb (map (fun x => if id x =? id r then set_wallet_status None pending x else x)
                     (rows db))
                  (next_id db) /\
       (status r = pending -> user_wallet_address r = None -> db2 = db)) /\
  (forall db address,
     (truthy address = true -> isWalletAddress V address = true) ->
     (forall x, In x (rows db) ->
        Forall (fun kv => exists i, slot_holds x kv i) d -> status x = attested) ->
     Providerless.removeWalletAddressInAttestationOrder V (Some d) address db
       = (Thrown (ErrorWithMessage "Order not found or already attested"
                    [code "ADDRESS_NOT_FOUND"]), db)).
Proof.
  intros Hw Hne Hd. split.
  - intros db r Hwf Hinv Hget. now apply providerless_bind_then_unbind.
  - intros db address Ha Hall.
    unfold Providerless.removeWalletAddressInAttestationOrder. rewrite Hd. cbn [negb].
    unfold bind.
    rewrite (providerless_lookup_null V d address true db Hd Ha
               (all_attested_none_selected d address db Hall)).
    reflexivity.
Qed.

Lemma unit_inv_alice_pending : unit_inv db_alice_pending.
Proof. repeat constructor. discriminate. Defined.

Lemma ADDR1_not_empty : ADDR1 <> "".
Proof. discriminate. Defined.

Lemma bind_then_unbind_restores_pending_witness :
  isWalletAddress sample_validation (Some ADDR1) = true /\ ADDR1 <> "" /\
  isDataObject sample_validation (Some alice) = true /\
  exists db1 db2,
    Providerless.updateWalletAddressInAttestationOrder sample_validation (Some alice)
      (Some ADDR1) db_alice_pending = (Returned VUndefined, db1) /\
    Providerless.removeWalletAddressInAttestationOrder sample_validation (Some alice)
      (Some ADDR1) db1 = (Returned VUndefined, db2) /\
    db2 = db_alice_pending.
Proof.
  split; [reflexivity|]. split; [exact ADDR1_not_empty|]. split; [reflexivity|].
  destruct (bind_then_unbind_restores_pending sample_validation alice ADDR1
              eq_refl ADDR1_not_empty eq_refl) as [Hround _].
  destruct (Hround db_alice_pending (sample_row 1 None alice None None pending)
              wf_db_alice_pending unit_inv_alice_pending eq_refl)
    as (db1 & db2 & H1 & H2 & _ & H4).
  exists db1, db2. split; [exact H1 | split; [exact H2 | apply H4; reflexivity]].
Defined.

(** C7, as stated, fails: unbinding on an attested order fails with
    [ADDRESS_NOT_FOUND], not with [ALREADY_ATTESTED]. *)
Lemma unbindAddress_attested_is_ADDRESS_NOT_FOUND :
  status (sample_row 1 None alice (Some ADDR1) (Some UNIT1) attested) = attested /\
  Providerless.removeWalletAddressInAttestationOrder sample_validation (Some alice)
    (Some ADDR1) db_alice_attested
  = (Thrown (ErrorWithMessage "Order not found or already attested"
               [code "ADDRESS_NOT_FOUND"]), db_alice_attested) /\
  Exn_code (ErrorWithMessage "Order not found or already attested"
              [code "ADDRESS_NOT_FOUND"])
    <> Some (MVal (Some "ALREADY_ATTESTED")).
Proof.
  repeat split; try reflexivity; discriminate.
Qed.

(** ** Attested orders stay *)




(** A lookup reads the store and leaves it as it is. *)
Lemma providerless_lookup_cases V data address id_ excl db :
  (exists e, Providerless.getAttestationOrders V data address id_ excl false db
             = (Thrown e, db)) \/
  Providerless.getAttestationOrders V data address id_ excl false db
    = (Returned (first_or_null
                   (sql_select (Providerless.build_query data address id_ excl) db)), db).
Proof.
  unfold Providerless.getAttestationOrders.
  destruct (truthy address && negb (isWalletAddress V address)); [left; eexists; reflexivity|].
  destruct (match id_ with Some n => n <=? 0 | None => false end);
    [left; eexists; reflexivity|].
  destruct (match data with Some _ => negb (isDataObject V data) | None => false end);
    [left; eexists; reflexivity|].
  right. reflexivity.
Qed.

Lemma scoped_lookup_cases V sp data address excl db :
  (exists e, ProviderScoped.getAttestationOrders V sp data address excl false db
             = (Thrown e, db)) \/
  (exists m meta, ProviderScoped.getAttestationOrders V sp data address excl false db
                  = (Returned (VError m meta), db)) \/
  (exists d, data = Some d /\
     ProviderScoped.getAttestationOrders V sp data address excl false db
     = (Returned (first_or_null
                    (sql_select (ProviderScoped.build_query sp d address excl) db)), db)).
Proof.
  unfold ProviderScoped.getAttestationOrders.
  destruct (negb (isServiceProvider V sp)); [left; eexists; reflexivity|].
  destruct (truthy address && negb (isWalletAddress V address)); [left; eexists; reflexivity|].
  destruct (negb (isDataObject V data)); [right; left; eexists _, _; reflexivity|].
  destruct data as [d|]; [|left; eexists; reflexivity].
  right. right. exists d. split; reflexivity.
Qed.

Lemma first_or_null_order {p : Row -> bool} {l r} :
  first_or_null (filter p l) = VOrder r -> In r l /\ p r = true.
Proof.
  destruct (filter p l) as [|r' t] eqn:Hf; cbn; [discriminate|].
  intros [= ->]. apply filter_In. rewrite Hf. now left.
Qed.

Lemma first_or_null_truthy l :
  Value_truthy (first_or_null l) = true -> exists r, first_or_null l = VOrder r.
Proof. destruct l as [|r t]; cbn; [discriminate | eauto]. Qed.

Lemma providerless_excl_not_attested data address id_ r :
  where_ (Providerless.build_query data address id_ true) r = true ->
  status r <> attested.
Proof.
  intros H.
  assert (H' : where_ (Providerless.build_query
                         (Some (match data with Some d => d | None => [] end))
                         address id_ true) r = true).
  { destruct data; exact H. }
  apply where_providerless in H'. destruct H' as (_ & _ & _ & Hna). auto.
Qed.

Lemma where_guarded_attested n x :
  status x = attested ->
  where_ [TCond CNotAttested; TAnd; TCond (CId n)] x = false.
Proof.
  intros Hst. unfold where_. cbn. rewrite Hst. cbn.
  destruct n as [m|]; cbn; try destruct (id x =? m); reflexivity.
Qed.



Lemma where_provider_id_wallet sp n a x :
  where_ [TCond (CProvider sp); TAnd; TCond (CId n); TAnd; TCond (CWallet a)] x = true ->
  sql_eq (user_wallet_address x) a = TT.
Proof.
  unfold where_. cbn.
  destruct (sql_eq (service_provider x) sp); cbn;
    destruct n as [m|]; cbn; try destruct (id x =? m); cbn;
    destruct (sql_eq (user_wallet_address x) a); cbn; congruence.
Qed.
















(** ** The verification handler *)

Lemma scoped_lookup_same_db V sp data address excl db res db' :
  ProviderScoped.getAttestationOrders V sp data address excl false db = (res, db') ->
  db' = db.
Proof.
  destruct (scoped_lookup_cases V sp data address excl db)
    as [[e He] | [(m & meta & He) | (d & _ & He)]]; congruence.
Qed.

Lemma scoped_finalize_thrown_same_db V sp data address unit db e db' :
  ProviderScoped.updateUnitAndChangeStatus V sp data address unit db = (Thrown e, db') ->
  db' = db.
Proof.
  unfold ProviderScoped.updateUnitAndChangeStatus.
  destruct (_ && isDataObject V data); [|unfold throw; congruence].
  unfold bind.
  destruct (ProviderScoped.getAttestationOrders V sp data address true false db)
    as [[order|e'] db1] eqn:Hget;
    pose proof (scoped_lookup_same_db _ _ _ _ _ _ _ _ Hget) as ->.
  - destruct (Value_truthy order); [unfold db_update | unfold throw]; congruence.
  - congruence.
Qed.

(** The inner [try] either leaves the store as it is, or the issuance
    succeeded and the store is the one [updateUnitAndChangeStatus] leaves;
    its last reply is never one of the failure notices. *)
Lemma finalize_cases V H from_address order data address db :
  let res := VerifyHandler.finalize V H from_address order data address db in
  In (issue (order_service_provider order) address data) (fst res) /\
  (exists t, last_reply (fst res) = Some (Text t)) /\
  (snd res = db \/
   exists unit v,
     postAttestationProfile H (order_service_provider order) address data = Some unit /\
     ProviderScoped.updateUnitAndChangeStatus V (prop "provider" data) (Some data) address
       (Some unit) db = (Returned v, snd res)).
Proof.
  unfold VerifyHandler.finalize. cbv zeta.
  destruct (postAttestationProfile H _ address data) as [unit|].
  - destruct (ProviderScoped.updateUnitAndChangeStatus V _ _ address (Some unit) db)
      as [[v|e] db'] eqn:Hup; cbn [fst snd].
    + split; [cbn; auto|]. split; [cbn; eauto|]. right. eauto.
    + split; [cbn; auto|]. split; [cbn; eauto|]. left.
      eapply scoped_finalize_thrown_same_db, Hup.
  - cbn [fst snd]. split; [cbn; auto|]. split; [cbn; eauto|]. now left.
Qed.

(** What the handler does to the store. *)
Lemma verifyHandler_cases V H from_address data db :
  let res := VerifyHandler.verifyHandler V H from_address data db in
  (snd res = db) \/
  ((exists t, last_reply (fst res) = Some (Text t)) /\
   exists provider d address unit v,
     In (issue provider address d) (fst res) /\
     ProviderScoped.updateUnitAndChangeStatus V (prop "provider" d) (Some d) address
       (Some unit) db = (Returned v, snd res)).
Proof.
  unfold VerifyHandler.verifyHandler. cbv zeta.
  destruct (match_signed_message data) as [b64|]; [|now left].
  destruct (decode_envelope H b64) as [env|]; [|now left].
  unfold VerifyHandler.on_validated.
  destruct (validateSignedMessage_err H env); [now left|].
  destruct (authors env) as [|wa rest]; [now left|].
  unfold VerifyHandler.try_claim.
  destruct (parse_signedData H _) as [[message d]|]; [|now left].
  cbv zeta.
  destruct (_ && negb (isWalletAddress V _)); [now left|].
  destruct (_ || _)%bool; [|now left].
  destruct (ProviderScoped.getAttestationOrders V _ _ _ false false db)
    as [[order|e] db1] eqn:Hget;
    pose proof (scoped_lookup_same_db _ _ _ _ _ _ _ _ Hget) as ->; [|now left].
  destruct (Value_truthy order); [|now left].
  destruct (status_is order attested); [now left|].
  destruct (transformDataValuesToObject H order) as [stored|]; [|now left].
  destruct (_ && _)%bool; [|now left].
  pose proof (finalize_cases V H from_address order d
                (VerifyHandler.claim_address message d) db) as Hfin.
  cbv zeta in Hfin.
  destruct (VerifyHandler.finalize V H from_address order d _ db) as [done db2].
  cbn [fst snd] in *.
  destruct Hfin as (Hissue & (t & Hlast) & [-> | (unit & v & _ & Hup)]); [now left|].
  right. split.
  - exists t. cbn. now rewrite Hlast.
  - exists (order_service_provider order), d, (VerifyHandler.claim_address message d), unit, v.
    split; [now right | exact Hup].
Qed.

(** C8: the handler writes to the order store in its finalize step only.
    Whenever its last reply is one of the failure notices (invalid format,
    validation failed, mismatched address, mismatched data, order not found)
    the store after the event is the store before it; and whenever the store
    changed, issuance was called and the new store is the one
    [updateUnitAndChangeStatus] leaves. *)
Theorem verifyHandler_writes_only_on_finalize V H from_address data db :
  (forall r,
     last_reply (fst (VerifyHandler.verifyHandler V H from_address data db)) = Some r ->
     is_failure_reply r = true ->
     snd (VerifyHandler.verifyHandler V H from_address data db) = db) /\
  (snd (VerifyHandler.verifyHandler V H from_address data db) <> db ->
   exists provider d address unit v,
     In (issue provider address d)
        (fst (VerifyHandler.verifyHandler V H from_address data db)) /\
     ProviderScoped.updateUnitAndChangeStatus V (prop "provider" d) (Some d) address
       (Some unit) db
     = (Returned v, snd (VerifyHandler.verifyHandler V H from_address data db))).
Proof.
  pose proof (verifyHandler_cases V H from_address data db) as Hc. cbv zeta in Hc.
  split.
  - intros r Hlast Hfail. destruct Hc as [Hsame | ((t & Ht) & _)]; [exact Hsame|].
    rewrite Ht in Hlast. injection Hlast as <-. discriminate.
  - intros Hne. destruct Hc as [Hsame | (_ & Hex)]; [contradiction | exact Hex].
Qed.

Lemma verifyHandler_writes_only_on_finalize_witness :
  last_reply
    (fst (VerifyHandler.verifyHandler sample_validation
            (sample_host ADDR2 (claim_owning ADDR1 alice) UNIT1) "DEVICE" signed_text
            db_alice_default)) = Some MISMATCH_ADDRESS /\
  is_failure_reply MISMATCH_ADDRESS = true /\
  snd (VerifyHandler.verifyHandler sample_validation
         (sample_host ADDR2 (claim_owning ADDR1 alice) UNIT1) "DEVICE" signed_text
         db_alice_default) = db_alice_default.
Proof.
  split; [reflexivity|]. split; [reflexivity|].
  apply (proj1 (verifyHandler_writes_only_on_finalize sample_validation
                  (sample_host ADDR2 (claim_owning ADDR1 alice) UNIT1) "DEVICE" signed_text
                  db_alice_default) MISMATCH_ADDRESS); reflexivity.
Defined.

(** The handler up to the claim: a signed block that decodes, a signature
    that verifies, a first author. *)
Lemma verifyHandler_on_claim V H from_address data db b64 env wa rest :
  match_signed_message data = Some b64 ->
  decode_envelope H b64 = Some env ->
  validateSignedMessage_err H env = false ->
  authors env = wa :: rest ->
  VerifyHandler.verifyHandler V H from_address data db =
  match VerifyHandler.try_claim V H from_address wa (signed_message env) db with
  | (done, None, db') => (done, db')
  | (done, Some _, db') =>
      (done ++ [sendMessageToDevice from_address INVALID_FORMAT_SIGNED_MESSAGE], db')
  end.
Proof.
  intros Hm Hd Hv Ha. unfold VerifyHandler.verifyHandler. rewrite Hm, Hd.
  unfold VerifyHandler.on_validated. now rewrite Hv, Ha.
Qed.




(** C3 (the code departs from it): when the order found for a valid signed
    message is already attested, the handler writes nothing, but it does not
    send the already-attested notice: building that notice reads the unbound
    identifier [username], the [ReferenceError] is caught by the enclosing
    handler, and the reply is [INVALID_FORMAT_SIGNED_MESSAGE]. *)
Theorem attested_order_is_answered_invalid_format V H from_address data db b64 env wa rest
    message d r :
  match_signed_message data = Some b64 ->
  decode_envelope H b64 = Some env ->
  validateSignedMessage_err H env = false ->
  authors env = wa :: rest ->
  parse_signedData H (trim (signed_message env)) = Some (message, d) ->
  (VerifyHandler.uses_phrase message = true ->
   isWalletAddress V (VerifyHandler.claim_address message d) = true) ->
  (truthy (VerifyHandler.claim_address message d) = true ->
   VerifyHandler.claim_address message d = Some wa) ->
  ProviderScoped.getAttestationOrders V (Some (VerifyHandler.defaultServiceProvider H))
    (Some d) (VerifyHandler.claim_address message d) false false db
    = (Returned (VOrder r), db) ->
  status r = attested ->
  VerifyHandler.verifyHandler V H from_address data db
  = ([lookupOrder (Some (VerifyHandler.defaultServiceProvider H)) d
        (VerifyHandler.claim_address message d);
      sendMessageToDevice from_address INVALID_FORMAT_SIGNED_MESSAGE], db).
Proof.
  intros Hm Hd Hv Ha Hp Hvalid Hsame Hget Hst.
  rewrite (verifyHandler_on_claim V H from_address data db b64 env wa rest Hm Hd Hv Ha).
  unfold VerifyHandler.try_claim. rewrite Hp. cbv zeta.
  assert (E : VerifyHandler.uses_phrase message
              && negb (isWalletAddress V (VerifyHandler.claim_address message d)) = false).
  { destruct (VerifyHandler.uses_phrase message); [rewrite Hvalid by reflexivity|];
      reflexivity. }
  rewrite E. clear E.
  assert (E : negb (truthy (VerifyHandler.claim_address message d))
              || strict_eq (Some wa) (VerifyHandler.claim_address message d) = true).
  { destruct (truthy (VerifyHandler.claim_address message d)); [|reflexivity].
    rewrite Hsame by reflexivity. cbn. apply String.eqb_refl. }
  rewrite E, Hget. clear E.
  cbn [Value_truthy]. unfold status_is. cbn [order_status]. rewrite Hst. reflexivity.
Qed.

Lemma attested_order_is_answered_invalid_format_witness :
  status (sample_row 1 (Some "default") alice_default (Some ADDR1) (Some UNIT1) attested)
    = attested /\
  VerifyHandler.verifyHandler sample_validation
    (sample_host ADDR1 (claim_owning ADDR1 alice_default) UNIT1) "DEVICE" signed_text
    db_alice_provider_attested
  = ([lookupOrder (Some "default") alice_default (Some ADDR1);
      sendMessageToDevice "DEVICE" INVALID_FORMAT_SIGNED_MESSAGE],
     db_alice_provider_attested).
Proof.
  split; [reflexivity|].
  apply (attested_order_is_answered_invalid_format sample_validation
           (sample_host ADDR1 (claim_owning ADDR1 alice_default) UNIT1) "DEVICE" signed_text
           db_alice_provider_attested "e30=" (mkEnvelope "{}" [ADDR1]) ADDR1 []
           (Some ("I own the address: " ++ ADDR1)%string) alice_default
           (sample_row 1 (Some "default") alice_default (Some ADDR1) (Some UNIT1) attested));
    reflexivity.
Defined.

(** ** Invalid data in the provider-scoped store *)

(** C10: in the provider-scoped store, data that fails the data-object
    validation makes [createAttestationOrder] and (once the service provider
    and the address have passed) [getAttestationOrders] return an
    [ErrorWithMessage] object instead of throwing, and the store is left as
    it is.  In particular a lookup without a data filter yields the error
    object, which is truthy and is neither an order nor [null].  The
    verification handler, which tests the lookup's result for truthiness,
    treats the error object as the order it found: it never answers such a
    claim with [CANNOT_FIND_ORDER]; once the lookup is reached it goes on
    with the error object in the place of the order, comparing the data and
    the provider read from it with the claim, and where they agree it
    announces the attestation and calls the issuance. *)
Theorem invalid_data_is_returned_not_thrown V :
  (forall sp data allow db,
     isDataObject V data = false ->
     ProviderScoped.createAttestationOrder V sp data allow db
     = (Returned (VError "Invalid data object" [code "INVALID_DATA"; ("data", MObj data)]),
        db)) /\
  (forall sp data address excl multiple db,
     isServiceProvider V sp = true ->
     (truthy address = true -> isWalletAddress V address = true) ->
     isDataObject V data = false ->
     ProviderScoped.getAttestationOrders V sp data address excl multiple db
     = (Returned (VError "Invalid data object" [code "INVALID_DATA"; ("data", MObj data)]),
        db)) /\
  (forall sp address excl multiple db,
     isServiceProvider V sp = true ->
     (truthy address = true -> isWalletAddress V address = true) ->
     isDataObject V None = false ->
     exists v,
       ProviderScoped.getAttestationOrders V sp None address excl multiple db
         = (Returned v, db) /\
       Value_truthy v = true /\ v <> VNull /\ forall r, v <> VOrder r) /\
  (forall H from_address wa text db message d,
     parse_signedData H (trim text) = Some (message, d) ->
     isDataObject V (Some d) = false ->
     ~ In (sendMessageToDevice from_address CANNOT_FIND_ORDER)
          (fst (fst (VerifyHandler.try_claim V H from_address wa text db)))) /\
  (forall H from_address wa text db message d,
     parse_signedData H (trim text) = Some (message, d) ->
     isDataObject V (Some d) = false ->
     isServiceProvider V (Some (VerifyHandler.defaultServiceProvider H)) = true ->
     VerifyHandler.uses_phrase message
       && negb (isWalletAddress V (VerifyHandler.claim_address message d)) = false ->
     negb (truthy (VerifyHandler.claim_address message d))
       || strict_eq (Some wa) (VerifyHandler.claim_address message d) = true ->
     (truthy (VerifyHandler.claim_address message d) = true ->
      isWalletAddress V (VerifyHandler.claim_address message d) = true) ->
     let address := VerifyHandler.claim_address message d in
     let order := VError "Invalid data object" [code "INVALID_DATA"; ("data", MObj (Some d))] in
     let asked := lookupOrder (Some (VerifyHandler.defaultServiceProvider H)) d address in
     let attest := VerifyHandler.finalize V H from_address order d address db in
     VerifyHandler.try_claim V H from_address wa text db
     = match transformDataValuesToObject H order with
       | None => ([asked], Some TypeError, db)
       | Some stored =>
           if isEqual stored d
              && match prop "provider" d with None => true | Some _ => false end
           then (asked :: fst attest, None, snd attest)
           else ([asked; sendMessageToDevice from_address MISMATCH_DATA], None, db)
       end /\
     In (sendMessageToDevice from_address
           (Text "Your data was attested successfully! We will send you unit later."))
        (fst attest) /\
     In (issue None address d) (fst attest)).
Proof.
  assert (Hget : forall sp data address excl multiple db,
     isServiceProvider V sp = true ->
     (truthy address = true -> isWalletAddress V address = true) ->
     isDataObject V data = false ->
     ProviderScoped.getAttestationOrders V sp data address excl multiple db
     = (Returned (VError "Invalid data object" [code "INVALID_DATA"; ("data", MObj data)]),
        db)).
  { intros sp data address excl multiple db Hs Ha Hd.
    unfold ProviderScoped.getAttestationOrders. rewrite Hs, Hd. cbn [negb].
    destruct (truthy address); [rewrite Ha by reflexivity|]; reflexivity. }
  split; [|split; [exact Hget | split; [|split]]].
  - intros sp data allow db Hd. unfold ProviderScoped.createAttestationOrder.
    now rewrite Hd.
  - intros sp address excl multiple db Hs Ha Hd. eexists. split; [now apply Hget|].
    split; [reflexivity | split; [discriminate | intros r; discriminate]].
  - intros H from_address wa text db message d Hp Hd.
    unfold VerifyHandler.try_claim. rewrite Hp. cbv zeta.
    destruct (VerifyHandler.uses_phrase message && _);
      [cbn; intros [E|[]]; discriminate E|].
    destruct (_ || _)%bool; [|cbn; intros [E|[]]; discriminate E].
    unfold ProviderScoped.getAttestationOrders. rewrite Hd. cbn [negb].
    destruct (negb (isServiceProvider V _)); [cbn; intros [E|[]]; discriminate E|].
    destruct (truthy _ && negb (isWalletAddress V _));
      [cbn; intros [E|[]]; discriminate E|].
    unfold ret. cbn [Value_truthy]. unfold status_is. cbn [order_status].
    destruct (transformDataValuesToObject H _) as [stored|];
      [|cbn; intros [E|[]]; discriminate E].
    destruct (isEqual stored d && _);
      [|cbn; intros [E|[E|[]]]; discriminate E].
    unfold VerifyHandler.finalize. cbv zeta.
    destruct (postAttestationProfile H _ _ d) as [unit|].
    + destruct (ProviderScoped.updateUnitAndChangeStatus V _ _ _ _ db) as [[v|e] db'];
        cbn; intuition discriminate.
    + cbn; intuition discriminate.
  - intros H from_address wa text db message d Hp Hd Hs Hphrase Hguard Ha.
    cbv zeta. split; [|split].
    + unfold VerifyHandler.try_claim. rewrite Hp. cbv zeta.
      rewrite Hphrase, Hguard.
      rewrite (Hget _ (Some d) _ false false db Hs Ha Hd).
      cbn [Value_truthy]. unfold status_is. cbn [order_status].
      destruct (transformDataValuesToObject H _) as [stored|]; [|reflexivity].
      unfold VerifyHandler.provider_matches.
      destruct (isEqual stored d && _); [|reflexivity].
      now destruct (VerifyHandler.finalize V H from_address _ d _ db).
    + unfold VerifyHandler.finalize. cbv zeta.
      destruct (postAttestationProfile H _ _ d) as [unit|];
        [destruct (ProviderScoped.updateUnitAndChangeStatus V _ _ _ _ db) as [[v|e] db']|];
        cbn; auto.
    + unfold VerifyHandler.finalize. cbv zeta. cbn [order_service_provider].
      destruct (postAttestationProfile H _ _ d) as [unit|];
        [destruct (ProviderScoped.updateUnitAndChangeStatus V _ _ _ _ db) as [[v|e] db']|];
        cbn; auto.
Qed.

Lemma invalid_data_is_returned_not_thrown_witness :
  isDataObject sample_validation None = false /\
  ProviderScoped.createAttestationOrder sample_validation (Some "default") None true db_empty
  = (Returned (VError "Invalid data object" [code "INVALID_DATA"; ("data", MObj None)]),
     db_empty) /\
  ProviderScoped.getAttestationOrders sample_validation (Some "default") None None false false
    db_alice_default
  = (Returned (VError "Invalid data object" [code "INVALID_DATA"; ("data", MObj None)]),
     db_alice_default) /\
  isDataObject sample_validation (Some []) = false /\
  VerifyHandler.try_claim sample_validation
    (sample_host ADDR1 (claim_owning ADDR1 []) UNIT1) "DEVICE" ADDR1 "{}" db_empty
  = ([lookupOrder (Some "default") [] (Some ADDR1);
      sendMessageToDevice "DEVICE"
        (Text "Your data was attested successfully! We will send you unit later.");
      issue None (Some ADDR1) [];
      sendMessageToDevice "DEVICE" (Text "Unknown error! Please try again.")],
     None, db_empty).
Proof.
  split; [reflexivity|].
  destruct (invalid_data_is_returned_not_thrown sample_validation)
    as (Hc & Hg & _ & _ & Hcaller).
  split; [|split; [|split]].
  - apply Hc. reflexivity.
  - apply Hg; [reflexivity | discriminate | reflexivity].
  - reflexivity.
  - apply (proj1 (Hcaller (sample_host ADDR1 (claim_owning ADDR1 []) UNIT1) "DEVICE" ADDR1
                    "{}" db_empty (Some ("I own the address: " ++ ADDR1)%string) []
                    eq_refl eq_refl eq_refl eq_refl eq_refl (fun _ => eq_refl))).
Defined.

(** ** Runs of the model *)

(** The end-to-end scenario: an order is created for the data, an address is
    bound to it, and a valid signed message proving that address owns the
    data drives the order to [attested]; the last reply carries the unit. *)
Example end_to_end_attestation :
  let V := sample_validation in
  let H := sample_host ADDR1 (claim_owning ADDR1 alice_default) UNIT1 in
  let db1 := snd (ProviderScoped.createAttestationOrder V (Some "default")
                    (Some alice_default) true db_empty) in
  let db2 := snd (ProviderScoped.updateWalletAddressInAttestationOrder V (Some "default")
                    (Some alice_default) (Some ADDR1) db1) in
  let res := VerifyHandler.verifyHandler V H "DEVICE" signed_text db2 in
  rows db1 = [sample_row 1 (Some "default") alice_default None None pending] /\
  rows db2 = [sample_row 1 (Some "default") alice_default (Some ADDR1) None addressed] /\
  rows (snd res)
    = [sample_row 1 (Some "default") alice_default (Some ADDR1) (Some UNIT1) attested] /\
  last_reply (fst res) = Some (Text ("Attestation unit: " ++ UNIT1)%string).
Proof. cbv zeta. repeat split; vm_compute; reflexivity. Qed.

(** A claim whose data fails validation is treated as a found order: with
    no order in the store at all the handler announces success, calls the
    issuance with no provider, and only then fails. *)
Example invalid_claim_reaches_issuance :
  VerifyHandler.verifyHandler sample_validation
    (sample_host ADDR1 (claim_owning ADDR1 []) UNIT1) "DEVICE" signed_text db_empty
  = ([lookupOrder (Some "default") [] (Some ADDR1);
      sendMessageToDevice "DEVICE"
        (Text "Your data was attested successfully! We will send you unit later.");
      issue None (Some ADDR1) [];
      sendMessageToDevice "DEVICE" (Text "Unknown error! Please try again.")],
     db_empty).
Proof. vm_compute. reflexivity. Qed.

(** The unparenthesised clause of the provider-scoped lookup: an order of
    another provider that holds the requested pair in slot 1 is selected. *)
Example scoped_lookup_ignores_provider :
  ProviderScoped.getAttestationOrders sample_validation (Some "default")
    (Some [("userId", "42")]) None false false
    (mkDb [sample_row 1 (Some "other") alice None None pending] 2)
  = (Returned (VOrder (sample_row 1 (Some "other") alice None None pending)),
     mkDb [sample_row 1 (Some "other") alice None None pending] 2).
Proof. vm_compute. reflexivity. Qed.

(** The regular expression and [trim] on a few texts: a line separator
    (U+2028) ends the search for the closing parenthesis, a zero-width space
    (U+200B) does not; a no-break space (U+00A0) and a byte order mark
    (U+FEFF) are trimmed, a zero-width space is not. *)
Example match_signed_message_runs :
  match_signed_message signed_text = Some "e30=" /\
  match_signed_message "(signed-message:)" = None /\
  match_signed_message "(signed-message:))" = Some ")" /\
  match_signed_message "no block here" = None /\
  match_signed_message
    ("(signed-message:ab" ++ bytes [226; 128; 168]%nat ++ "cd)")%string = None /\
  match_signed_message
    ("(signed-message:ab" ++ bytes [226; 128; 139]%nat ++ "cd)")%string
    = Some ("ab" ++ bytes [226; 128; 139]%nat ++ "cd")%string /\
  trim "  I own  " = "I own" /\
  trim (bytes [194; 160]%nat ++ ADDR1 ++ bytes [239; 187; 191]%nat)%string = ADDR1 /\
  trim (bytes [226; 128; 139]%nat ++ ADDR1)%string
    = (bytes [226; 128; 139]%nat ++ ADDR1)%string /\
  replace "I own the address: " "" ("I own the address: " ++ ADDR1) = ADDR1.
Proof. repeat split. Qed.

(** ** The well-formedness of the store is an invariant *)

Lemma wf_db_empty : wf_db db_empty.
Proof. split; constructor. Qed.

Lemma NoDup_snoc {A} (l : list A) a : NoDup l -> ~ In a l -> NoDup (l ++ [a]).
Proof.
  induction l as [|x l IH]; cbn; intros Hnd Hnotin.
  - repeat constructor. intros [].
  - inversion Hnd as [|y ys Hx Hl]; subst. constructor.
    + intros Hin. apply in_app_or in Hin. destruct Hin as [Hin|[<-|[]]]; auto.
    + apply IH; auto.
Qed.

Lemma wf_db_step db db' : store_step db db' -> wf_db db -> wf_db db'.
Proof.
  intros Hstep [Hnd Hlt]. destruct Hstep as [|set q Hid|sp a ks vs].
  - now split.
  - unfold sql_update. split; cbn [rows next_id].
    + rewrite map_map.
      assert (E : map (fun x => id (if where_ q x then set x else x)) (rows db)
                  = map id (rows db)).
      { apply map_ext. intros x. destruct (where_ q x); auto. }
      now rewrite E.
    + rewrite Forall_forall in *. intros y Hy. apply in_map_iff in Hy.
      destruct Hy as (x & <- & Hx). specialize (Hlt x Hx).
      destruct (where_ q x); [rewrite Hid|]; exact Hlt.
  - unfold db_insert. destruct (_ || _)%bool; cbn [snd]; [now split|].
    split; cbn [rows next_id].
    + rewrite map_app. cbn [map id]. apply NoDup_snoc; [exact Hnd|].
      intros Hin. apply in_map_iff in Hin.
      destruct Hin as (x & Hx & Hin). rewrite Forall_forall in Hlt.
      specialize (Hlt x Hin). lia.
    + apply Forall_app. split.
      * eapply Forall_impl; [|exact Hlt]. cbn. intros x Hx. lia.
      * repeat constructor. cbn. lia.
Qed.

Lemma providerless_lookup_same_db V data address id_ excl db res db' :
  Providerless.getAttestationOrders V data address id_ excl false db = (res, db') ->
  db' = db.
Proof.
  destruct (providerless_lookup_cases V data address id_ excl db) as [[e He] | He];
    congruence.
Qed.

(** Every operation of the two stores is a step of the store. *)
Lemma operations_are_steps V db :
  (forall data address allow,
     store_step db (snd (Providerless.createAttestationOrder V data address allow db))) /\
  (forall data wa,
     store_step db (snd (Providerless.updateWalletAddressInAttestationOrder V data wa db))) /\
  (forall data address,
     store_step db
       (snd (Providerless.removeWalletAddressInAttestationOrder V data address db))) /\
  (forall data address unit,
     store_step db (snd (Providerless.updateUnitAndChangeStatus V data address unit db))) /\
  (forall orderId deviceAddress,
     store_step db
       (snd (Providerless.updateDeviceAddressInAttestationOrder orderId deviceAddress db))) /\
  (forall sp data allow,
     store_step db (snd (ProviderScoped.createAttestationOrder V sp data allow db))) /\
  (forall sp data wa,
     store_step db
       (snd (ProviderScoped.updateWalletAddressInAttestationOrder V sp data wa db))) /\
  (forall sp data address,
     store_step db
       (snd (ProviderScoped.removeWalletAddressInAttestationOrder V sp data address db))) /\
  (forall sp data address unit,
     store_step db (snd (ProviderScoped.updateUnitAndChangeStatus V sp data address unit db))).
Proof.
  repeat split; intros.
  - unfold Providerless.createAttestationOrder.
    repeat (match goal with |- context [if ?c then throw _ else _] => destruct c end;
            [apply step_same|]).
    step_after_lookup providerless_lookup_same_db; [|apply step_same].
    destruct (negb (Value_truthy order)).
    + destruct data as [d|]; [|apply step_same]. unfold bind.
      pose proof (step_insert db None (or_undefined address) (Object_keys d)
                    (map String_ (Object_values d))) as Hins.
      destruct (db_insert _ _ _ _ db) as [[n|e] db']; exact Hins.
    + destruct (negb allow); apply step_same.
  - unfold Providerless.updateWalletAddressInAttestationOrder.
    destruct (_ && _)%bool; [|apply step_same].
    step_after_lookup providerless_lookup_same_db; [|apply step_same].
    destruct (Value_truthy order); [|apply step_same].
    destruct (status_is order attested); [apply step_same|].
    apply step_update. reflexivity.
  - unfold Providerless.removeWalletAddressInAttestationOrder.
    destruct (negb _); [apply step_same|].
    step_after_lookup providerless_lookup_same_db; [|apply step_same].
    destruct (Value_truthy order); [|apply step_same].
    destruct (negb _); [apply step_same|].
    destruct (_ || _)%bool; [apply step_same|].
    apply step_update. reflexivity.
  - unfold Providerless.updateUnitAndChangeStatus.
    destruct (_ && _)%bool; [|apply step_same].
    step_after_lookup providerless_lookup_same_db; [|apply step_same].
    destruct (Value_truthy order); [|apply step_same].
    apply step_update. reflexivity.
  - unfold Providerless.updateDeviceAddressInAttestationOrder.
    destruct (_ && _)%bool; [|apply step_same].
    apply step_update. reflexivity.
  - unfold ProviderScoped.createAttestationOrder.
    destruct (negb _); [apply step_same|].
    step_after_lookup scoped_lookup_same_db; [|apply step_same].
    destruct (negb (Value_truthy order)).
    + destruct data as [d|]; [|apply step_same]. unfold bind.
      pose proof (step_insert db sp None (Object_keys d)
                    (map String_ (Object_values d))) as Hins.
      destruct (db_insert _ _ _ _ db) as [[n|e] db']; exact Hins.
    + destruct (negb allow); apply step_same.
  - unfold ProviderScoped.updateWalletAddressInAttestationOrder.
    destruct (_ && _)%bool; [|apply step_same].
    step_after_lookup scoped_lookup_same_db; [|apply step_same].
    destruct (Value_truthy order); [|apply step_same].
    destruct (status_is order attested); [apply step_same|].
    apply step_update. reflexivity.
  - unfold ProviderScoped.removeWalletAddressInAttestationOrder.
    destruct (negb _); [apply step_same|].
    destruct (negb _); [apply step_same|].
    step_after_lookup scoped_lookup_same_db; [|apply step_same].
    destruct (Value_truthy order); [|apply step_same].
    destruct (negb _); [apply step_same|].
    destruct (negb _); [apply step_same|].
    apply step_update. reflexivity.
  - unfold ProviderScoped.updateUnitAndChangeStatus.
    destruct (_ && _)%bool; [|apply step_same].
    step_after_lookup scoped_lookup_same_db; [|apply step_same].
    destruct (Value_truthy order); [|apply step_same].
    apply step_update. reflexivity.
Qed.

Lemma unit_inv_update set q db :
  (forall x, In x (rows db) -> where_ q x = true ->
     truthy (unit_ (set x)) = true -> status (set x) = attested) ->
  unit_inv db -> unit_inv (sql_update set q db).
Proof.
  unfold unit_inv, sql_update. cbn [rows]. rewrite !Forall_forall.
  intros Hset Hinv y Hy. apply in_map_iff in Hy. destruct Hy as (x & <- & Hx).
  destruct (where_ q x) eqn:E; auto.
Qed.

Lemma unit_inv_insert sp a ks vs db :
  unit_inv db -> unit_inv (snd (db_insert sp a ks vs db)).
Proof.
  unfold unit_inv, db_insert. destruct (_ || _)%bool; cbn [snd rows]; [auto|].
  intros Hinv. apply Forall_app. split; [exact Hinv|].
  repeat constructor. cbn. discriminate.
Qed.

(** The provider-less operations keep units on attested orders only. *)
Lemma providerless_unit_inv V db :
  wf_db db -> unit_inv db ->
  (forall data address allow,
     unit_inv (snd (Providerless.createAttestationOrder V data address allow db))) /\
  (forall data wa,
     unit_inv (snd (Providerless.updateWalletAddressInAttestationOrder V data wa db))) /\
  (forall data address,
     unit_inv (snd (Providerless.removeWalletAddressInAttestationOrder V data address db))) /\
  (forall data address unit,
     unit_inv (snd (Providerless.updateUnitAndChangeStatus V data address unit db))) /\
  (forall orderId deviceAddress,
     unit_inv (snd (Providerless.updateDeviceAddressInAttestationOrder orderId deviceAddress
                      db))).
Proof.
  intros [Hnd _] Hinv.
  assert (Hfalsy : forall x, In x (rows db) -> status x <> attested ->
                             truthy (unit_ x) = true -> False).
  { intros x Hx Hna Hu. apply Hna. unfold unit_inv in Hinv.
    rewrite Forall_forall in Hinv. auto. }
  repeat split; intros.
  - unfold Providerless.createAttestationOrder.
    repeat (match goal with |- context [if ?c then throw _ else _] => destruct c end;
            [exact Hinv|]).
    step_after_lookup providerless_lookup_same_db; [|exact Hinv].
    destruct (negb (Value_truthy order)).
    + destruct data as [d|]; [|exact Hinv]. unfold bind.
      pose proof (unit_inv_insert None (or_undefined address) (Object_keys d)
                    (map String_ (Object_values d)) db Hinv) as Hins.
      destruct (db_insert _ _ _ _ db) as [[n|e] db']; exact Hins.
    + destruct (negb allow); exact Hinv.
  - unfold Providerless.updateWalletAddressInAttestationOrder.
    destruct (_ && _)%bool; [|exact Hinv].
    step_after_lookup providerless_lookup_same_db; [|exact Hinv].
    destruct (Value_truthy order); [|exact Hinv].
    destruct (status_is order attested); [exact Hinv|].
    apply unit_inv_update; [|exact Hinv]. intros x Hx Hw Hu. exfalso.
    apply (Hfalsy x Hx); [|exact Hu]. intros Hst.
    now rewrite where_guarded_attested in Hw.
  - unfold Providerless.removeWalletAddressInAttestationOrder.
    destruct (negb _); [exact Hinv|].
    unfold bind.
    destruct (providerless_lookup_cases V data address None true db)
      as [[e ->] | ->]; [exact Hinv|].
    destruct (Value_truthy _) eqn:Ht; [|exact Hinv].
    destruct (first_or_null_truthy _ Ht) as (o & Ho). rewrite Ho.
    destruct (first_or_null_order Ho) as (Hin & Hw).
    destruct (negb _); [exact Hinv|].
    destruct (_ || _)%bool; [exact Hinv|].
    cbn [order_id]. apply unit_inv_update; [|exact Hinv]. intros x Hx Hwx Hu. exfalso.
    rewrite where_id in Hwx. apply Z.eqb_eq in Hwx.
    assert (x = o) by (eapply id_injective; eauto). subst x.
    apply (Hfalsy o Hin); [|exact Hu].
    eapply providerless_excl_not_attested, Hw.
  - unfold Providerless.updateUnitAndChangeStatus.
    destruct (_ && _)%bool; [|exact Hinv].
    step_after_lookup providerless_lookup_same_db; [|exact Hinv].
    destruct (Value_truthy order); [|exact Hinv].
    apply unit_inv_update; [|exact Hinv]. reflexivity.
  - unfold Providerless.updateDeviceAddressInAttestationOrder.
    destruct (_ && _)%bool; [|exact Hinv].
    apply unit_inv_update; [|exact Hinv]. intros x Hx _ Hu. cbn in *.
    unfold unit_inv in Hinv. rewrite Forall_forall in Hinv. auto.
Qed.

(** * Further properties of the stores *)

Lemma db_insert_thrown sp a ks vs db e db' :
  db_insert sp a ks vs db = (Thrown e, db') -> db' = db.
Proof.
  unfold db_insert. destruct (_ || _)%bool; [congruence | discriminate].
Qed.

(** X1: validation comes before any write.  Whenever an operation of either
    store throws, whatever the exception, the store is exactly as it was
    before the call. *)
Theorem thrown_operation_changes_nothing V db e db' :
  (forall data address allow,
     Providerless.createAttestationOrder V data address allow db = (Thrown e, db') ->
     db' = db) /\
  (forall data wa,
     Providerless.updateWalletAddressInAttestationOrder V data wa db = (Thrown e, db') ->
     db' = db) /\
  (forall data address,
     Providerless.removeWalletAddressInAttestationOrder V data address db = (Thrown e, db') ->
     db' = db) /\
  (forall data address unit,
     Providerless.updateUnitAndChangeStatus V data address unit db = (Thrown e, db') ->
     db' = db) /\
  (forall orderId deviceAddress,
     Providerless.updateDeviceAddressInAttestationOrder orderId deviceAddress db
       = (Thrown e, db') ->
     db' = db) /\
  (forall sp data allow,
     ProviderScoped.createAttestationOrder V sp data allow db = (Thrown e, db') ->
     db' = db) /\
  (forall sp data wa,
     ProviderScoped.updateWalletAddressInAttestationOrder V sp data wa db = (Thrown e, db') ->
     db' = db) /\
  (forall sp data address,
     ProviderScoped.removeWalletAddressInAttestationOrder V sp data address db
       = (Thrown e, db') ->
     db' = db) /\
  (forall sp data address unit,
     ProviderScoped.updateUnitAndChangeStatus V sp data address unit db = (Thrown e, db') ->
     db' = db).
Proof.
  repeat split; intros *.
  - unfold Providerless.createAttestationOrder.
    repeat (match goal with |- context [if ?c then throw _ else _] => destruct c end;
            [thrown_same|]).
    step_after_lookup providerless_lookup_same_db; [|thrown_same].
    destruct (negb (Value_truthy order)).
    + destruct data as [d|]; [|thrown_same]. unfold bind.
      destruct (db_insert _ _ _ _ db) as [[n|e0] db1] eqn:Hins; [thrown_same|].
      apply db_insert_thrown in Hins. subst db1. thrown_same.
    + destruct (negb allow); thrown_same.
  - unfold Providerless.updateWalletAddressInAttestationOrder.
    destruct (_ && _)%bool; [|thrown_same].
    step_after_lookup providerless_lookup_same_db; [|thrown_same].
    destruct (Value_truthy order); [|thrown_same].
    destruct (status_is order attested); thrown_same.
  - unfold Providerless.removeWalletAddressInAttestationOrder.
    destruct (negb _); [thrown_same|].
    step_after_lookup providerless_lookup_same_db; [|thrown_same].
    destruct (Value_truthy order); [|thrown_same].
    destruct (negb _); [thrown_same|].
    destruct (_ || _)%bool; thrown_same.
  - unfold Providerless.updateUnitAndChangeStatus.
    destruct (_ && _)%bool; [|thrown_same].
    step_after_lookup providerless_lookup_same_db; [|thrown_same].
    destruct (Value_truthy order); thrown_same.
  - unfold Providerless.updateDeviceAddressInAttestationOrder.
    destruct (_ && _)%bool; thrown_same.
  - unfold ProviderScoped.createAttestationOrder.
    destruct (negb _); [thrown_same|].
    step_after_lookup scoped_lookup_same_db; [|thrown_same].
    destruct (negb (Value_truthy order)).
    + destruct data as [d|]; [|thrown_same]. unfold bind.
      destruct (db_insert _ _ _ _ db) as [[n|e0] db1] eqn:Hins; [thrown_same|].
      apply db_insert_thrown in Hins. subst db1. thrown_same.
    + destruct (negb allow); thrown_same.
  - unfold ProviderScoped.updateWalletAddressInAttestationOrder.
    destruct (_ && _)%bool; [|thrown_same].
    step_after_lookup scoped_lookup_same_db; [|thrown_same].
    destruct (Value_truthy order); [|thrown_same].
    destruct (status_is order attested); thrown_same.
  - unfold ProviderScoped.removeWalletAddressInAttestationOrder.
    destruct (negb _); [thrown_same|].
    destruct (negb _); [thrown_same|].
    step_after_lookup scoped_lookup_same_db; [|thrown_same].
    destruct (Value_truthy order); [|thrown_same].
    destruct (negb _); [thrown_same|].
    destruct (negb _); thrown_same.
  - unfold ProviderScoped.updateUnitAndChangeStatus.
    destruct (_ && _)%bool; [|thrown_same].
    step_after_lookup scoped_lookup_same_db; [|thrown_same].
    destruct (Value_truthy order); thrown_same.
Qed.

Lemma thrown_operation_changes_nothing_witness :
  Providerless.removeWalletAddressInAttestationOrder sample_validation (Some alice)
    (Some ADDR1) db_alice_pending
  = (Thrown (ErrorWithMessage "Order not found or already attested"
               [code "ADDRESS_NOT_FOUND"]), db_alice_pending) /\
  db_alice_pending = db_alice_pending.
Proof.
  split; [reflexivity|].
  destruct (thrown_operation_changes_nothing sample_validation db_alice_pending
              (ErrorWithMessage "Order not found or already attested"
                 [code "ADDRESS_NOT_FOUND"]) db_alice_pending) as (_ & _ & Hunbind & _).
  apply (Hunbind (Some alice) (Some ADDR1)). reflexivity.
Defined.

(** X2: the ids of the store stay those of a primary key.  From a store
    whose ids are distinct and below the next auto-increment id, every
    operation of either store, and the verification handler, leads to such a
    store again. *)
Theorem ids_stay_wellformed V H db :
  wf_db db ->
  (forall data address allow,
     wf_db (snd (Providerless.createAttestationOrder V data address allow db))) /\
  (forall data wa,
     wf_db (snd (Providerless.updateWalletAddressInAttestationOrder V data wa db))) /\
  (forall data address,
     wf_db (snd (Providerless.removeWalletAddressInAttestationOrder V data address db))) /\
  (forall data address unit,
     wf_db (snd (Providerless.updateUnitAndChangeStatus V data address unit db))) /\
  (forall orderId deviceAddress,
     wf_db (snd (Providerless.updateDeviceAddressInAttestationOrder orderId deviceAddress
                   db))) /\
  (forall sp data allow,
     wf_db (snd (ProviderScoped.createAttestationOrder V sp data allow db))) /\
  (forall sp data wa,
     wf_db (snd (ProviderScoped.updateWalletAddressInAttestationOrder V sp data wa db))) /\
  (forall sp data address,
     wf_db (snd (ProviderScoped.removeWalletAddressInAttestationOrder V sp data address
                   db))) /\
  (forall sp data address unit,
     wf_db (snd (ProviderScoped.updateUnitAndChangeStatus V sp data address unit db))) /\
  (forall from_address data,
     wf_db (snd (VerifyHandler.verifyHandler V H from_address data db))).
Proof.
  intros Hwf.
  destruct (operations_are_steps V db)
    as (H1 & H2 & H3 & H4 & H5 & H6 & H7 & H8 & H9).
  assert (Hs : forall db', store_step db db' -> wf_db db')
    by (intros db' Hstep; eapply wf_db_step; eauto).
  split; [intros; apply Hs, H1|]. split; [intros; apply Hs, H2|].
  split; [intros; apply Hs, H3|]. split; [intros; apply Hs, H4|].
  split; [intros; apply Hs, H5|]. split; [intros; apply Hs, H6|].
  split; [intros; apply Hs, H7|]. split; [intros; apply Hs, H8|].
  split; [intros; apply Hs, H9|]. intros from_address data.
  pose proof (verifyHandler_cases V H from_address data db) as Hc. cbv zeta in Hc.
  destruct Hc as [-> | (_ & provider & d & address & unit & v & _ & Hup)]; [exact Hwf|].
  pose proof (H9 (prop "provider" d) (Some d) address (Some unit)) as Hstep.
  rewrite Hup in Hstep. cbn [snd] in Hstep.
  eapply wf_db_step; [exact Hstep | exact Hwf].
Qed.

Lemma ids_stay_wellformed_witness :
  wf_db db_alice_pending /\
  wf_db (snd (Providerless.createAttestationOrder sample_validation (Some alice_name)
                (Some ADDR1) true db_alice_pending)).
Proof.
  split; [exact wf_db_alice_pending|].
  destruct (ids_stay_wellformed sample_validation
              (sample_host ADDR1 (claim_owning ADDR1 alice) UNIT1) db_alice_pending
              wf_db_alice_pending) as (Hcreate & _).
  apply Hcreate.
Defined.

(** X3: in the provider-less store a unit is recorded on attested orders
    only.  From a store with distinct ids in which every order with a unit
    is attested, every operation leads to such a store again. *)
Theorem units_stay_on_attested_orders V db :
  wf_db db -> unit_inv db ->
  (forall data address allow,
     unit_inv (snd (Providerless.createAttestationOrder V data address allow db))) /\
  (forall data wa,
     unit_inv (snd (Providerless.updateWalletAddressInAttestationOrder V data wa db))) /\
  (forall data address,
     unit_inv (snd (Providerless.removeWalletAddressInAttestationOrder V data address db))) /\
  (forall data address unit,
     unit_inv (snd (Providerless.updateUnitAndChangeStatus V data address unit db))) /\
  (forall orderId deviceAddress,
     unit_inv (snd (Providerless.updateDeviceAddressInAttestationOrder orderId deviceAddress
                      db))).
Proof.
  intros [Hnd _] Hinv.
  assert (Hfalsy : forall x, In x (rows db) -> status x <> attested ->
                             truthy (unit_ x) = true -> False).
  { intros x Hx Hna Hu. apply Hna. unfold unit_inv in Hinv.
    rewrite Forall_forall in Hinv. auto. }
  repeat split; intros.
  - unfold Providerless.createAttestationOrder.
    repeat (match goal with |- context [if ?c then throw _ else _] => destruct c end;
            [exact Hinv|]).
    step_after_lookup providerless_lookup_same_db; [|exact Hinv].
    destruct (negb (Value_truthy order)).
    + destruct data as [d|]; [|exact Hinv]. unfold bind.
      pose proof (unit_inv_insert None (or_undefined address) (Object_keys d)
                    (map String_ (Object_values d)) db Hinv) as Hins.
      destruct (db_insert _ _ _ _ db) as [[n|e] db']; exact Hins.
    + destruct (negb allow); exact Hinv.
  - unfold Providerless.updateWalletAddressInAttestationOrder.
    destruct (_ && _)%bool; [|exact Hinv].
    step_after_lookup providerless_lookup_same_db; [|exact Hinv].
    destruct (Value_truthy order); [|exact Hinv].
    destruct (status_is order attested); [exact Hinv|].
    apply unit_inv_update; [|exact Hinv]. intros x Hx Hw Hu. exfalso.
    apply (Hfalsy x Hx); [|exact Hu]. intros Hst.
    now rewrite where_guarded_attested in Hw.
  - unfold Providerless.removeWalletAddressInAttestationOrder.
    destruct (negb _); [exact Hinv|].
    unfold bind.
    destruct (providerless_lookup_cases V data address None true db)
      as [[e ->] | ->]; [exact Hinv|].
    destruct (Value_truthy _) eqn:Ht; [|exact Hinv].
    destruct (first_or_null_truthy _ Ht) as (o & Ho). rewrite Ho.
    destruct (first_or_null_order Ho) as (Hin & Hw).
    destruct (negb _); [exact Hinv|].
    destruct (_ || _)%bool; [exact Hinv|].
    cbn [order_id]. apply unit_inv_update; [|exact Hinv]. intros x Hx Hwx Hu. exfalso.
    rewrite where_id in Hwx. apply Z.eqb_eq in Hwx.
    assert (x = o) by (eapply id_injective; eauto). subst x.
    apply (Hfalsy o Hin); [|exact Hu].
    eapply providerless_excl_not_attested, Hw.
  - unfold Providerless.updateUnitAndChangeStatus.
    destruct (_ && _)%bool; [|exact Hinv].
    step_after_lookup providerless_lookup_same_db; [|exact Hinv].
    destruct (Value_truthy order); [|exact Hinv].
    apply unit_inv_update; [|exact Hinv]. reflexivity.
  - unfold Providerless.updateDeviceAddressInAttestationOrder.
    destruct (_ && _)%bool; [|exact Hinv].
    apply unit_inv_update; [|exact Hinv]. intros x Hx _ Hu. cbn in *.
    unfold unit_inv in Hinv. rewrite Forall_forall in Hinv. auto.
Qed.

Lemma units_stay_on_attested_orders_witness :
  wf_db db_alice_attested_bob_addressed /\
  unit_inv db_alice_attested_bob_addressed /\
  Providerless.updateUnitAndChangeStatus sample_validation (Some bob) (Some ADDR2)
    (Some UNIT2) db_alice_attested_bob_addressed
  = (Returned VUndefined,
     mkDb [sample_row 1 None alice (Some ADDR1) (Some UNIT1) attested;
           sample_row 2 None bob (Some ADDR2) (Some UNIT2) attested] 3) /\
  unit_inv (mkDb [sample_row 1 None alice (Some ADDR1) (Some UNIT1) attested;
                  sample_row 2 None bob (Some ADDR2) (Some UNIT2) attested] 3).
Proof.
  assert (Hwf : wf_db db_alice_attested_bob_addressed).
  { split.
    - repeat constructor; cbn; intuition discriminate.
    - repeat constructor. }
  assert (Hinv : unit_inv db_alice_attested_bob_addressed).
  { repeat constructor; cbn; intros; (reflexivity || discriminate). }
  split; [exact Hwf|]. split; [exact Hinv|]. split; [reflexivity|].
  destruct (units_stay_on_attested_orders sample_validation db_alice_attested_bob_addressed
              Hwf Hinv) as (_ & _ & _ & Hfin & _).
  apply (Hfin (Some bob) (Some ADDR2) (Some UNIT2)).
Defined.

Lemma prop_absent k d : ~ In k (Object_keys d) -> prop k d = None.
Proof.
  unfold Object_keys. induction d as [|[k' v'] d IH]; cbn; intros Hnotin; [reflexivity|].
  destruct (String.eqb_spec k k') as [->|Hne]; [exfalso; auto | auto].
Qed.

Lemma obj_get_spread_present k v d : forall o,
  NoDup (Object_keys d) -> prop k d = Some v ->
  obj_get k (obj_spread d o) = Some (MVal (Some v)).
Proof.
  unfold obj_spread, Object_keys.
  induction d as [|[k' v'] d IH]; intros o Hnd Hp; cbn in *; [discriminate|].
  inversion Hnd as [|x xs Hnotin Hnd']; subst.
  destruct (String.eqb_spec k k') as [->|Hne].
  - injection Hp as ->.
    pose proof (obj_get_spread k' d (obj_set k' (MVal (Some v)) o)
                  (prop_absent k' d Hnotin)) as E.
    unfold obj_spread in E. rewrite E. apply obj_get_set_same.
  - now apply IH.
Qed.

(** X4: in the provider-less store, [createAttestationOrder] with
    [allowDuplicates = false] on data for which the lookup (attested orders
    included) returns an order throws [Order already exists] and inserts
    nothing; the error carries that order's unit, and, when the data has no
    attribute named [code] or [status], the code [ALREADY_EXISTS] and that
    order's status. *)
Theorem providerless_duplicate_raises_ALREADY_EXISTS V d address db r :
  isDataObject V (Some d) = true ->
  (truthy address = true -> isWalletAddress V address = true) ->
  Providerless.getAttestationOrders V (Some d) (or_undefined address) None false false db
    = (Returned (VOrder r), db) ->
  exists meta,
    Providerless.createAttestationOrder V (Some d) address false db
      = (Thrown (ErrorWithMessage "Order already exists" meta), db) /\
    obj_get "unit" meta = Some (MVal (unit_ r)) /\
    (prop "code" d = None -> obj_get "code" meta = Some (MVal (Some "ALREADY_EXISTS"))) /\
    (prop "status" d = None ->
     obj_get "status" meta = Some (MVal (Some (Status_name (status r))))).
Proof.
  intros Hd Ha Hget. unfold Providerless.createAttestationOrder. rewrite Hd. cbn [negb].
  assert (E : truthy address && negb (isWalletAddress V address) = false).
  { destruct (truthy address); [rewrite Ha by reflexivity|]; reflexivity. }
  rewrite E. unfold bind. rewrite Hget. cbn [Value_truthy negb order_unit order_status option_map].
  unfold throw. eexists. split; [reflexivity|]. split; [|split].
  - apply obj_get_set_same.
  - intros Hp. rewrite obj_get_set_other by discriminate.
    now rewrite obj_get_spread.
  - intros Hp. rewrite obj_get_set_other by discriminate.
    now rewrite obj_get_spread.
Qed.

Lemma providerless_duplicate_raises_ALREADY_EXISTS_witness :
  exists meta,
    Providerless.createAttestationOrder sample_validation (Some alice) None false
      db_alice_attested
      = (Thrown (ErrorWithMessage "Order already exists" meta), db_alice_attested) /\
    obj_get "unit" meta = Some (MVal (Some UNIT1)) /\
    obj_get "code" meta = Some (MVal (Some "ALREADY_EXISTS")) /\
    obj_get "status" meta = Some (MVal (Some "attested")).
Proof.
  destruct (providerless_duplicate_raises_ALREADY_EXISTS sample_validation alice None
              db_alice_attested
              (sample_row 1 None alice (Some ADDR1) (Some UNIT1) attested)
              eq_refl (truthy_None_valid sample_validation) eq_refl)
    as (meta & Hrun & Hunit & Hcode & Hstatus).
  exists meta. split; [exact Hrun|]. split; [exact Hunit|].
  split; [apply Hcode | apply Hstatus]; reflexivity.
Defined.

(** X5: the properties of the [Order already exists] error are built as
    [{code, status, ...data, unit}], so an attribute of the data named [code]
    or [status] replaces the error's own code or status by the attribute's
    value, while an attribute named [unit] does not replace the unit. *)
Theorem duplicate_error_is_overwritten_by_data V d address db r :
  isDataObject V (Some d) = true ->
  (truthy address = true -> isWalletAddress V address = true) ->
  NoDup (Object_keys d) ->
  Providerless.getAttestationOrders V (Some d) (or_undefined address) None false false db
    = (Returned (VOrder r), db) ->
  exists meta,
    Providerless.createAttestationOrder V (Some d) address false db
      = (Thrown (ErrorWithMessage "Order already exists" meta), db) /\
    (forall c, prop "code" d = Some c -> obj_get "code" meta = Some (MVal (Some c))) /\
    (forall s, prop "status" d = Some s -> obj_get "status" meta = Some (MVal (Some s))) /\
    obj_get "unit" meta = Some (MVal (unit_ r)).
Proof.
  intros Hd Ha Hnd Hget. unfold Providerless.createAttestationOrder. rewrite Hd. cbn [negb].
  assert (E : truthy address && negb (isWalletAddress V address) = false).
  { destruct (truthy address); [rewrite Ha by reflexivity|]; reflexivity. }
  rewrite E. unfold bind. rewrite Hget.
  cbn [Value_truthy negb order_unit order_status option_map].
  unfold throw. eexists. split; [reflexivity|]. split; [|split].
  - intros c Hc. rewrite obj_get_set_other by discriminate.
    now apply obj_get_spread_present.
  - intros s Hs. rewrite obj_get_set_other by discriminate.
    now apply obj_get_spread_present.
  - apply obj_get_set_same.
Qed.

Lemma duplicate_error_is_overwritten_by_data_witness :
  exists meta,
    Providerless.createAttestationOrder sample_validation (Some [("code", "X")]) None false
      (mkDb [sample_row 1 None [("code", "X")] None None pending] 2)
      = (Thrown (ErrorWithMessage "Order already exists" meta),
         mkDb [sample_row 1 None [("code", "X")] None None pending] 2) /\
    obj_get "code" meta = Some (MVal (Some "X")).
Proof.
  destruct (duplicate_error_is_overwritten_by_data sample_validation [("code", "X")] None
              (mkDb [sample_row 1 None [("code", "X")] None None pending] 2)
              (sample_row 1 None [("code", "X")] None None pending)
              eq_refl (truthy_None_valid sample_validation))
    as (meta & Hrun & Hcode & _).
  - distinct_strings.
  - reflexivity.
  - exists meta. split; [exact Hrun | apply Hcode; reflexivity].
Defined.

(** X6: with [allowDuplicates = true] the lookup of the provider-less
    [createAttestationOrder] leaves attested orders out, so when every order
    holding the data is attested (or none holds it) a new order is inserted
    beside them: the call returns the next auto-increment id, the new row
    holds the pairs in slots 0.. in the order of the data, with the given
    address and no unit, and the rows that were there are unchanged. *)
Theorem create_beside_attested_orders V d address db :
  isDataObject V (Some d) = true ->
  (1 <= List.length d <= 4)%nat ->
  (truthy address = true -> isWalletAddress V address = true) ->
  (forall x, In x (rows db) ->
     Forall (fun kv => exists i, slot_holds x kv i) d -> status x = attested) ->
  Providerless.createAttestationOrder V (Some d) address true db
  = (Returned (VNum (next_id db)),
     mkDb (rows db ++ [sample_row (next_id db) None d (or_undefined address) None
                         (inserted_status (or_undefined address))])
          (next_id db + 1)).
Proof.
  intros Hd Hlen Ha Hall.
  pose proof (or_undefined_valid V address Ha) as Ha'.
  unfold Providerless.createAttestationOrder. rewrite Hd. cbn [negb].
  assert (E : truthy address && negb (isWalletAddress V address) = false).
  { destruct (truthy address); [rewrite Ha by reflexivity|]; reflexivity. }
  rewrite E. unfold bind at 1.
  rewrite (providerless_lookup_null V d (or_undefined address) true db Hd Ha'
             (all_attested_none_selected d (or_undefined address) db Hall)).
  cbn [Value_truthy negb]. unfold bind.
  rewrite (db_insert_runs None (or_undefined address) d db Hlen). reflexivity.
Qed.

Lemma create_beside_attested_orders_witness :
  Providerless.createAttestationOrder sample_validation (Some alice) None true
    db_alice_attested
  = (Returned (VNum 2),
     mkDb [sample_row 1 None alice (Some ADDR1) (Some UNIT1) attested;
           sample_row 2 None alice None None pending] 3).
Proof.
  apply (create_beside_attested_orders sample_validation alice None db_alice_attested).
  - reflexivity.
  - cbn; lia.
  - discriminate.
  - intros x [<-|[]] _. reflexivity.
Defined.

Lemma where_id_wallet_eq n a x :
  where_ [TCond (CId (Some n)); TAnd; TCond (CWallet a)] x =
  (id x =? n) && is_TT (sql_eq (user_wallet_address x) a).
Proof.
  unfold where_. cbn.
  destruct (id x =? n), (sql_eq (user_wallet_address x) a); reflexivity.
Qed.

Lemma sql_eq_same a : a <> None -> sql_eq a a = TT.
Proof.
  destruct a as [s|]; [|congruence]. intros _. cbn. now rewrite String.eqb_refl.
Qed.

Lemma truthy_not_None a : truthy a = true -> a <> None.
Proof. destruct a; [discriminate | discriminate]. Qed.

(** X7: the provider-less [updateUnitAndChangeStatus] attests exactly the
    first non-attested order that holds the data and has the given wallet
    address: that order gets the unit and the status [attested] and no other
    row changes.  When it was the only such order, a second call, with
    whatever unit, fails with [ORDER_NOT_FOUND] and leaves the recorded unit
    as it is. *)
Theorem finalize_attests_once V d address unit unit' db r rest :
  isUnit V unit = true -> isUnit V unit' = true ->
  isWalletAddress V address = true -> truthy address = true ->
  isDataObject V (Some d) = true ->
  wf_db db ->
  sql_select (Providerless.build_query (Some d) address None true) db = r :: rest ->
  let db1 :=
    mkDb (map (fun x => if id x =? id r then set_unit_attested unit x else x) (rows db))
         (next_id db) in
  status r <> attested /\ user_wallet_address r = address /\
  Providerless.updateUnitAndChangeStatus V (Some d) address unit db
    = (Returned VUndefined, db1) /\
  In (set_unit_attested unit r) (rows db1) /\
  (rest = [] ->
   Providerless.updateUnitAndChangeStatus V (Some d) address unit' db1
     = (Thrown (ErrorWithMessage "Order not found" [code "ORDER_NOT_FOUND"]), db1)).
Proof.
  intros Hu Hu' Hw Ht Hd [Hnd _] Hsel db1.
  assert (Hva : truthy address = true -> isWalletAddress V address = true) by auto.
  assert (Hi : forall n : Z, @None Z = Some n -> 0 < n) by discriminate.
  assert (Hsel0 : In r (sql_select (Providerless.build_query (Some d) address None true) db))
    by (rewrite Hsel; now left).
  unfold sql_select in Hsel0. apply filter_In in Hsel0. destruct Hsel0 as (Hin & Hr).
  apply where_providerless in Hr. destruct Hr as (Hh & Hwal & _ & Hna).
  specialize (Hwal Ht). specialize (Hna eq_refl).
  assert (Hrows1 : rows db1 =
            map (fun x => if where_ [TCond (CId (Some (id r))); TAnd; TCond (CWallet address)] x
                          then set_unit_attested unit x else x) (rows db)).
  { unfold db1. cbn [rows]. apply map_ext_in. intros x Hx. rewrite where_id_wallet_eq.
    destruct (Z.eqb_spec (id x) (id r)) as [E|E]; [|reflexivity].
    assert (x = r) by (eapply id_injective; eauto). subst x.
    rewrite Hwal, sql_eq_same by (now apply truthy_not_None). reflexivity. }
  split; [exact Hna|]. split; [exact Hwal|]. split; [|split].
  - unfold Providerless.updateUnitAndChangeStatus. rewrite Hu, Hw, Hd. cbn [andb].
    unfold bind. rewrite (getAttestationOrders_runs V d address None true false db Hd Hva Hi).
    cbv zeta. rewrite Hsel. cbn [first_or_null Value_truthy order_id].
    unfold db_update, sql_update. rewrite <- Hrows1. reflexivity.
  - unfold db1. cbn [rows]. apply in_map_iff. exists r. split; [|exact Hin].
    now rewrite Z.eqb_refl.
  - intros ->. unfold Providerless.updateUnitAndChangeStatus. rewrite Hu', Hw, Hd.
    cbn [andb]. unfold bind.
    rewrite (providerless_lookup_null V d address true db1 Hd Hva); [reflexivity|].
    intros y Hy. unfold db1 in Hy. cbn [rows] in Hy. apply in_map_iff in Hy.
    destruct Hy as (x & <- & Hx).
    destruct (Z.eqb_spec (id x) (id r)) as [E|E].
    + destruct (where_ _ (set_unit_attested unit x)) eqn:Ew; [|reflexivity].
      apply where_providerless in Ew. destruct Ew as (_ & _ & _ & Hna').
      exfalso. now apply Hna'.
    + destruct (where_ _ x) eqn:Ew; [|reflexivity].
      assert (Hx' : In x (sql_select (Providerless.build_query (Some d) address None true) db)).
      { unfold sql_select. apply filter_In. auto. }
      rewrite Hsel in Hx'. destruct Hx' as [<-|[]]. congruence.
Qed.

Lemma wf_db_alice_addressed : wf_db db_alice_addressed.
Proof.
  split.
  - repeat constructor. intros [].
  - repeat constructor.
Defined.

Lemma finalize_attests_once_witness :
  Providerless.updateUnitAndChangeStatus sample_validation (Some alice) (Some ADDR1)
    (Some UNIT1) db_alice_addressed = (Returned VUndefined, db_alice_attested) /\
  Providerless.updateUnitAndChangeStatus sample_validation (Some alice) (Some ADDR1)
    (Some UNIT2) db_alice_attested
  = (Thrown (ErrorWithMessage "Order not found" [code "ORDER_NOT_FOUND"]),
     db_alice_attested).
Proof.
  destruct (finalize_attests_once sample_validation alice (Some ADDR1) (Some UNIT1)
              (Some UNIT2) db_alice_addressed
              (sample_row 1 None alice (Some ADDR1) None addressed) []
              eq_refl eq_refl eq_refl eq_refl eq_refl wf_db_alice_addressed eq_refl)
    as (_ & _ & H1 & _ & H2).
  split; [exact H1 | exact (H2 eq_refl)].
Defined.

Lemma providerless_lookup_thrown_code V data address id_ excl db e db' :
  Providerless.getAttestationOrders V data address id_ excl false db = (Thrown e, db') ->
  has_code_in ["INVALID_DATA"] e.
Proof.
  unfold Providerless.getAttestationOrders.
  repeat (match goal with |- context [if ?c then throw _ else _] => destruct c end;
          [unfold throw; intros [= <- _]; exists "INVALID_DATA"; split;
             [now left | reflexivity]|]).
  unfold bind, db_select, ret. discriminate.
Qed.

Lemma has_code_in_weaken codes codes' e :
  (forall c, In c codes -> In c codes') -> has_code_in codes e -> has_code_in codes' e.
Proof. intros Hsub (c & Hc & He). exists c. auto. Qed.

(** X8: the error codes of the provider-less lifecycle operations.  Binding
    an address and finalizing throw [INVALID_DATA] or [ORDER_NOT_FOUND] only,
    re-pointing the device address [INVALID_DATA] only, and, in a store where
    units sit on attested orders only, unbinding throws [INVALID_DATA] or
    [ADDRESS_NOT_FOUND] only: their lookups leave attested orders out, so
    [ALREADY_ATTESTED] is never thrown. *)
Theorem providerless_error_codes V db e db' :
  (forall data wa,
     Providerless.updateWalletAddressInAttestationOrder V data wa db = (Thrown e, db') ->
     has_code_in ["INVALID_DATA"; "ORDER_NOT_FOUND"] e) /\
  (forall data address,
     unit_inv db ->
     Providerless.removeWalletAddressInAttestationOrder V data address db = (Thrown e, db') ->
     has_code_in ["INVALID_DATA"; "ADDRESS_NOT_FOUND"] e) /\
  (forall data address unit,
     Providerless.updateUnitAndChangeStatus V data address unit db = (Thrown e, db') ->
     has_code_in ["INVALID_DATA"; "ORDER_NOT_FOUND"] e) /\
  (forall orderId deviceAddress,
     Providerless.updateDeviceAddressInAttestationOrder orderId deviceAddress db
       = (Thrown e, db') ->
     has_code_in ["INVALID_DATA"] e).
Proof.
  assert (Hlook : forall data address excl e0 db0 codes,
            Providerless.getAttestationOrders V data address None excl false db = (Thrown e0, db0) ->
            In "INVALID_DATA" codes -> has_code_in codes e0).
  { intros data address excl e0 db0 codes Hget Hin.
    eapply has_code_in_weaken; [|eapply providerless_lookup_thrown_code, Hget].
    intros c [<-|[]]. exact Hin. }
  split; [|split; [|split]].
  - intros data wa. unfold Providerless.updateWalletAddressInAttestationOrder.
    destruct (_ && _)%bool; [|known_code "INVALID_DATA"].
    unfold bind.
    destruct (providerless_lookup_cases V data None None true db) as [[e0 He] | He];
      rewrite He.
    { intros [= <- _]. eapply Hlook; [exact He | cbn; tauto]. }
    destruct (Value_truthy _) eqn:Ht; [|known_code "ORDER_NOT_FOUND"].
    destruct (first_or_null_truthy _ Ht) as (o & Ho). rewrite Ho.
    destruct (first_or_null_order Ho) as (_ & Hw).
    apply providerless_excl_not_attested in Hw.
    unfold status_is. cbn [order_status].
    destruct (status o); try contradiction; cbn; unfold db_update; discriminate.
  - intros data address Hinv. unfold Providerless.removeWalletAddressInAttestationOrder.
    destruct (negb _); [known_code "INVALID_DATA"|].
    unfold bind.
    destruct (providerless_lookup_cases V data address None true db) as [[e0 He] | He];
      rewrite He.
    { intros [= <- _]. eapply Hlook; [exact He | cbn; tauto]. }
    destruct (Value_truthy _) eqn:Ht; [|known_code "ADDRESS_NOT_FOUND"].
    destruct (first_or_null_truthy _ Ht) as (o & Ho). rewrite Ho.
    destruct (first_or_null_order Ho) as (Hin & Hw).
    apply providerless_excl_not_attested in Hw.
    destruct (negb _); [known_code "ADDRESS_NOT_FOUND"|].
    unfold status_is. cbn [order_status order_unit].
    assert (Hun : truthy (unit_ o) = false).
    { destruct (truthy (unit_ o)) eqn:E; [|reflexivity]. exfalso. apply Hw.
      unfold unit_inv in Hinv. rewrite Forall_forall in Hinv. auto. }
    rewrite Hun.
    destruct (status o); try contradiction; cbn; unfold db_update; discriminate.
  - intros data address unit. unfold Providerless.updateUnitAndChangeStatus.
    destruct (_ && _)%bool; [|known_code "INVALID_DATA"].
    unfold bind.
    destruct (providerless_lookup_cases V data address None true db) as [[e0 He] | He];
      rewrite He.
    { intros [= <- _]. eapply Hlook; [exact He | cbn; tauto]. }
    destruct (Value_truthy _); [unfold db_update; discriminate | known_code "ORDER_NOT_FOUND"].
  - intros orderId deviceAddress.
    unfold Providerless.updateDeviceAddressInAttestationOrder.
    destruct (_ && _)%bool; [unfold db_update; discriminate | known_code "INVALID_DATA"].
Qed.

Lemma providerless_error_codes_witness :
  Providerless.updateWalletAddressInAttestationOrder sample_validation (Some alice)
    (Some ADDR2) db_alice_attested
  = (Thrown (ErrorWithMessage "Order not found" [code "ORDER_NOT_FOUND"]),
     db_alice_attested) /\
  has_code_in ["INVALID_DATA"; "ORDER_NOT_FOUND"]
    (ErrorWithMessage "Order not found" [code "ORDER_NOT_FOUND"]).
Proof.
  split; [reflexivity|].
  destruct (providerless_error_codes sample_validation db_alice_attested
              (ErrorWithMessage "Order not found" [code "ORDER_NOT_FOUND"])
              db_alice_attested) as (Hbind & _).
  apply (Hbind (Some alice) (Some ADDR2)). reflexivity.
Defined.

(** ** The clause of the provider-scoped lookup, as a whole *)

Lemma eval_where_app r pre : forall disj conj,
  exists disj' conj', forall q,
    eval_where r (pre ++ q) disj conj = eval_where r q disj' conj'.
Proof.
  induction pre as [|t pre IH]; intros disj conj; cbn.
  - exists disj, conj. reflexivity.
  - destruct t; apply IH.
Qed.

(** A condition that stands alone between two [OR]s decides the clause when
    it is true. *)
Lemma where_or_group r pre c post :
  eval_cond r c = TT ->
  where_ (pre ++ TOr :: TCond c :: TOr :: post) r = true.
Proof.
  intros Hc. unfold where_.
  destruct (eval_where_app r pre FF TT) as (disj' & conj' & ->).
  cbn. rewrite Hc. cbn.
  replace (tv_or (tv_or disj' conj') TT) with TT by (destruct (tv_or disj' conj'); reflexivity).
  now rewrite eval_where_TT.
Qed.

Lemma scoped_query_split sp d address excl k v :
  In (k, v) d ->
  exists pre post,
    ProviderScoped.build_query sp d address excl =
    pre ++ TOr :: TCond (CSlot 1 (Some k) (Some v))
        :: TOr :: TCond (CSlot 2 (Some k) (Some v)) :: TOr :: post.
Proof.
  intros Hin. apply in_split in Hin. destruct Hin as (d1 & d2 & ->).
  unfold ProviderScoped.build_query. cbv zeta.
  rewrite (fold_left_append (fun kv => ProviderScoped.entry_tokens (fst kv) (snd kv))).
  rewrite flat_map_app. cbn [flat_map fst snd ProviderScoped.entry_tokens].
  set (F1 := flat_map (fun kv => ProviderScoped.entry_tokens (fst kv) (snd kv)) d1).
  set (F2 := flat_map (fun kv => ProviderScoped.entry_tokens (fst kv) (snd kv)) d2).
  exists ([TCond (CProvider sp)] ++ F1 ++ [TAnd; TCond (CSlot 0 (Some k) (Some v))]).
  exists (TCond (CSlot 3 (Some k) (Some v))
          :: F2 ++ (if truthy address then [TAnd; TCond (CWallet address)] else [])
                ++ (if excl then [TAnd; TCond CNotAttested] else [])).
  destruct (truthy address), excl; repeat (rewrite <- ?app_assoc; cbn [app]);
    rewrite ?app_nil_r; reflexivity.
Qed.

Lemma slot_holds_eval r k v i :
  slot_holds r (k, v) i -> eval_cond r (CSlot i (Some k) (Some v)) = TT.
Proof.
  intros (_ & Hk & Hv). cbn in *. unfold eval_slot, sql_eq, String_ in *.
  rewrite Hk, Hv, !String.eqb_refl. reflexivity.
Qed.

Lemma eval_slot_holds r k v i :
  (i < 4)%nat ->
  is_TT (eval_slot r i (Some k) (Some v)) = true -> slot_holds r (k, v) i.
Proof.
  intros Hi. unfold eval_slot. rewrite is_TT_and, andb_true_iff, !sql_eq_true.
  intros [(s & Hk & [= <-]) (t & Hv & [= <-])]. repeat split; assumption.
Qed.

Lemma is_TT_and_TT a : is_TT (tv_and TT a) = is_TT a.
Proof. now destruct a. Qed.

Lemma scoped_entries_selected r es : forall disj conj tail,
  no_or tail = true ->
  is_TT (eval_where r
           (flat_map (fun kv => ProviderScoped.entry_tokens (fst kv) (snd kv)) es ++ tail)
           disj conj) = true ->
  is_TT disj = true \/ (es = [] /\ is_TT conj = true) \/ holds_some_pair r es.
Proof.
  induction es as [|[k v] es IH]; intros disj conj tail Htail Hsel.
  - cbn [flat_map app] in Hsel. rewrite eval_where_chain in Hsel by exact Htail.
    rewrite is_TT_or, is_TT_fold_and in Hsel.
    apply orb_true_iff in Hsel. destruct Hsel as [Hd|Hc]; [now left|].
    apply andb_true_iff in Hc. right. left. split; [reflexivity | apply Hc].
  - cbn [flat_map fst snd ProviderScoped.entry_tokens app eval_where eval_cond] in Hsel.
    apply IH in Hsel; [|exact Htail].
    assert (Hheld : forall i, (i < 4)%nat ->
              is_TT (eval_slot r i (Some k) (Some v)) = true ->
              holds_some_pair r ((k, v) :: es)).
    { intros i Hi He. exists (k, v), i. split; [now left | now apply eval_slot_holds]. }
    destruct Hsel as [Hd | [[_ Hc] | (kv & i & Hin & Hh)]].
    + rewrite !is_TT_or, !is_TT_and in Hd. cbn [is_TT andb] in Hd.
      apply orb_true_iff in Hd. destruct Hd as [Hd|H2]; [|right; right; apply (Hheld 2%nat); [lia|exact H2]].
      apply orb_true_iff in Hd. destruct Hd as [Hd|H1]; [|right; right; apply (Hheld 1%nat); [lia|exact H1]].
      apply orb_true_iff in Hd. destruct Hd as [Hd|H0]; [now left|].
      apply andb_true_iff in H0. right; right; apply (Hheld 0%nat); [lia | apply H0].
    + rewrite is_TT_and_TT in Hc. right; right; apply (Hheld 3%nat); [lia | exact Hc].
    + right. right. exists kv, i. split; [now right | exact Hh].
Qed.

(** X9: what the provider-scoped lookup selects.  Its clause puts no
    parentheses around the four slot alternatives of a requested pair, so (1)
    a row that holds some requested pair in slot 1 or in slot 2 is selected
    whatever its provider, wallet address and status; (2) a row of the
    requested provider that holds the first requested pair in slot 0 is
    selected whatever the rest of the filter; and (3) a selected row holds
    at least one requested pair, unless no pair is requested. *)
Theorem scoped_lookup_selects_on_one_pair sp d address excl r :
  (forall k v, In (k, v) d ->
     slot_holds r (k, v) 1 \/ slot_holds r (k, v) 2 ->
     where_ (ProviderScoped.build_query sp d address excl) r = true) /\
  (forall s k v d',
     sp = Some s -> d = (k, v) :: d' ->
     service_provider r = Some s -> slot_holds r (k, v) 0 ->
     where_ (ProviderScoped.build_query sp d address excl) r = true) /\
  (where_ (ProviderScoped.build_query sp d address excl) r = true ->
   (d = [] /\ service_provider r = sp) \/ holds_some_pair r d).
Proof.
  split; [|split].
  - intros k v Hin Hslot.
    destruct (scoped_query_split sp d address excl k v Hin) as (pre & post & ->).
    destruct Hslot as [H1|H2].
    + apply where_or_group. now apply slot_holds_eval.
    + change (pre ++ TOr :: TCond (CSlot 1 (Some k) (Some v))
                  :: TOr :: TCond (CSlot 2 (Some k) (Some v)) :: TOr :: post)
        with (pre ++ [TOr; TCond (CSlot 1 (Some k) (Some v))]
                  ++ TOr :: TCond (CSlot 2 (Some k) (Some v)) :: TOr :: post).
      rewrite app_assoc. apply where_or_group. now apply slot_holds_eval.
  - intros s k v d' -> -> Hs (_ & Hk & Hv). cbn in Hk, Hv.
    now apply scoped_where_first_slot.
  - unfold where_, ProviderScoped.build_query. cbv zeta.
    rewrite (fold_left_append (fun kv => ProviderScoped.entry_tokens (fst kv) (snd kv))).
    set (F := flat_map (fun kv => ProviderScoped.entry_tokens (fst kv) (snd kv)) d).
    set (tail := (if truthy address then [TAnd; TCond (CWallet address)] else [])
                 ++ (if excl then [TAnd; TCond CNotAttested] else [])).
    assert (Hq : (if excl
                  then (if truthy address
                        then ([TCond (CProvider sp)] ++ F) ++ [TAnd; TCond (CWallet address)]
                        else [TCond (CProvider sp)] ++ F) ++ [TAnd; TCond CNotAttested]
                  else if truthy address
                       then ([TCond (CProvider sp)] ++ F) ++ [TAnd; TCond (CWallet address)]
                       else [TCond (CProvider sp)] ++ F)
                 = TCond (CProvider sp) :: F ++ tail).
    { unfold tail. destruct (truthy address), excl;
        repeat (rewrite <- ?app_assoc; cbn [app]); rewrite ?app_nil_r; reflexivity. }
    rewrite Hq. cbn [eval_where eval_cond]. intros Hsel.
    apply scoped_entries_selected in Hsel.
    + destruct Hsel as [Hd | [[-> Hc] | Hh]]; [discriminate Hd | | now right].
      left. split; [reflexivity|]. rewrite is_TT_and_TT in Hc.
      apply sql_eq_true in Hc. destruct Hc as (s & -> & ->). reflexivity.
    + unfold tail. destruct (truthy address), excl; reflexivity.
Qed.

Lemma scoped_lookup_selects_on_one_pair_witness :
  In ("userId", "42") [("userId", "42")] /\
  slot_holds (sample_row 1 (Some "other") alice (Some ADDR1) (Some UNIT1) attested)
    ("userId", "42") 1 /\
  where_ (ProviderScoped.build_query (Some "default") [("userId", "42")] (Some ADDR2) true)
    (sample_row 1 (Some "other") alice (Some ADDR1) (Some UNIT1) attested) = true.
Proof.
  assert (Hslot : slot_holds (sample_row 1 (Some "other") alice (Some ADDR1) (Some UNIT1)
                                attested) ("userId", "42") 1).
  { split; [lia | split; reflexivity]. }
  split; [now left|]. split; [exact Hslot|].
  apply (proj1 (scoped_lookup_selects_on_one_pair (Some "default") [("userId", "42")]
                  (Some ADDR2) true
                  (sample_row 1 (Some "other") alice (Some ADDR1) (Some UNIT1) attested))
           "userId" "42").
  - now left.
  - left. exact Hslot.
Defined.

Lemma scoped_lookup_order V sp d address excl db r :
  isServiceProvider V sp = true ->
  (truthy address = true -> isWalletAddress V address = true) ->
  isDataObject V (Some d) = true ->
  ProviderScoped.getAttestationOrders V sp (Some d) address excl false db
    = (Returned (VOrder r), db) ->
  In r (rows db) /\ where_ (ProviderScoped.build_query sp d address excl) r = true.
Proof.
  intros Hs Ha Hd. rewrite scoped_getAttestationOrders_runs by assumption.
  cbv zeta. unfold sql_select. intros [= Ho]. now apply first_or_null_order in Ho.
Qed.

Lemma where_provider_id_wallet_eq sp n a x :
  where_ [TCond (CProvider sp); TAnd; TCond (CId (Some n)); TAnd; TCond (CWallet a)] x =
  is_TT (sql_eq (service_provider x) sp) && (id x =? n)
  && is_TT (sql_eq (user_wallet_address x) a).
Proof.
  unfold where_. cbn.
  destruct (sql_eq (service_provider x) sp), (id x =? n),
    (sql_eq (user_wallet_address x) a); reflexivity.
Qed.

(** The provider-scoped [updateUnitAndChangeStatus] on the order its lookup
    returns. *)
Lemma scoped_finalize_found V s d a unit db r :
  isServiceProvider V (Some s) = true -> isUnit V unit = true ->
  isWalletAddress V (Some a) = true -> a <> "" ->
  isDataObject V (Some d) = true ->
  wf_db db ->
  ProviderScoped.getAttestationOrders V (Some s) (Some d) (Some a) true false db
    = (Returned (VOrder r), db) ->
  service_provider r = Some s -> user_wallet_address r = Some a ->
  ProviderScoped.updateUnitAndChangeStatus V (Some s) (Some d) (Some a) unit db
  = (Returned VUndefined,
     mkDb (map (fun x => if id x =? id r then set_unit_attested unit x else x) (rows db))
          (next_id db)).
Proof.
  intros Hs Hu Hw Hne Hd [Hnd _] Hget Hsp Hwal.
  assert (Hva : truthy (Some a) = true -> isWalletAddress V (Some a) = true) by auto.
  destruct (scoped_lookup_order V (Some s) d (Some a) true db r Hs Hva Hd Hget) as (Hin & _).
  unfold ProviderScoped.updateUnitAndChangeStatus. rewrite Hs, Hu, Hw, Hd. cbn [andb].
  unfold bind. rewrite Hget. cbn [Value_truthy order_id].
  unfold db_update, sql_update. f_equal. f_equal.
  apply map_ext_in. intros x Hx. rewrite where_provider_id_wallet_eq.
  destruct (Z.eqb_spec (id x) (id r)) as [E|E].
  - assert (x = r) by (eapply id_injective; eauto). subst x.
    rewrite Hsp, Hwal. cbn. now rewrite !String.eqb_refl.
  - now rewrite andb_false_r.
Qed.

(** X10: the provider-scoped [updateUnitAndChangeStatus] writes the unit on
    the order its lookup returns whenever that order has the requested
    provider and wallet address, whatever its status: an order that is
    already attested, which the unparenthesised clause can return although
    attested orders are meant to be left out, gets its unit replaced by the
    new one.  No other row changes. *)
Theorem scoped_finalize_rewrites_unit V s d a unit db r :
  isServiceProvider V (Some s) = true -> isUnit V unit = true ->
  isWalletAddress V (Some a) = true -> a <> "" ->
  isDataObject V (Some d) = true ->
  wf_db db ->
  ProviderScoped.getAttestationOrders V (Some s) (Some d) (Some a) true false db
    = (Returned (VOrder r), db) ->
  service_provider r = Some s -> user_wallet_address r = Some a ->
  ProviderScoped.updateUnitAndChangeStatus V (Some s) (Some d) (Some a) unit db
  = (Returned VUndefined,
     mkDb (map (fun x => if id x =? id r then set_unit_attested unit x else x) (rows db))
          (next_id db)).
Proof.
  intros Hs Hu Hw Hne Hd [Hnd _] Hget Hsp Hwal.
  assert (Hva : truthy (Some a) = true -> isWalletAddress V (Some a) = true) by auto.
  destruct (scoped_lookup_order V (Some s) d (Some a) true db r Hs Hva Hd Hget) as (Hin & _).
  unfold ProviderScoped.updateUnitAndChangeStatus. rewrite Hs, Hu, Hw, Hd. cbn [andb].
  unfold bind. rewrite Hget. cbn [Value_truthy order_id].
  unfold db_update, sql_update. f_equal. f_equal.
  apply map_ext_in. intros x Hx. rewrite where_provider_id_wallet_eq.
  destruct (Z.eqb_spec (id x) (id r)) as [E|E].
  - assert (x = r) by (eapply id_injective; eauto). subst x.
    rewrite Hsp, Hwal. cbn. now rewrite !String.eqb_refl.
  - now rewrite andb_false_r.
Qed.

Lemma wf_db_alice_provider_attested : wf_db db_alice_provider_attested.
Proof.
  split.
  - repeat constructor. intros [].
  - repeat constructor.
Defined.

Lemma scoped_finalize_rewrites_unit_witness :
  status (sample_row 1 (Some "default") alice_default (Some ADDR1) (Some UNIT1) attested)
    = attested /\
  ProviderScoped.updateUnitAndChangeStatus sample_validation (Some "default")
    (Some alice_default) (Some ADDR1) (Some UNIT2) db_alice_provider_attested
  = (Returned VUndefined,
     mkDb [sample_row 1 (Some "default") alice_default (Some ADDR1) (Some UNIT2) attested] 2).
Proof.
  split; [reflexivity|].
  apply (scoped_finalize_rewrites_unit sample_validation "default" alice_default ADDR1
           (Some UNIT2) db_alice_provider_attested
           (sample_row 1 (Some "default") alice_default (Some ADDR1) (Some UNIT1) attested));
    try reflexivity.
  - exact ADDR1_not_empty.
  - exact wf_db_alice_provider_attested.
Defined.

(** X11: the provider-scoped [updateWalletAddressInAttestationOrder] can
    report success without binding anything.  When the order its lookup
    returns is not attested but belongs to another provider (the
    unparenthesised clause can return such an order), the [UPDATE], which
    does name the provider, matches no row: the call returns normally and
    the store is unchanged. *)
Theorem scoped_bind_other_provider_is_silent V s d wa db r :
  isServiceProvider V (Some s) = true -> isWalletAddress V wa = true ->
  isDataObject V (Some d) = true ->
  wf_db db ->
  ProviderScoped.getAttestationOrders V (Some s) (Some d) None true false db
    = (Returned (VOrder r), db) ->
  status r <> attested -> service_provider r <> Some s ->
  ProviderScoped.updateWalletAddressInAttestationOrder V (Some s) (Some d) wa db
  = (Returned VUndefined, db).
Proof.
  intros Hs Hw Hd [Hnd _] Hget Hna Hsp.
  destruct (scoped_lookup_order V (Some s) d None true db r Hs (truthy_None_valid V) Hd Hget)
    as (Hin & _).
  unfold ProviderScoped.updateWalletAddressInAttestationOrder. rewrite Hs, Hw, Hd.
  cbn [andb]. unfold bind. rewrite Hget. cbn [Value_truthy order_id].
  unfold status_is. cbn [order_status].
  destruct (Status_eqb (status r) attested) eqn:Est.
  { destruct (status r); try discriminate. contradiction. }
  unfold db_update, sql_update. f_equal. destruct db as [rs nid]. cbn [rows next_id] in *.
  f_equal. rewrite <- (map_id rs) at 2. apply map_ext_in. intros x Hx.
  destruct (where_ _ x) eqn:Ew; [|reflexivity]. exfalso.
  unfold where_ in Ew. cbn in Ew.
  destruct (sql_eq (service_provider x) (Some s)) eqn:Ep;
    try (destruct (negb _), (id x =? id r); discriminate Ew).
  destruct (Z.eqb_spec (id x) (id r)) as [E|E];
    [|destruct (negb _); discriminate Ew].
  assert (x = r) by (eapply id_injective; eauto). subst x.
  apply Hsp. assert (Ht : is_TT (sql_eq (service_provider r) (Some s)) = true)
    by now rewrite Ep.
  apply sql_eq_true in Ht. destruct Ht as (s' & -> & [= ->]). reflexivity.
Qed.

Lemma wf_db_other_provider : wf_db db_other_provider.
Proof.
  split.
  - repeat constructor. intros [].
  - repeat constructor.
Defined.

Lemma scoped_bind_other_provider_is_silent_witness :
  ProviderScoped.getAttestationOrders sample_validation (Some "default")
    (Some [("userId", "42")]) None true false db_other_provider
  = (Returned (VOrder (sample_row 1 (Some "other") alice None None pending)),
     db_other_provider) /\
  ProviderScoped.updateWalletAddressInAttestationOrder sample_validation (Some "default")
    (Some [("userId", "42")]) (Some ADDR1) db_other_provider
  = (Returned VUndefined, db_other_provider).
Proof.
  split; [reflexivity|].
  apply (scoped_bind_other_provider_is_silent sample_validation "default"
           [("userId", "42")] (Some ADDR1) db_other_provider
           (sample_row 1 (Some "other") alice None None pending));
    try reflexivity.
  - exact wf_db_other_provider.
  - discriminate.
  - discriminate.
Defined.

(** * Further properties of the verification handler *)

Lemma strict_eq_true a b : strict_eq (Some a) b = true -> b = Some a.
Proof.
  destruct b as [b|]; cbn; [|discriminate].
  destruct (String.eqb_spec a b) as [->|]; [reflexivity | discriminate].
Qed.

(** X12: the handler calls the issuance service only after every check has
    passed: a signed block that decodes, a signature that verifies, a first
    author, a parsed claim whose address is absent or is the author's, a
    lookup that returned a truthy value that is not an attested order, stored
    data equal to the claim's data and a matching provider. *)
Theorem issuance_only_after_all_checks V H from_address data db :
  existsb is_issue (fst (VerifyHandler.verifyHandler V H from_address data db)) = true ->
  exists b64 env wa rest message d order stored,
    match_signed_message data = Some b64 /\
    decode_envelope H b64 = Some env /\
    validateSignedMessage_err H env = false /\
    authors env = wa :: rest /\
    parse_signedData H (trim (signed_message env)) = Some (message, d) /\
    (truthy (VerifyHandler.claim_address message d) = false \/
     VerifyHandler.claim_address message d = Some wa) /\
    ProviderScoped.getAttestationOrders V (Some (VerifyHandler.defaultServiceProvider H))
      (Some d) (VerifyHandler.claim_address message d) false false db
      = (Returned order, db) /\
    Value_truthy order = true /\ status_is order attested = false /\
    transformDataValuesToObject H order = Some stored /\
    isEqual stored d = true /\ VerifyHandler.provider_matches d order = true.
Proof.
  unfold VerifyHandler.verifyHandler.
  destruct (match_signed_message data) as [b64|] eqn:Hm; [|discriminate].
  destruct (decode_envelope H b64) as [env|] eqn:Hd; [|discriminate].
  unfold VerifyHandler.on_validated.
  destruct (validateSignedMessage_err H env) eqn:Hv; [discriminate|].
  destruct (authors env) as [|wa rest] eqn:Ha; [discriminate|].
  unfold VerifyHandler.try_claim.
  destruct (parse_signedData H _) as [[message d]|] eqn:Hp; [|discriminate].
  cbv zeta.
  destruct (VerifyHandler.uses_phrase message && _); [discriminate|].
  destruct (negb (truthy (VerifyHandler.claim_address message d))
            || strict_eq (Some wa) (VerifyHandler.claim_address message d)) eqn:Hadr;
    [|discriminate].
  destruct (ProviderScoped.getAttestationOrders V _ _ _ false false db)
    as [[order|e] db1] eqn:Hget;
    pose proof (scoped_lookup_same_db _ _ _ _ _ _ _ _ Hget) as ->; [|discriminate].
  destruct (Value_truthy order) eqn:Ht; [|discriminate].
  destruct (status_is order attested) eqn:Hst; [discriminate|].
  destruct (transformDataValuesToObject H order) as [stored|] eqn:Htr; [|discriminate].
  destruct (isEqual stored d && VerifyHandler.provider_matches d order) eqn:Heq;
    [|discriminate].
  intros _. apply andb_true_iff in Heq. destruct Heq as [Heq Hpm].
  exists b64, env, wa, rest, message, d, order, stored.
  repeat (split; [assumption || reflexivity|]).
  split; [|repeat (split; [assumption|]); assumption].
  apply orb_true_iff in Hadr. destruct Hadr as [Hn|He].
  - left. now destruct (truthy _).
  - right. now apply strict_eq_true.
Qed.

Lemma issuance_only_after_all_checks_witness :
  existsb is_issue
    (fst (VerifyHandler.verifyHandler sample_validation
            (sample_host ADDR1 (claim_owning ADDR1 alice_default) UNIT1) "DEVICE" signed_text
            (mkDb [sample_row 1 (Some "default") alice_default (Some ADDR1) None addressed] 2)))
    = true /\
  exists order,
    ProviderScoped.getAttestationOrders sample_validation (Some "default")
      (Some alice_default) (Some ADDR1) false false
      (mkDb [sample_row 1 (Some "default") alice_default (Some ADDR1) None addressed] 2)
    = (Returned order,
       mkDb [sample_row 1 (Some "default") alice_default (Some ADDR1) None addressed] 2) /\
    status_is order attested = false.
Proof.
  split; [reflexivity|].
  destruct (issuance_only_after_all_checks sample_validation
              (sample_host ADDR1 (claim_owning ADDR1 alice_default) UNIT1) "DEVICE"
              signed_text
              (mkDb [sample_row 1 (Some "default") alice_default (Some ADDR1) None addressed] 2)
              eq_refl)
    as (b64 & env & wa & rest & message & d & order & stored
        & _ & _ & _ & _ & Hp & _ & Hget & _ & Hst & _).
  cbn in Hp. injection Hp as <- <-.
  exists order. split; [exact Hget | exact Hst].
Defined.


(** ** The signed-message block *)

Lemma lazy_group_eq c s' :
  lazy_group (String c s') =
  if starts_line_terminator (String c s') then None
  else
    match s' with
    | String c1 _ =>
        if Ascii.eqb c1 ")" then Some (String c EmptyString)
        else option_map (String c) (lazy_group s')
    | EmptyString => option_map (String c) (lazy_group s')
    end.
Proof.
  destruct s' as [|c1 s1]; [reflexivity|].
  destruct c1 as [[] [] [] [] [] [] [] []]; reflexivity.
Qed.

(** A closing parenthesis is part of no line terminator: whether one stands
    at the start of a text is decided before the parenthesis. *)
Lemma starts_line_terminator_app x rest :
  starts_line_terminator (x ++ String ")" rest) = starts_line_terminator x.
Proof.
  unfold starts_line_terminator, line_terminators. cbn [existsb].
  destruct x as [|a [|b [|c x]]]; cbn [append prefix];
    repeat match goal with
           | |- context [ascii_dec ?p ?q] => destruct (ascii_dec p q) as [?|?]
           end;
    try reflexivity; try discriminate; destruct x; reflexivity.
Qed.

Lemma no_line_terminator_eq c s :
  no_line_terminator (String c s)
  = negb (starts_line_terminator (String c s)) && no_line_terminator s.
Proof. reflexivity. Qed.

Lemma match_signed_message_eq data :
  match_signed_message data =
  match (if prefix "(signed-message:" data then lazy_group (drop 16 data) else None) with
  | Some g => Some g
  | None =>
      match data with
      | EmptyString => None
      | String _ rest => match_signed_message rest
      end
  end.
Proof. destruct data; reflexivity. Qed.

Lemma prefix_drop p : forall s,
  prefix p s = true -> s = (p ++ drop (String.length p) s)%string.
Proof.
  induction p as [|a p IH]; intros s Hp.
  - destruct s; reflexivity.
  - destruct s as [|b s]; cbn in Hp; [discriminate|].
    destruct (ascii_dec a b) as [->|]; [|discriminate].
    cbn. f_equal. now apply IH.
Qed.

Lemma lazy_group_sound s : forall g,
  lazy_group s = Some g ->
  exists c g' rest,
    g = String c g' /\ s = (g ++ String ")" rest)%string /\
    no_line_terminator g = true /\
    string_forall not_close_paren g' = true.
Proof.
  induction s as [|c s IH]; intros g Hg; [discriminate|].
  rewrite lazy_group_eq in Hg.
  destruct (starts_line_terminator (String c s)) eqn:Hc; [discriminate|].
  assert (Hrec : option_map (String c) (lazy_group s) = Some g ->
                 (match s with String c1 _ => Ascii.eqb c1 ")" = false | _ => True end) ->
                 exists c0 g' rest,
                   g = String c0 g' /\ String c s = (g ++ String ")" rest)%string /\
                   no_line_terminator g = true /\
                   string_forall not_close_paren g' = true).
  { intros Hm Hfirst. destruct (lazy_group s) as [g1|] eqn:Hg1; [|discriminate].
    injection Hm as <-.
    destruct (IH g1 eq_refl) as (c1 & g1' & rest & -> & Hs & Hnt & Hnp).
    exists c, (String c1 g1'), rest. split; [reflexivity|]. split; [|split].
    - cbn. f_equal. exact Hs.
    - rewrite no_line_terminator_eq, Hnt, andb_true_r.
      rewrite <- (starts_line_terminator_app (String c (String c1 g1')) rest).
      cbn [append]. cbn [append] in Hs. rewrite <- Hs, Hc. reflexivity.
    - cbn [string_forall]. rewrite Hnp, andb_true_r.
      rewrite Hs in Hfirst. cbn in Hfirst.
      unfold not_close_paren, is_close_paren. now rewrite Hfirst. }
  destruct s as [|c1 s1]; [now apply Hrec|].
  destruct (Ascii.eqb c1 ")") eqn:E; [|now apply Hrec].
  injection Hg as <-. apply Ascii.eqb_eq in E. subst c1.
  exists c, EmptyString, s1. split; [reflexivity|]. split; [reflexivity|].
  split; [|reflexivity].
  rewrite no_line_terminator_eq.
  rewrite <- (starts_line_terminator_app (String c EmptyString) s1).
  cbn [append]. rewrite Hc. reflexivity.
Qed.

Lemma lazy_group_complete g : forall rest,
  g <> EmptyString ->
  no_line_terminator g = true ->
  exists g0, lazy_group (g ++ String ")" rest) = Some g0.
Proof.
  induction g as [|c g IH]; intros rest Hne Hnt; [contradiction|].
  rewrite no_line_terminator_eq in Hnt. apply andb_true_iff in Hnt.
  destruct Hnt as [Hc Hnt]. apply negb_true_iff in Hc.
  rewrite <- (starts_line_terminator_app (String c g) rest) in Hc.
  cbn [append] in Hc. cbn [append]. rewrite lazy_group_eq, Hc.
  destruct g as [|c1 g1].
  - cbn. eauto.
  - cbn [append]. destruct (Ascii.eqb c1 ")"); [eauto|].
    destruct (IH rest) as (g0 & Hg0); [discriminate | exact Hnt|].
    cbn [append] in Hg0. rewrite Hg0. cbn. eauto.
Qed.

(** X14: the extraction of the signed block.  Whatever
    [match_signed_message] returns is a real block of the text: the text is
    some prefix, the marker, the returned group, a closing parenthesis and a
    rest; the group is not empty, contains no line terminator (LF, CR,
    U+2028, U+2029), and, past its first character, no closing parenthesis
    (it ends at the first one).  Conversely every text that contains the
    marker followed by a non-empty run without line terminators and a
    closing parenthesis yields a group. *)
Theorem match_signed_message_finds_the_block data :
  (forall g,
     match_signed_message data = Some g ->
     exists pre c g' post,
       g = String c g' /\
       data = (pre ++ "(signed-message:" ++ g ++ ")" ++ post)%string /\
       no_line_terminator g = true /\
       string_forall not_close_paren g' = true) /\
  (forall pre g post,
     data = (pre ++ "(signed-message:" ++ g ++ ")" ++ post)%string ->
     g <> EmptyString ->
     no_line_terminator g = true ->
     exists g0, match_signed_message data = Some g0).
Proof.
  split.
  - induction data as [|a data IH]; intros g Hg; rewrite match_signed_message_eq in Hg.
    + cbn in Hg. discriminate.
    + destruct (prefix "(signed-message:" (String a data)) eqn:Hp.
      * destruct (lazy_group (drop 16 (String a data))) as [g1|] eqn:Hl.
        -- injection Hg as <-.
           destruct (lazy_group_sound _ _ Hl) as (c & g' & rest & -> & Hs & Hnt & Hnp).
           exists EmptyString, c, g', rest. split; [reflexivity|]. split; [|auto].
           apply prefix_drop in Hp. cbn [String.length] in Hp. rewrite Hp at 1.
           rewrite Hs. reflexivity.
        -- destruct (IH g Hg) as (pre & c & g' & post & -> & -> & Hnt & Hnp).
           exists (String a pre), c, g', post. auto.
      * destruct (IH g Hg) as (pre & c & g' & post & -> & -> & Hnt & Hnp).
        exists (String a pre), c, g', post. auto.
  - intros pre. revert data. induction pre as [|a pre IH]; intros data g post -> Hne Hnt.
    + rewrite match_signed_message_eq.
      destruct (lazy_group_complete g post Hne Hnt) as (g0 & Hg0).
      destruct g as [|c g']; [contradiction|].
      change (prefix "(signed-message:"
                ("" ++ "(signed-message:" ++ String c g' ++ ")" ++ post)%string)
        with true.
      change (drop 16 ("" ++ "(signed-message:" ++ String c g' ++ ")" ++ post)%string)
        with (String c g' ++ String ")" post)%string.
      rewrite Hg0. eauto.
    + rewrite match_signed_message_eq. cbn [append].
      destruct (if prefix _ _ then _ else None) as [g1|]; [eauto|].
      apply (IH _ g post); [reflexivity | exact Hne | exact Hnt].
Qed.

Lemma match_signed_message_finds_the_block_witness :
  match_signed_message signed_text = Some "e30=" /\
  exists pre post,
    signed_text = (pre ++ "(signed-message:" ++ "e30=" ++ ")" ++ post)%string.
Proof.
  split; [reflexivity|].
  destruct (proj1 (match_signed_message_finds_the_block signed_text) "e30=" eq_refl)
    as (pre & c & g' & post & _ & Hs & _).
  exists pre, post. exact Hs.
Defined.

Lemma replace_eq pat rep s :
  replace pat rep s =
  if prefix pat s then (rep ++ drop (String.length pat) s)%string
  else
    match s with
    | EmptyString => EmptyString
    | String c s' => String c (replace pat rep s')
    end.
Proof. destruct s; reflexivity. Qed.

Lemma prefix_app p : forall s, prefix p (p ++ s) = true.
Proof.
  induction p as [|a p IH]; intros s; cbn.
  - now destruct s.
  - destruct (ascii_dec a a); [apply IH | contradiction].
Qed.

Lemma drop_app p : forall s, drop (String.length p) (p ++ s) = s.
Proof. induction p as [|a p IH]; intros s; cbn; [now destruct s | apply IH]. Qed.

(** *** White space at the two ends of a text *)

Lemma is_white_space_In s : is_white_space s = true -> In s white_space.
Proof.
  unfold is_white_space. intros Hs. apply existsb_exists in Hs.
  destruct Hs as (w & Hin & He). apply String.eqb_eq in He. now subst.
Qed.

(** A stripped code point starts with a byte that continues no encoding, and
    goes on with bytes that do. *)
Lemma white_space_first w :
  In w white_space -> exists c w', w = String c w' /\ is_continuation c = false.
Proof.
  unfold white_space. cbn [In]. intros Hin.
  repeat (destruct Hin as [<-|Hin]; [eexists _, _; split; reflexivity|]).
  contradiction.
Qed.

Lemma white_space_rest c1 s :
  In (String c1 s) white_space ->
  match s with
  | String c2 (String c3 _) => is_continuation c2 = true /\ is_continuation c3 = true
  | String c2 EmptyString => is_continuation c2 = true
  | EmptyString => True
  end.
Proof.
  unfold white_space. cbn [In]. intros Hin.
  repeat (destruct Hin as [Hin|Hin]; [injection Hin as <- <-; cbn; auto|]).
  contradiction.
Qed.

Lemma trimStart_white_space w :
  In w white_space -> forall s, trimStart (w ++ s) = trimStart s.
Proof.
  unfold white_space. cbn [In]. intros Hin s.
  repeat (destruct Hin as [<-|Hin]; [reflexivity|]).
  contradiction.
Qed.

Lemma trimStart_of_white_space w : In w white_space -> trimStart w = EmptyString.
Proof.
  unfold white_space. cbn [In]. intros Hin.
  repeat (destruct Hin as [<-|Hin]; [reflexivity|]).
  contradiction.
Qed.

Lemma trimEnd_white_space w :
  In w white_space -> forall a, trimEnd (a ++ w) = trimEnd a.
Proof.
  intros Hin a. induction a as [|c a IH].
  - unfold white_space in Hin. cbn [In] in Hin.
    repeat (destruct Hin as [<-|Hin]; [reflexivity|]).
    contradiction.
  - cbn [append trimEnd]. now rewrite IH.
Qed.

Lemma trimStart_eq c1 s1 :
  trimStart (String c1 s1) =
  if is_white_space (String c1 EmptyString) then trimStart s1
  else
    match s1 with
    | EmptyString => String c1 s1
    | String c2 s2 =>
        if is_white_space (String c1 (String c2 EmptyString)) then trimStart s2
        else
          match s2 with
          | EmptyString => String c1 s1
          | String c3 s3 =>
              if is_white_space (String c1 (String c2 (String c3 EmptyString)))
              then trimStart s3
              else String c1 s1
          end
    end.
Proof. reflexivity. Qed.

(** White space that follows a text is left by [trimStart], unless the text
    is white space itself. *)
Lemma trimStart_app_white_space w :
  In w white_space ->
  forall n a, (String.length a <= n)%nat ->
    trimStart (a ++ w) =
    match trimStart a with
    | EmptyString => EmptyString
    | t => (t ++ w)%string
    end.
Proof.
  intros Hin.
  destruct (white_space_first w Hin) as (cw & w' & -> & Hcw).
  assert (H2 : forall c1, is_white_space (String c1 (String cw EmptyString)) = false).
  { intros c1. destruct (is_white_space _) eqn:E; [|reflexivity].
    apply is_white_space_In, white_space_rest in E. congruence. }
  assert (H3 : forall c1 c3, is_white_space (String c1 (String cw (String c3 EmptyString)))
                             = false).
  { intros c1 c3. destruct (is_white_space _) eqn:E; [|reflexivity].
    apply is_white_space_In, white_space_rest in E. destruct E. congruence. }
  assert (H3' : forall c1 c2, is_white_space (String c1 (String c2 (String cw EmptyString)))
                              = false).
  { intros c1 c2. destruct (is_white_space _) eqn:E; [|reflexivity].
    apply is_white_space_In, white_space_rest in E. destruct E. congruence. }
  induction n as [|n IH]; intros a Hlen.
  - destruct a; [|cbn in Hlen; lia].
    apply (trimStart_of_white_space _ Hin).
  - destruct a as [|c1 a1]; [apply (trimStart_of_white_space _ Hin)|].
    cbn [String.length] in Hlen. cbn [append]. rewrite !trimStart_eq.
    destruct (is_white_space (String c1 EmptyString)); [apply IH; lia|].
    destruct a1 as [|c2 a2].
    + cbn [append]. rewrite H2. destruct w' as [|c3 w'']; [reflexivity|].
      now rewrite H3.
    + cbn [String.length] in Hlen. cbn [append].
      destruct (is_white_space (String c1 (String c2 EmptyString))); [apply IH; lia|].
      destruct a2 as [|c3 a3].
      * cbn [append]. now rewrite H3'.
      * cbn [String.length] in Hlen. cbn [append].
        destruct (is_white_space (String c1 (String c2 (String c3 EmptyString))));
          [apply IH; lia | reflexivity].
Qed.

Lemma append_assoc (a b c : string) : ((a ++ b) ++ c = a ++ b ++ c)%string.
Proof. induction a as [|x a IH]; cbn; [reflexivity | now rewrite IH]. Qed.

(** [trim] strips the white space at both ends, whatever it is made of. *)
Lemma trim_white_space before after a :
  Forall (fun w => In w white_space) before ->
  Forall (fun w => In w white_space) after ->
  trim (join before ++ a ++ join after) = trim a.
Proof.
  intros Hb Ha. unfold trim.
  assert (Hstart : forall s, trimStart (join before ++ s) = trimStart s).
  { induction Hb as [|w l Hw _ IH]; intros s; cbn [join fold_right]; [reflexivity|].
    fold (join l). now rewrite append_assoc, trimStart_white_space, IH. }
  rewrite Hstart. clear Hstart Hb. revert a.
  induction Ha as [|w l Hw _ IH]; intros a; cbn [join fold_right].
  - replace (a ++ "")%string with a; [reflexivity|].
    induction a as [|x a IHa]; cbn; [reflexivity | now rewrite <- IHa].
  - fold (join l). rewrite <- append_assoc, IH.
    rewrite (trimStart_app_white_space w Hw (String.length a) a (le_n _)).
    destruct (trimStart a) as [|c t] eqn:E.
    + reflexivity.
    + apply (trimEnd_white_space w Hw).
Qed.

(** X15: the ownership phrase decides the claimed address.  When the
    message is the phrase followed by some text, the claimed address is that
    text trimmed, whatever the claim's [address] attribute says; white space
    before and after the address, of whichever code points the language
    counts as white space or line terminator, makes no difference; and
    whenever the message carries the phrase and the address so obtained is
    not a valid wallet address, a verified event is answered
    [INVALID_FORMAT] at once, with no lookup and no change of the store. *)
Theorem ownership_phrase_decides_the_address V H :
  (forall a d,
     VerifyHandler.uses_phrase (Some ("I own the address: " ++ a)%string) = true /\
     VerifyHandler.claim_address (Some ("I own the address: " ++ a)%string) d
     = Some (trim a)) /\
  (forall before after a d,
     Forall (fun w => In w white_space) before ->
     Forall (fun w => In w white_space) after ->
     VerifyHandler.claim_address
       (Some ("I own the address: " ++ join before ++ a ++ join after)%string) d
     = VerifyHandler.claim_address (Some ("I own the address: " ++ a)%string) d) /\
  (forall from_address data db b64 env wa rest message d,
     match_signed_message data = Some b64 ->
     decode_envelope H b64 = Some env ->
     validateSignedMessage_err H env = false ->
     authors env = wa :: rest ->
     parse_signedData H (trim (signed_message env)) = Some (message, d) ->
     VerifyHandler.uses_phrase message = true ->
     isWalletAddress V (VerifyHandler.claim_address message d) = false ->
     VerifyHandler.verifyHandler V H from_address data db
     = ([sendMessageToDevice from_address INVALID_FORMAT_SIGNED_MESSAGE], db)).
Proof.
  assert (Hclaim : forall a d,
     VerifyHandler.uses_phrase (Some ("I own the address: " ++ a)%string) = true /\
     VerifyHandler.claim_address (Some ("I own the address: " ++ a)%string) d
     = Some (trim a)).
  { intros a d.
    assert (Hu : VerifyHandler.uses_phrase (Some ("I own the address: " ++ a)%string) = true)
      by reflexivity.
    split; [exact Hu|]. unfold VerifyHandler.claim_address. rewrite Hu.
    cbn [option_map]. rewrite replace_eq, prefix_app, drop_app. reflexivity. }
  split; [exact Hclaim | split].
  - intros before after a d Hb Ha.
    rewrite (proj2 (Hclaim _ d)), (proj2 (Hclaim a d)).
    now rewrite trim_white_space.
  - intros from_address data db b64 env wa rest message d Hm Hd Hv Ha Hp Hu Hinv.
    rewrite (verifyHandler_on_claim V H from_address data db b64 env wa rest Hm Hd Hv Ha).
    unfold VerifyHandler.try_claim. rewrite Hp. cbv zeta. rewrite Hu, Hinv. reflexivity.
Qed.

Lemma ownership_phrase_decides_the_address_witness :
  VerifyHandler.verifyHandler sample_validation
    (sample_host ADDR1 (claim_owning "too short" alice) UNIT1) "DEVICE" signed_text
    db_alice_default
  = ([sendMessageToDevice "DEVICE" INVALID_FORMAT_SIGNED_MESSAGE], db_alice_default) /\
  VerifyHandler.claim_address
    (Some ("I own the address: " ++ join [bytes [194; 160]%nat] ++ ADDR1
             ++ join [bytes [226; 128; 169]%nat; bytes [32]%nat])%string) alice
  = Some ADDR1.
Proof.
  destruct (ownership_phrase_decides_the_address sample_validation
              (sample_host ADDR1 (claim_owning "too short" alice) UNIT1))
    as (_ & Hspace & Hinvalid).
  split.
  - apply (Hinvalid "DEVICE" signed_text db_alice_default "e30=" (mkEnvelope "{}" [ADDR1])
             ADDR1 [] (Some "I own the address: too short") alice);
      reflexivity.
  - rewrite (Hspace [bytes [194; 160]%nat]
               [bytes [226; 128; 169]%nat; bytes [32]%nat] ADDR1 alice).
    + reflexivity.
    + repeat constructor; now apply is_white_space_In.
    + repeat constructor; now apply is_white_space_In.
Defined.

(** * Properties of the session store *)

Lemma Map_get_set_same {A} k (v : A) m : Map_get k (Map_set k v m) = Some v.
Proof.
  induction m as [|[k' v'] m IH]; cbn.
  - now rewrite String.eqb_refl.
  - destruct (String.eqb k k') eqn:E; cbn; rewrite ?E, ?String.eqb_refl; auto.
Qed.

Lemma Map_get_set_other {A} k k' (v : A) m :
  k <> k' -> Map_get k (Map_set k' v m) = Map_get k m.
Proof.
  intros Hne. induction m as [|[k'' v''] m IH]; cbn.
  - destruct (String.eqb_spec k k'); [contradiction | reflexivity].
  - destruct (String.eqb_spec k' k'') as [<-|Hne']; cbn.
    + destruct (String.eqb_spec k k'); [contradiction | reflexivity].
    + destruct (String.eqb k k''); auto.
Qed.

Lemma Map_get_delete_same {A} k (m : list (string * A)) : Map_get k (Map_delete k m) = None.
Proof.
  induction m as [|[k' v'] m IH]; cbn; [reflexivity|].
  destruct (String.eqb k k') eqn:E; cbn; rewrite ?E; auto.
Qed.

Lemma Map_get_delete_other {A} k k' (m : list (string * A)) :
  k <> k' -> Map_get k (Map_delete k' m) = Map_get k m.
Proof.
  intros Hne. induction m as [|[k'' v''] m IH]; cbn; [reflexivity|].
  destruct (String.eqb_spec k' k'') as [<-|Hne']; cbn.
  - destruct (String.eqb_spec k k'); [contradiction | exact IH].
  - destruct (String.eqb k k''); auto.
Qed.

Lemma getSession_get d sessions : SessionStore.getSession d sessions = Map_get d sessions.
Proof.
  unfold SessionStore.getSession, Map_has. now destruct (Map_get d sessions).
Qed.

(** X16: claiming an address in a session.  For a device that has a
    session, [setSessionWalletAddress] then [getSessionWalletAddress] gives
    the address back, the session keeps its id and creation time, every other
    device's session is untouched, and [deleteSessionWalletAddress] afterwards
    makes the read [undefined] again.  For a device without a session the
    store is left as it is and the read stays [null]. *)
Theorem session_address_round_trip d a sessions :
  (forall s,
     SessionStore.getSession d sessions = Some s ->
     SessionStore.getSessionWalletAddress d
       (SessionStore.setSessionWalletAddress d a sessions) = JStr a /\
     SessionStore.getSession d (SessionStore.setSessionWalletAddress d a sessions)
       = Some (mkSession (session_id s) (session_ts s) (Some a)) /\
     SessionStore.getSessionWalletAddress d
       (SessionStore.deleteSessionWalletAddress d
          (SessionStore.setSessionWalletAddress d a sessions)) = JUndefined) /\
  (forall d',
     d' <> d ->
     SessionStore.getSession d' (SessionStore.setSessionWalletAddress d a sessions)
       = SessionStore.getSession d' sessions) /\
  (SessionStore.getSession d sessions = None ->
   SessionStore.setSessionWalletAddress d a sessions = sessions /\
   SessionStore.getSessionWalletAddress d sessions = JNull).
Proof.
  rewrite getSession_get. split; [|split].
  - intros s Hs.
    assert (Hset : SessionStore.setSessionWalletAddress d a sessions
                   = Map_set d (mkSession (session_id s) (session_ts s) (Some a)) sessions).
    { unfold SessionStore.setSessionWalletAddress, Map_has. now rewrite Hs. }
    rewrite Hset. split; [|split].
    + unfold SessionStore.getSessionWalletAddress, Map_has.
      now rewrite Map_get_set_same.
    + rewrite getSession_get. apply Map_get_set_same.
    + unfold SessionStore.deleteSessionWalletAddress, SessionStore.getSessionWalletAddress,
        Map_has.
      rewrite Map_get_set_same. cbn [session_id session_ts].
      now rewrite Map_get_set_same.
  - intros d' Hne. rewrite !getSession_get.
    unfold SessionStore.setSessionWalletAddress, Map_has.
    destruct (Map_get d sessions) as [s|]; [|reflexivity].
    now apply Map_get_set_other.
  - intros Hs. unfold SessionStore.setSessionWalletAddress,
      SessionStore.getSessionWalletAddress, Map_has. now rewrite Hs.
Qed.

Lemma session_address_round_trip_witness :
  SessionStore.getSession "DEVICE" sample_sessions = Some (mkSession "abcde" 1000 None) /\
  SessionStore.getSessionWalletAddress "DEVICE"
    (SessionStore.setSessionWalletAddress "DEVICE" ADDR1 sample_sessions) = JStr ADDR1.
Proof.
  split; [reflexivity|].
  apply (proj1 (session_address_round_trip "DEVICE" ADDR1 sample_sessions)
           (mkSession "abcde" 1000 None) eq_refl).
Defined.

(** X17: creating a session.  For a device that already has a session and
    without [replace], [createSession] changes nothing and returns that
    session, so a second call returns the session the first one made.
    Otherwise it stores a fresh session with the drawn id, the current time
    and no claimed address (with [replace] the address claimed so far is
    dropped), leaves every other device's session alone, and returns the map
    of all sessions rather than the new session. *)
Theorem createSession_outcomes d id_ ts sessions :
  (forall s,
     SessionStore.getSession d sessions = Some s ->
     SessionStore.createSession d false id_ ts sessions = (CreatedSession (Some s), sessions)) /\
  (forall replace,
     SessionStore.getSession d sessions = None \/ replace = true ->
     exists sessions',
       SessionStore.createSession d replace id_ ts sessions = (CreatedMap sessions', sessions') /\
       SessionStore.getSession d sessions' = Some (mkSession id_ ts None) /\
       SessionStore.getSessionWalletAddress d sessions' = JUndefined /\
       (forall d', d' <> d ->
          SessionStore.getSession d' sessions' = SessionStore.getSession d' sessions)) /\
  (forall id2 ts2,
     SessionStore.getSession d sessions = None ->
     SessionStore.createSession d false id2 ts2
       (snd (SessionStore.createSession d false id_ ts sessions))
     = (CreatedSession (Some (mkSession id_ ts None)),
        snd (SessionStore.createSession d false id_ ts sessions))).
Proof.
  rewrite getSession_get.
  assert (Hfresh : forall replace,
            Map_get d sessions = None \/ replace = true ->
            SessionStore.createSession d replace id_ ts sessions
            = (CreatedMap (Map_set d (mkSession id_ ts None) sessions),
               Map_set d (mkSession id_ ts None) sessions)).
  { intros replace Hc. unfold SessionStore.createSession, Map_has.
    destruct Hc as [-> | ->]; [reflexivity|].
    destruct (Map_get d sessions); reflexivity. }
  split; [|split].
  - intros s Hs. unfold SessionStore.createSession, Map_has. now rewrite Hs.
  - intros replace Hc. eexists. split; [now apply Hfresh|]. split; [|split].
    + rewrite getSession_get. apply Map_get_set_same.
    + unfold SessionStore.getSessionWalletAddress, Map_has.
      now rewrite Map_get_set_same.
    + intros d' Hne. rewrite !getSession_get. now apply Map_get_set_other.
  - intros id2 ts2 Hs. rewrite (Hfresh false) by now left. cbn [snd].
    unfold SessionStore.createSession, Map_has. now rewrite Map_get_set_same.
Qed.

Lemma createSession_outcomes_witness :
  SessionStore.getSession "DEVICE" sample_sessions = Some (mkSession "abcde" 1000 None) /\
  SessionStore.createSession "DEVICE" false "zzzzz" 5000 sample_sessions
  = (CreatedSession (Some (mkSession "abcde" 1000 None)), sample_sessions).
Proof.
  split; [reflexivity|].
  apply (proj1 (createSession_outcomes "DEVICE" "zzzzz" 5000 sample_sessions)
           (mkSession "abcde" 1000 None) eq_refl).
Defined.

(** X18: the wallet-address handler.  A text that is not a valid wallet
    address, and a valid one from a device without a session, make the
    handler throw, emit nothing and leave the sessions as they are; a valid
    address from a device with a session is recorded as that session's
    claimed address, announced once on the event bus, and no other device's
    session changes. *)
Theorem walletAddressHandler_outcomes V from_address data sessions :
  (isWalletAddress V (Some data) = false ->
   WalletAddressHandler.walletAddressHandler V from_address data sessions
   = (Thrown (ErrorWithMessage "Invalid wallet address." []), [], sessions)) /\
  (isWalletAddress V (Some data) = true ->
   SessionStore.getSession from_address sessions = None ->
   WalletAddressHandler.walletAddressHandler V from_address data sessions
   = (Thrown (ErrorWithMessage "Session not found. But It's impossible here" []), [],
      sessions)) /\
  (forall s,
     isWalletAddress V (Some data) = true ->
     SessionStore.getSession from_address sessions = Some s ->
     exists sessions',
       WalletAddressHandler.walletAddressHandler V from_address data sessions
       = (Returned VUndefined, [ATTESTATION_KIT_ADDED_ADDRESS from_address data], sessions') /\
       SessionStore.getSessionWalletAddress from_address sessions' = JStr data /\
       (forall d', d' <> from_address ->
          SessionStore.getSession d' sessions' = SessionStore.getSession d' sessions)).
Proof.
  unfold WalletAddressHandler.walletAddressHandler. split; [|split].
  - intros ->. reflexivity.
  - intros -> ->. reflexivity.
  - intros s -> Hs. rewrite Hs. eexists. split; [reflexivity|].
    destruct (session_address_round_trip from_address data sessions) as (Hset & Hframe & _).
    destruct (Hset s Hs) as (Hget & _). split; [exact Hget | exact Hframe].
Qed.

Lemma walletAddressHandler_outcomes_witness :
  isWalletAddress sample_validation (Some ADDR1) = true /\
  exists sessions',
    WalletAddressHandler.walletAddressHandler sample_validation "DEVICE" ADDR1 sample_sessions
    = (Returned VUndefined, [ATTESTATION_KIT_ADDED_ADDRESS "DEVICE" ADDR1], sessions') /\
    SessionStore.getSessionWalletAddress "DEVICE" sessions' = JStr ADDR1.
Proof.
  split; [reflexivity|].
  destruct (walletAddressHandler_outcomes sample_validation "DEVICE" ADDR1 sample_sessions)
    as (_ & _ & Hok).
  destruct (Hok (mkSession "abcde" 1000 None) eq_refl eq_refl) as (sessions' & Hrun & Hget & _).
  exists sessions'. split; [exact Hrun | exact Hget].
Defined.

Lemma Map_has_set {A} k k' (v : A) m :
  Map_has k m = true -> Map_has k (Map_set k' v m) = true.
Proof.
  unfold Map_has. intros Hk. destruct (String.eqb_spec k k') as [->|Hne].
  - now rewrite Map_get_set_same.
  - now rewrite Map_get_set_other.
Qed.

(** X19: sessions are never dropped behind the caller's back.  A device
    that has a session still has one after [createSession],
    [setSessionWalletAddress], [deleteSessionWalletAddress] and the
    wallet-address handler, for whatever device and arguments these are
    called; only [deleteSession] removes a session, and only that of the
    device it is given. *)
Theorem sessions_are_kept d sessions :
  Map_has d sessions = true ->
  (forall d' replace id_ ts,
     Map_has d (snd (SessionStore.createSession d' replace id_ ts sessions)) = true) /\
  (forall d' a, Map_has d (SessionStore.setSessionWalletAddress d' a sessions) = true) /\
  (forall d', Map_has d (SessionStore.deleteSessionWalletAddress d' sessions) = true) /\
  (forall V d' data,
     Map_has d (snd (WalletAddressHandler.walletAddressHandler V d' data sessions)) = true) /\
  (forall d', d' <> d -> Map_has d (SessionStore.deleteSession d' sessions) = true) /\
  Map_has d (SessionStore.deleteSession d sessions) = false.
Proof.
  intros Hd.
  assert (Hset : forall d' a, Map_has d (SessionStore.setSessionWalletAddress d' a sessions) = true).
  { intros d' a. unfold SessionStore.setSessionWalletAddress.
    destruct (Map_has d' sessions); [|exact Hd].
    destruct (Map_get d' sessions); [now apply Map_has_set | exact Hd]. }
  split; [|split; [exact Hset | split; [|split; [|split]]]].
  - intros d' replace id_ ts. unfold SessionStore.createSession.
    destruct (Map_has d' sessions && negb replace); cbn [snd];
      [exact Hd | now apply Map_has_set].
  - intros d'. unfold SessionStore.deleteSessionWalletAddress.
    destruct (Map_has d' sessions); [|exact Hd].
    destruct (Map_get d' sessions); [now apply Map_has_set | exact Hd].
  - intros V d' data. unfold WalletAddressHandler.walletAddressHandler.
    destruct (isWalletAddress V (Some data)); [|exact Hd].
    destruct (SessionStore.getSession d' sessions); [apply Hset | exact Hd].
  - intros d' Hne. unfold SessionStore.deleteSession, Map_has in *.
    rewrite Map_get_delete_other by congruence. exact Hd.
  - unfold SessionStore.deleteSession, Map_has. now rewrite Map_get_delete_same.
Qed.

Lemma sessions_are_kept_witness :
  Map_has "OTHER" sample_sessions = true /\
  Map_has "OTHER" (snd (SessionStore.createSession "DEVICE" true "zzzzz" 5000 sample_sessions))
    = true /\
  Map_has "OTHER" (SessionStore.deleteSession "OTHER" sample_sessions) = false.
Proof.
  split; [reflexivity|].
  destruct (sessions_are_kept "OTHER" sample_sessions eq_refl) as (Hc & _ & _ & _ & _ & Hd).
  split; [apply Hc | exact Hd].
Defined.

(** * The handler from claim to attestation *)

(** X20: a verified claim attests its order.  When the event passes every
    check for the order [r] (the claimed address is the author's valid
    address, the lookup returns [r], not attested, whose stored data equal
    the claim's data and whose provider is the claim's provider), issuance
    yields a valid unit, and the lookup of the finalize step returns [r] with
    that wallet address, then the handler looks the order up, announces
    success, calls issuance, emits the attested event and replies with the
    unit, in this order, and the store differs from the one before exactly
    in [r], which is attested with the issued unit. *)
Theorem verified_claim_attests_the_order V H from_address data db b64 env wa rest
    message d p r stored unit :
  match_signed_message data = Some b64 ->
  decode_envelope H b64 = Some env ->
  validateSignedMessage_err H env = false ->
  authors env = wa :: rest ->
  parse_signedData H (trim (signed_message env)) = Some (message, d) ->
  VerifyHandler.claim_address message d = Some wa -> wa <> "" ->
  isWalletAddress V (Some wa) = true ->
  isDataObject V (Some d) = true ->
  prop "provider" d = Some p -> isServiceProvider V (Some p) = true ->
  wf_db db ->
  ProviderScoped.getAttestationOrders V (Some (VerifyHandler.defaultServiceProvider H))
    (Some d) (Some wa) false false db = (Returned (VOrder r), db) ->
  status r <> attested ->
  transformDataValuesToObject H (VOrder r) = Some stored -> isEqual stored d = true ->
  service_provider r = Some p -> user_wallet_address r = Some wa ->
  postAttestationProfile H (Some p) (Some wa) d = Some unit ->
  isUnit V (Some unit) = true ->
  ProviderScoped.getAttestationOrders V (Some p) (Some d) (Some wa) true false db
    = (Returned (VOrder r), db) ->
  VerifyHandler.verifyHandler V H from_address data db
  = ([lookupOrder (Some (VerifyHandler.defaultServiceProvider H)) d (Some wa);
      sendMessageToDevice from_address
        (Text "Your data was attested successfully! We will send you unit later.");
      issue (Some p) (Some wa) d;
      emit_ATTESTED (Some p) (Some wa) unit d from_address;
      sendMessageToDevice from_address (Text ("Attestation unit: " ++ unit)%string)],
     mkDb (map (fun x => if id x =? id r then set_unit_attested (Some unit) x else x)
             (rows db))
          (next_id db)).
Proof.
  intros Hm Hd Hv Ha Hp Hadr Hne Hw Hdo Hprov Hsp Hwf Hget Hna Htr Heq Hrsp Hrw Hpost Hu Hget2.
  rewrite (verifyHandler_on_claim V H from_address data db b64 env wa rest Hm Hd Hv Ha).
  unfold VerifyHandler.try_claim. rewrite Hp. cbv zeta. rewrite Hadr, Hw.
  rewrite andb_false_r. cbn [strict_eq]. rewrite String.eqb_refl, orb_true_r.
  rewrite Hget. cbn [Value_truthy]. unfold status_is. cbn [order_status].
  destruct (Status_eqb (status r) attested) eqn:Est.
  { destruct (status r); try discriminate. contradiction. }
  rewrite Htr, Heq. unfold VerifyHandler.provider_matches. rewrite Hprov, Hrsp.
  rewrite String.eqb_refl. cbn [andb].
  unfold VerifyHandler.finalize. cbv zeta. cbn [order_service_provider].
  rewrite Hrsp, Hpost, Hprov.
  rewrite (scoped_finalize_found V p d wa (Some unit) db r Hsp Hu Hw Hne Hdo Hwf Hget2 Hrsp Hrw).
  reflexivity.
Qed.

Lemma verified_claim_attests_the_order_witness :
  VerifyHandler.verifyHandler sample_validation
    (sample_host ADDR1 (claim_owning ADDR1 alice_default) UNIT1) "DEVICE" signed_text
    (mkDb [sample_row 1 (Some "default") alice_default (Some ADDR1) None addressed] 2)
  = ([lookupOrder (Some "default") alice_default (Some ADDR1);
      sendMessageToDevice "DEVICE"
        (Text "Your data was attested successfully! We will send you unit later.");
      issue (Some "default") (Some ADDR1) alice_default;
      emit_ATTESTED (Some "default") (Some ADDR1) UNIT1 alice_default "DEVICE";
      sendMessageToDevice "DEVICE" (Text ("Attestation unit: " ++ UNIT1)%string)],
     db_alice_provider_attested).
Proof.
  assert (Hwf : wf_db (mkDb [sample_row 1 (Some "default") alice_default (Some ADDR1) None
                               addressed] 2)).
  { split; [repeat constructor; intros [] | repeat constructor]. }
  apply (verified_claim_attests_the_order sample_validation
           (sample_host ADDR1 (claim_owning ADDR1 alice_default) UNIT1) "DEVICE" signed_text
           (mkDb [sample_row 1 (Some "default") alice_default (Some ADDR1) None addressed] 2)
           "e30=" (mkEnvelope "{}" [ADDR1]) ADDR1 []
           (Some ("I own the address: " ++ ADDR1)%string) alice_default "default"
           (sample_row 1 (Some "default") alice_default (Some ADDR1) None addressed)
           alice_default UNIT1);
    try reflexivity; try discriminate.
  exact Hwf.
Defined.

(** X21: an event whose claimed address is not a valid wallet address, in
    particular one whose claim carries no address, never changes the store:
    the finalize step validates the address before it writes.  Such an event
    can still reach the issuance call, so a credential can be issued for an
    order that stays as it was. *)
Theorem invalid_address_never_writes V H from_address data db b64 env wa rest message d :
  match_signed_message data = Some b64 ->
  decode_envelope H b64 = Some env ->
  validateSignedMessage_err H env = false ->
  authors env = wa :: rest ->
  parse_signedData H (trim (signed_message env)) = Some (message, d) ->
  isWalletAddress V (VerifyHandler.claim_address message d) = false ->
  snd (VerifyHandler.verifyHandler V H from_address data db) = db.
Proof.
  intros Hm Hd Hv Ha Hp Hinv.
  rewrite (verifyHandler_on_claim V H from_address data db b64 env wa rest Hm Hd Hv Ha).
  unfold VerifyHandler.try_claim. rewrite Hp. cbv zeta.
  destruct (VerifyHandler.uses_phrase message && _); [reflexivity|].
  destruct (negb _ || _)%bool; [|reflexivity].
  destruct (ProviderScoped.getAttestationOrders V _ _ _ false false db)
    as [[order|e] db1] eqn:Hget;
    pose proof (scoped_lookup_same_db _ _ _ _ _ _ _ _ Hget) as ->; [|reflexivity].
  destruct (Value_truthy order); [|reflexivity].
  destruct (status_is order attested); [reflexivity|].
  destruct (transformDataValuesToObject H order) as [stored|]; [|reflexivity].
  destruct (isEqual stored d && VerifyHandler.provider_matches d order); [|reflexivity].
  unfold VerifyHandler.finalize. cbv zeta.
  destruct (postAttestationProfile H _ _ d) as [unit|]; [|reflexivity].
  unfold ProviderScoped.updateUnitAndChangeStatus. rewrite Hinv.
  rewrite andb_false_r. reflexivity.
Qed.

Lemma invalid_address_never_writes_witness :
  existsb is_issue
    (fst (VerifyHandler.verifyHandler sample_validation
            (sample_host ADDR1 (claim_without_address alice_default) UNIT1) "DEVICE"
            signed_text
            (mkDb [sample_row 1 (Some "default") alice_default None None pending] 2)))
    = true /\
  snd (VerifyHandler.verifyHandler sample_validation
         (sample_host ADDR1 (claim_without_address alice_default) UNIT1) "DEVICE" signed_text
         (mkDb [sample_row 1 (Some "default") alice_default None None pending] 2))
  = mkDb [sample_row 1 (Some "default") alice_default None None pending] 2.
Proof.
  split; [reflexivity|].
  apply (invalid_address_never_writes sample_validation
           (sample_host ADDR1 (claim_without_address alice_default) UNIT1) "DEVICE"
           signed_text
           (mkDb [sample_row 1 (Some "default") alice_default None None pending] 2)
           "e30=" (mkEnvelope "{}" [ADDR1]) ADDR1 [] None alice_default);
    reflexivity.
Defined.



(** * Re-pointing the device address *)

Lemma Forall2_map_r {A B} (R : A -> B -> Prop) (f : A -> B) l :
  (forall x, R x (f x)) -> Forall2 R l (map f l).
Proof. intros HR. induction l; cbn; constructor; auto. Qed.

(** X23: [updateDeviceAddressInAttestationOrder] touches the device pointer
    only.  Whatever its arguments, every row of the store after the call is
    the row that was there, or that row with the new device address; the
    latter only for a row with the given id that is not attested.  Status,
    data, wallet address and unit of every order, and the next id, are as
    before. *)
Theorem device_update_touches_only_the_pointer orderId deviceAddress db :
  next_id (snd (Providerless.updateDeviceAddressInAttestationOrder orderId deviceAddress db))
  = next_id db /\
  Forall2
    (fun x y =>
       y = x \/
       (y = set_device deviceAddress x /\ orderId = Some (id x) /\ status x <> attested))
    (rows db)
    (rows (snd (Providerless.updateDeviceAddressInAttestationOrder orderId deviceAddress db))).
Proof.
  unfold Providerless.updateDeviceAddressInAttestationOrder.
  destruct (_ && truthy deviceAddress).
  - unfold db_update. cbn [snd]. split; [reflexivity|]. unfold sql_update. cbn [rows].
    apply Forall2_map_r. intros x.
    destruct (where_ _ x) eqn:Ew; [|now left]. right.
    destruct orderId as [n|].
    + rewrite where_not_attested_id in Ew. apply andb_true_iff in Ew.
      destruct Ew as [Hst Hid]. apply Z.eqb_eq in Hid. subst n.
      split; [reflexivity | split; [reflexivity|]].
      intros E. rewrite E in Hst. discriminate.
    + unfold where_ in Ew. cbn in Ew. destruct (negb _); discriminate.
  - unfold throw. cbn [snd]. split; [reflexivity|].
    induction (rows db); constructor; auto.
Qed.
